(** * GLM-130B evaluation and inference: sequence encoding, collation,
      scoring and mask splicing

    A shallow embedding of

    - [examples/glm-130B/evaluation/dataset.py]
      ([pad_batch], [GenerationTaskDataset.build_generation_sample],
      [MultiChoiceTaskDataset.process_single_item],
      [MultiChoiceTaskDataset.build_multiple_choice_sample],
      [MultiChoiceTaskDataset.collate_fn]),
    - [examples/glm-130B/evaluation/model.py]
      ([ModelForEvaluation.process_data], [ModelForEvaluation.cond_log_prob]),
    - [examples/glm-130B/inference.py]
      ([get_masks_and_position_ids_mask] and the fill-back step of [process]).

    Python integers (token ids, lengths, indices) are [Z]; Python lists and
    one-dimensional numpy arrays are [list Z]; two-dimensional arrays are
    lists of rows.  Exceptions are the [Err] side of [result]. *)

From Stdlib Require Import String ZArith List Bool Lia.
Import ListNotations.
Open Scope Z_scope.

(** ** Exceptions *)

Inductive error : Type :=
| AssertionError (msg : string)
| ValueError
| IndexError
| TypeError.

Inductive result (A : Type) : Type :=
| Ok (a : A)
| Err (e : error).
Arguments Ok {A} a.
Arguments Err {A} e.

Definition bind {A B : Type} (r : result A) (k : A -> result B) : result B :=
  match r with
  | Ok a => k a
  | Err e => Err e
  end.

Notation "x <- r ;; k" := (bind r (fun x => k))
  (at level 61, r at next level, right associativity).
Notation "' pat <- r ;; k" := (bind r (fun x => match x with pat => k end))
  (at level 61, pat pattern, r at next level, right associativity).

(** [assert cond, msg] *)
Definition assert (cond : bool) (msg : string) : result unit :=
  if cond then Ok tt else Err (AssertionError msg).

(** ** Python and numpy primitives *)

Module Py.

Definition len {A : Type} (l : list A) : Z := Z.of_nat (length l).

(** A slice bound [k] on a sequence of length [n], as [slice.indices]
    does for step 1: negative bounds count from the end, and everything
    is clipped to [0, n]. *)
Definition norm_bound (n k : Z) : Z :=
  if k <? 0 then Z.max 0 (k + n) else Z.min k n.

(** [l[lo:hi]] *)
Definition slice {A : Type} (l : list A) (lo hi : Z) : list A :=
  let lo' := norm_bound (len l) lo in
  let hi' := norm_bound (len l) hi in
  firstn (Z.to_nat (hi' - lo')) (skipn (Z.to_nat lo') l).

(** [l[i]]: a negative index counts from the end. *)
Definition getitem {A : Type} (l : list A) (i : Z) : result A :=
  let j := if i <? 0 then i + len l else i in
  if j <? 0 then Err IndexError
  else match nth_error l (Z.to_nat j) with
       | Some x => Ok x
       | None => Err IndexError
       end.

Fixpoint index_from (x : Z) (l : list Z) (i : Z) : result Z :=
  match l with
  | [] => Err ValueError
  | y :: t => if y =? x then Ok i else index_from x t (i + 1)
  end.

(** [l.index(x)] *)
Definition index (x : Z) (l : list Z) : result Z := index_from x l 0.

(** [x in l] *)
Definition contains (x : Z) (l : list Z) : bool := existsb (Z.eqb x) l.

Fixpoint imap_from {A B : Type} (f : Z -> A -> B) (i : Z) (l : list A) : list B :=
  match l with
  | [] => []
  | x :: t => f i x :: imap_from f (i + 1) t
  end.

(** Map with the (integer) position of each element. *)
Definition imap {A B : Type} (f : Z -> A -> B) (l : list A) : list B :=
  imap_from f 0 l.

(** [np.arange(lo, hi)] *)
Definition arange (lo hi : Z) : list Z :=
  map (fun k => lo + Z.of_nat k) (seq 0 (Z.to_nat (hi - lo))).

(** [np.zeros(n)]: a negative dimension is refused. *)
Definition zeros (n : Z) : result (list Z) :=
  if n <? 0 then Err ValueError else Ok (repeat 0 (Z.to_nat n)).

(** A two-dimensional array, as its list of rows. *)
Definition matrix : Type := list (list Z).

(** Number of columns of an array with at least one row. *)
Definition ncols (m : matrix) : nat :=
  match m with
  | [] => 0%nat
  | row :: _ => length row
  end.

(** [np.ones((n, n))] for a length [n]. *)
Definition ones (n : nat) : matrix := repeat (repeat 1 n) n.

(** [np.ones((n, n))] for an integer [n]: a negative dimension is refused. *)
Definition ones_sq (n : Z) : result matrix :=
  if n <? 0 then Err ValueError else Ok (ones (Z.to_nat n)).

(** [np.tril(m)]: entries above the diagonal become 0. *)
Definition tril (m : matrix) : matrix :=
  imap (fun i row => imap (fun j x => if j <=? i then x else 0) row) m.

(** [a[start:] = v] on a one-dimensional array. *)
Definition assign_from (start v : Z) (a : list Z) : list Z :=
  let s := norm_bound (len a) start in
  imap (fun i x => if s <=? i then v else x) a.

(** [m[:rstop, :cstop] = v] on a two-dimensional array. *)
Definition assign_block (rstop cstop v : Z) (m : matrix) : matrix :=
  let r := norm_bound (len m) rstop in
  imap (fun i row =>
          let c := norm_bound (len row) cstop in
          imap (fun j x => if (i <? r) && (j <? c) then v else x) row) m.

(** [m[..., :cstop] = v]: the first columns of every row. *)
Definition assign_cols (cstop v : Z) (m : matrix) : matrix :=
  map (fun row =>
         let c := norm_bound (len row) cstop in
         imap (fun j x => if j <? c then v else x) row) m.

(** [np.pad(m, pad_width=((0, k),), mode="constant", constant_values=0)]:
    [k] zeros after the end of every axis; a negative width is refused. *)
Definition pad_zeros (m : matrix) (k : nat) : matrix :=
  map (fun row => row ++ repeat 0 k) m ++ repeat (repeat 0 (ncols m + k)) k.

Definition pad (m : matrix) (k : Z) : result matrix :=
  if k <? 0 then Err ValueError else Ok (pad_zeros m (Z.to_nat k)).

(** [max(l)] of a list of integers. *)
Definition max (l : list Z) : result Z :=
  match l with
  | [] => Err ValueError
  | x :: t => Ok (fold_left Z.max t x)
  end.

(** [np.array(ms)] of a list of two-dimensional arrays: they must all
    have one shape. *)
Definition stack (ms : list matrix) : result (list matrix) :=
  match ms with
  | [] => Ok []
  | m :: rest =>
      if forallb (fun m' => Nat.eqb (length m') (length m)
                            && Nat.eqb (ncols m') (ncols m)) rest
      then Ok ms else Err ValueError
  end.

(** [m < 0.5] on an integer array: an integer is below one half exactly
    when it is below 1. *)
Definition lt_half (m : matrix) : list (list bool) :=
  map (map (fun x => x <? 1)) m.

(** Entry [(r, c)] of a two-dimensional array. *)
Definition entry {A : Type} (m : list (list A)) (r c : nat) : option A :=
  match nth_error m r with
  | Some row => nth_error row c
  | None => None
  end.

End Py.

(** ** [pad_batch] *)

Definition pad_batch (tokens position_ids : list Z) (attention_mask : Py.matrix)
    (max_seq_length : Z) : result (list Z * list Z * Py.matrix) :=
  attention_mask <- Py.pad attention_mask (max_seq_length - Py.len tokens) ;;
  zt <- Py.zeros (max_seq_length - Py.len tokens) ;;
  let tokens' := tokens ++ zt in
  zp <- Py.zeros (max_seq_length - Py.len position_ids) ;;
  let position_ids := position_ids ++ zp in
  Ok (tokens', position_ids, attention_mask).

(** ** [GenerationTaskDataset]

    [tokenizer.get_command(name)] is the only thing the encoders ask of the
    tokenizer; it is a parameter of each of them. *)

Module GenerationTaskDataset.
Section Encoding.

Variable get_command : string -> Z.

(** *** [GenerationTaskDataset.build_generation_sample] *)

Record gen_item : Type := {
  tokens : list Z;
  position_ids : list Z;
  attention_mask : list (list bool);
  context_length : Z
}.

(** The mask id the generation encoder looks for. *)
Definition gen_mask_id (use_task_mask : bool) : Z :=
  if use_task_mask then get_command "[gMASK]" else get_command "[MASK]".

(** Lines 88-99: the token sequence with its control tokens, and the
    position the predicted span is anchored at. *)
Definition gen_tokens (text : list Z) (use_task_mask unidirectional : bool)
  : result (Z * list Z) :=
  let sop_id := get_command "sop" in
  let mask_id := gen_mask_id use_task_mask in
  let token := text in
  let blank_filling := Py.contains mask_id text in
  if blank_filling then
    _ <- assert (negb unidirectional)
           "Unidirectional attention doesn't support blank filling" ;;
    _ <- assert (negb use_task_mask)
           "Unidirectional attention doesn't support task mask" ;;
    mask_position <- Py.index mask_id text ;;
    Ok (mask_position, token ++ [sop_id])
  else
    let mask_position := Py.len token in
    if unidirectional then Ok (mask_position, [mask_id; sop_id] ++ token)
    else Ok (mask_position, token ++ [mask_id; sop_id]).

(** Lines 106-108: the 0/1 visibility matrix, before it is compared with
    one half. *)
Definition gen_visibility (max_seq_length context_length : Z)
    (unidirectional : bool) : result Py.matrix :=
  ones <- Py.ones_sq max_seq_length ;;
  let attention_mask := Py.tril ones in
  Ok (if negb unidirectional
      then Py.assign_block (context_length - 1) (context_length - 1) 1 attention_mask
      else attention_mask).

Definition build_generation_sample (text : list Z) (max_seq_length : Z)
    (use_task_mask unidirectional : bool) : result gen_item :=
  '(mask_position, token) <- gen_tokens text use_task_mask unidirectional ;;
  let context_length := Py.len token in
  let position_id := Py.arange 0 max_seq_length in
  let position_id :=
    if negb use_task_mask
    then Py.assign_from (context_length - 1) mask_position position_id
    else position_id in
  attention_mask <- gen_visibility max_seq_length context_length unidirectional ;;
  pad <- Py.zeros (max_seq_length - Py.len token) ;;
  Ok {| tokens := token ++ pad;
        position_ids := position_id;
        attention_mask := Py.lt_half attention_mask;
        context_length := context_length |}.

(** *** The dataset: [process_single_item], [__init__], [__getitem__] *)

Record config : Type := {
  max_seq_length : Z;
  use_task_mask : bool;
  unidirectional : bool
}.

(** One line of the data file. *)
Record json_item : Type := {
  inputs : list Z;
  json_targets : list (list Z)
}.

(** One entry of [self.data]. *)
Record data_item : Type := {
  text : list Z;
  targets : list (list Z)
}.

(** [process_single_item]: the text keeps its last tokens when it does not
    fit with the longest target and the two control tokens. *)
Definition process_single_item (cfg : config) (item : json_item) : result data_item :=
  let text := inputs item in
  let targets := json_targets item in
  max_tgt_seq_length <- Py.max (map Py.len targets) ;;
  let text :=
    if Py.len text + max_tgt_seq_length + 2 >? max_seq_length cfg then
      let text_length := max_seq_length cfg - max_tgt_seq_length - 2 in
      Py.slice text (Py.len text - text_length) (Py.len text)
    else text in
  Ok {| text := text; targets := targets |}.

(** The loop of [EvaluationDataset.__init__] over the lines of the file. *)
Fixpoint process_items (cfg : config) (items : list json_item) (data : list data_item)
  : result (list data_item) :=
  match items with
  | [] => Ok data
  | item :: rest =>
      d <- process_single_item cfg item ;;
      process_items cfg rest (data ++ [d])
  end.

Definition init (cfg : config) (items : list json_item) : result (list data_item) :=
  process_items cfg items [].

(** [__getitem__]: the sample with its targets. *)
Definition getitem (cfg : config) (data : list data_item) (idx : Z)
  : result (gen_item * list (list Z)) :=
  item <- Py.getitem data idx ;;
  sample <- build_generation_sample (text item) (max_seq_length cfg)
              (use_task_mask cfg) (unidirectional cfg) ;;
  Ok (sample, targets item).

End Encoding.
End GenerationTaskDataset.

(** ** [MultiChoiceTaskDataset] *)

Module MultiChoiceTaskDataset.

(** What [sample["choices"]] can hold: the item's list of choices, or
    what [np.array(choices).squeeze().tolist()] makes of it. *)
Inductive py_choices : Type :=
| ChoiceInt (c : Z)
| ChoiceIds (cs : list Z)
| ChoiceLists (cs : list (list Z)).

(** What [sample["choice_target_ids"]] can hold: the first choice's index
    array, or the list of every choice's index array. *)
Inductive target_ids : Type :=
| TargetFirst (ids : list Z)
| TargetEach (ids : list (list Z)).

Record sample : Type := {
  token : list Z;
  position_id : list Z;
  attention_mask : Py.matrix;
  choices : py_choices;
  choice_target_ids : target_ids
}.

(** [scipy.linalg.block_diag] of two arrays. *)
Definition block_diag2 (a b : Py.matrix) : Py.matrix :=
  map (fun row => row ++ repeat 0 (Py.ncols b)) a
  ++ map (fun row => repeat 0 (Py.ncols a) ++ row) b.

(** [scipy.linalg.block_diag] of a list of arrays. *)
Definition block_diag (blocks : list Py.matrix) : Py.matrix :=
  fold_right block_diag2 [] blocks.

(** [np.array(choices, dtype=np.int64).squeeze().tolist()]: a ragged list
    is refused; of the shape [(n, m)] every axis of size 1 is dropped. *)
Definition squeeze_tolist (choices : list (list Z)) : result py_choices :=
  match choices with
  | [] => Ok (ChoiceIds [])
  | c :: rest =>
      if forallb (fun c' => Nat.eqb (length c') (length c)) rest then
        match rest, c with
        | [], [x] => Ok (ChoiceInt x)
        | [], _ => Ok (ChoiceIds c)
        | _ :: _, [_] => Ok (ChoiceIds (concat choices))
        | _ :: _, _ => Ok (ChoiceLists choices)
        end
      else Err ValueError
  end.

Section Encoding.

Variable get_command : string -> Z.

(** The variables the loop over the choices updates. *)
Record loop_state : Type := {
  st_token : list Z;
  st_target : list Z;
  st_position_id : list Z;
  st_choice_target_id : list (list Z);
  st_attention_mask : list Py.matrix
}.

(** Lines 218-229: the body of [for choice in choices]. *)
Definition append_choice (blank_filling unified_multitask_encoding : bool)
    (mask_position : Z) (choice : list Z) (st : loop_state) : loop_state :=
  let sop_id := get_command "sop" in
  {| st_position_id :=
       st_position_id st ++
       (if blank_filling || negb unified_multitask_encoding
        then repeat mask_position (length choice)
        else Py.arange mask_position (mask_position + Py.len choice));
     st_choice_target_id :=
       st_choice_target_id st ++
       [Py.arange (Py.len (st_token st)) (Py.len (st_token st) + Py.len choice)];
     st_attention_mask :=
       st_attention_mask st ++ [Py.tril (Py.ones (length choice))];
     st_token := st_token st ++ [sop_id] ++ removelast choice;
     st_target := st_target st ++ choice |}.

(** Lines 217-232: the loop, left after the first choice when
    [is_single_token]. *)
Fixpoint for_choices (is_single_token blank_filling unified_multitask_encoding : bool)
    (mask_position : Z) (choices : list (list Z)) (st : loop_state) : loop_state :=
  match choices with
  | [] => st
  | choice :: rest =>
      let st := append_choice blank_filling unified_multitask_encoding
                  mask_position choice st in
      if is_single_token then st
      else for_choices is_single_token blank_filling unified_multitask_encoding
             mask_position rest st
  end.

(** Lines 200-212: the context, with a mask appended unless it has one. *)
Definition context_prefix (text : list Z) : result (Z * loop_state) :=
  let mask_id := get_command "[MASK]" in
  let token := text in
  let target := text in
  let position_id := Py.arange 0 (Py.len text) in
  let blank_filling := Py.contains mask_id text in
  if negb blank_filling then
    let mask_position := Py.len token in
    Ok (mask_position,
        {| st_token := token ++ [mask_id];
           st_target := target ++ [mask_id];
           st_position_id := position_id ++ [mask_position];
           st_choice_target_id := [];
           st_attention_mask := [] |})
  else
    mask_position <- Py.index mask_id text ;;
    Ok (mask_position,
        {| st_token := token;
           st_target := target;
           st_position_id := position_id;
           st_choice_target_id := [];
           st_attention_mask := [] |}).

(** Line 215: the list of blocks starts with the all-ones block of the
    context. *)
Definition context_block (st : loop_state) : loop_state :=
  {| st_token := st_token st;
     st_target := st_target st;
     st_position_id := st_position_id st;
     st_choice_target_id := st_choice_target_id st;
     st_attention_mask := [Py.ones (length (st_token st))] |}.

(** The 0/1 visibility matrix of lines 234-235. *)
Definition visibility (division : Z) (st : loop_state) : Py.matrix :=
  let attention_mask := block_diag (st_attention_mask st) in
  Py.assign_block (Py.len (st_token st)) division 1 attention_mask.

Definition build_multiple_choice_sample (text : list Z) (choices : list (list Z))
    (is_single_token unified_multitask_encoding : bool) : result sample :=
  let mask_id := get_command "[MASK]" in
  let blank_filling := Py.contains mask_id text in
  '(mask_position, st) <- context_prefix text ;;
  let division := Py.len (st_token st) in
  let st := context_block st in
  let st := for_choices is_single_token blank_filling unified_multitask_encoding
              mask_position choices st in
  let attention_mask := visibility division st in
  choices' <- (if is_single_token
               then squeeze_tolist choices
               else Ok (ChoiceLists choices)) ;;
  choice_target_ids' <-
    (if is_single_token
     then ids <- Py.getitem (st_choice_target_id st) 0 ;; Ok (TargetFirst ids)
     else Ok (TargetEach (st_choice_target_id st))) ;;
  Ok {| token := st_token st;
        position_id := st_position_id st;
        attention_mask := attention_mask;
        choices := choices';
        choice_target_ids := choice_target_ids' |}.

(** *** The dataset: [__init__], [process_single_item], [__getitem__] *)

Record config : Type := {
  max_seq_length : Z;
  use_multitask_encoding : bool
}.

(** One line of the data file. *)
Record json_item : Type := {
  inputs : list Z;
  json_choices : list (list Z);
  json_label : Z
}.

(** One entry of [self.data]. *)
Record data_item : Type := {
  text : list Z;
  item_choices : list (list Z);
  label : Z
}.

(** [sum([len(choice) for choice in choices])], with the single-token
    case of lines 171-173. *)
Definition tgt_seq_length (choices : list (list Z)) : Z :=
  let n := fold_right Z.add 0 (map Py.len choices) in
  if n =? Py.len choices then 1 else n.

(** [process_single_item]; [self.is_single_token] is passed in and
    handed back. *)
Definition process_single_item (cfg : config) (is_single_token : bool)
    (item : json_item) : result (bool * data_item) :=
  let text := inputs item in
  let choices := json_choices item in
  let tgt := tgt_seq_length choices in
  _ <- assert (tgt <? max_seq_length cfg) EmptyString ;;
  let text :=
    if Py.len text + tgt + 2 >? max_seq_length cfg then
      let text_length := max_seq_length cfg - tgt - 2 in
      Py.slice text (Py.len text - text_length) (Py.len text)
    else text in
  _ <- assert (negb (Py.contains (get_command "[MASK]") text
                     && use_multitask_encoding cfg))
         "Unified multitask encoding don't support blank filling" ;;
  let is_single_token := if negb (tgt =? 1) then false else is_single_token in
  Ok (is_single_token,
      {| text := text; item_choices := choices; label := json_label item |}).

(** The loop of [EvaluationDataset.__init__] over the lines of the file. *)
Fixpoint process_items (cfg : config) (items : list json_item)
    (is_single_token : bool) (data : list data_item)
  : result (bool * list data_item) :=
  match items with
  | [] => Ok (is_single_token, data)
  | item :: rest =>
      '(is_single_token, d) <- process_single_item cfg is_single_token item ;;
      process_items cfg rest is_single_token (data ++ [d])
  end.

Record dataset : Type := {
  ds_config : config;
  is_single_token : bool;
  data : list data_item
}.

(** [MultiChoiceTaskDataset.__init__]: the flag starts as [True]. *)
Definition init (cfg : config) (items : list json_item) : result dataset :=
  '(flag, d) <- process_items cfg items true [] ;;
  Ok {| ds_config := cfg; is_single_token := flag; data := d |}.

(** [__getitem__]: the sample with its label. *)
Definition getitem (ds : dataset) (idx : Z) : result (sample * Z) :=
  item <- Py.getitem (data ds) idx ;;
  s <- build_multiple_choice_sample (text item) (item_choices item)
         (is_single_token ds) (use_multitask_encoding (ds_config ds)) ;;
  Ok (s, label item).

End Encoding.

(** *** [collate_fn] *)

Record batch : Type := {
  tokens : list (list Z);
  position_ids : list (list Z);
  batch_attention_mask : list (list (list bool));
  batch_choices : list py_choices;
  batch_choice_target_ids : list target_ids;
  batch_is_single_token : bool
}.

Definition TILE : Z := 32.

Definition length_to_pad (samples : list sample) : result Z :=
  m <- Py.max (map (fun spl => Py.len (token spl)) samples) ;;
  Ok ((m + TILE - 1) / TILE * TILE).

(** Lines 148-156: the three padded arrays of every sample. *)
Fixpoint pad_samples (samples : list sample) (length_to_pad : Z)
  : result (list (list Z) * list (list Z) * list Py.matrix) :=
  match samples with
  | [] => Ok ([], [], [])
  | spl :: rest =>
      '(tok, pos, att) <- pad_batch (token spl) (position_id spl)
                            (attention_mask spl) length_to_pad ;;
      '(toks, poss, atts) <- pad_samples rest length_to_pad ;;
      Ok (tok :: toks, pos :: poss, att :: atts)
  end.

(** [collate_fn]; [self_is_single_token] is the dataset's flag. *)
Definition collate_fn (self_is_single_token : bool) (samples : list sample)
  : result batch :=
  l <- length_to_pad samples ;;
  '(token_batch, position_id_batch, attention_mask_batch) <- pad_samples samples l ;;
  attention_mask_batch <- Py.stack attention_mask_batch ;;
  Ok {| tokens := token_batch;
        position_ids := position_id_batch;
        batch_attention_mask := map Py.lt_half attention_mask_batch;
        batch_choices := map choices samples;
        batch_choice_target_ids := map choice_target_ids samples;
        batch_is_single_token := self_is_single_token |}.

End MultiChoiceTaskDataset.

(** ** [ModelForEvaluation]

    Log-probabilities are floating-point numbers; only their sums are
    taken, so they are kept abstract: a type [score] with its zero and its
    addition.  The network followed by [log_softmax] is a parameter. *)

Module ModelForEvaluation.
Import MultiChoiceTaskDataset.

Section Scoring.

Variable score : Type.
Variable score_zero : score.
Variable score_add : score -> score -> score.

(** [log_softmax(self.model(tokens, position_ids, attention_mask))],
    of shape [b, sq, vocab]. *)
Variable model_log_softmax :
  list (list Z) -> list (list Z) -> list (list (list (list bool))) ->
  list (list (list score)).

(** [process_data]: [unsqueeze(1)] puts every sample's mask in a
    one-element axis. *)
Definition process_data (b : batch)
  : list (list Z) * list (list Z) * list (list (list (list bool))) :=
  (tokens b, position_ids b, map (fun m => [m]) (batch_attention_mask b)).

(** What [.tolist()] gives for one sample in single-token mode. *)
Inductive py_scores : Type :=
| ScoreFloat (s : score)
| ScoreList (l : list score).

(** [logits[t, c]] *)
Definition gather (logits : list (list score)) (t c : Z) : result score :=
  row <- Py.getitem logits t ;;
  Py.getitem row c.

Fixpoint gather_all (logits : list (list score)) (tcs : list (Z * Z))
  : result (list score) :=
  match tcs with
  | [] => Ok []
  | (t, c) :: rest =>
      s <- gather logits t c ;;
      ss <- gather_all logits rest ;;
      Ok (s :: ss)
  end.

(** Two index arrays used together are broadcast against each other. *)
Definition broadcast (ts cs : list Z) : result (list (Z * Z)) :=
  if Nat.eqb (length ts) (length cs) then Ok (combine ts cs)
  else match ts, cs with
       | [t], _ => Ok (map (fun c => (t, c)) cs)
       | _, [c] => Ok (map (fun t => (t, c)) ts)
       | _, _ => Err IndexError
       end.

(** Line 45: [logits[choice_target_ids[0], choices].tolist()].  A batch
    that [collate_fn] made from a single-token dataset holds a
    [TargetFirst] and a squeezed choice list for every sample; the
    other shapes are given [TypeError] here. *)
Definition single_token_scores (logits : list (list score))
    (cs : py_choices) (tids : target_ids) : result py_scores :=
  match tids with
  | TargetFirst ids =>
      t <- Py.getitem ids 0 ;;
      match cs with
      | ChoiceInt c => s <- gather logits t c ;; Ok (ScoreFloat s)
      | ChoiceIds l =>
          ss <- gather_all logits (map (fun c => (t, c)) l) ;;
          Ok (ScoreList ss)
      | ChoiceLists _ => Err TypeError
      end
  | TargetEach _ => Err TypeError
  end.

(** [tmp.sum()] *)
Definition sum (l : list score) : score := fold_left score_add l score_zero.

(** Lines 48-51: [log_probs_single] after the inner loop, over
    [zip(choices, choice_target_ids)]. *)
Fixpoint multi_token_scores (output : list (list score))
    (cs tids : list (list Z)) : result (list score) :=
  match cs, tids with
  | choice :: cs', choice_target_id :: tids' =>
      idx <- broadcast choice_target_id choice ;;
      tmp <- gather_all output idx ;;
      rest <- multi_token_scores output cs' tids' ;;
      Ok (sum tmp :: rest)
  | _, _ => Ok []
  end.

(** [log_probs_single] of one sample of a multi-token batch. *)
Definition log_probs_single (output : list (list score))
    (cs : py_choices) (tids : target_ids) : result (list score) :=
  match cs, tids with
  | ChoiceLists cs, TargetEach tids => multi_token_scores output cs tids
  | _, _ => Err TypeError
  end.

(** Lines 44-45, over [zip(logits_batch, choices_batch,
    choice_target_ids_batch)]: every sample's scores are appended. *)
Fixpoint single_token_loop (logits_batch : list (list (list score)))
    (choices_batch : list py_choices) (choice_target_ids_batch : list target_ids)
    (log_probs : list py_scores) : result (list py_scores) :=
  match logits_batch, choices_batch, choice_target_ids_batch with
  | logits :: lb, cs :: cb, tids :: tb =>
      s <- single_token_scores logits cs tids ;;
      single_token_loop lb cb tb (log_probs ++ [s])
  | _, _, _ => Ok log_probs
  end.

(** Lines 47-51: [log_probs_single] is computed for every sample and
    nothing is appended to [log_probs]. *)
Fixpoint multi_token_loop (logits_batch : list (list (list score)))
    (choices_batch : list py_choices) (choice_target_ids_batch : list target_ids)
    (log_probs : list py_scores) : result (list py_scores) :=
  match logits_batch, choices_batch, choice_target_ids_batch with
  | output :: lb, cs :: cb, tids :: tb =>
      _ <- log_probs_single output cs tids ;;
      multi_token_loop lb cb tb log_probs
  | _, _, _ => Ok log_probs
  end.

Definition cond_log_prob (b : batch) : result (list py_scores) :=
  let '(tokens, position_ids, attention_mask) := process_data b in
  let choices_batch := batch_choices b in
  let choice_target_ids_batch := batch_choice_target_ids b in
  let is_single_token := batch_is_single_token b in
  let logits_batch := model_log_softmax tokens position_ids attention_mask in
  let log_probs := [] in
  if is_single_token
  then single_token_loop logits_batch choices_batch choice_target_ids_batch log_probs
  else multi_token_loop logits_batch choices_batch choice_target_ids_batch log_probs.

(** What the multi-token branch is described to return: for every
    sample the list of its choices' summed log-probabilities
    ([log_probs_single] appended to [log_probs]). *)
Fixpoint described_multi_token_loop (logits_batch : list (list (list score)))
    (choices_batch : list py_choices) (choice_target_ids_batch : list target_ids)
    (log_probs : list py_scores) : result (list py_scores) :=
  match logits_batch, choices_batch, choice_target_ids_batch with
  | output :: lb, cs :: cb, tids :: tb =>
      s <- log_probs_single output cs tids ;;
      described_multi_token_loop lb cb tb (log_probs ++ [ScoreList s])
  | _, _, _ => Ok log_probs
  end.

End Scoring.

(** *** [generate_text]

    [filling_sequence], with the network, the strategy and the sample's
    masks and position ids it is given, is a parameter: from the sequence
    to fill and the sample to the list of output lines. *)

Section Generation.

Variable filling_sequence :
  list Z -> GenerationTaskDataset.gen_item -> list (list Z).

(** Lines 60-62: the tokens up to [max_length], with everything after the
    context set to the sentinel [-1]. *)
Definition sequence_to_fill (sample : GenerationTaskDataset.gen_item) (max_length : Z)
  : list Z :=
  let seq := Py.slice (GenerationTaskDataset.tokens sample) 0 max_length in
  Py.assign_from (GenerationTaskDataset.context_length sample) (-1) seq.

(** Lines 86-90: one output line cut down to the generated tokens. *)
Definition output_target (end_tokens : list Z) (context_length : Z) (line : list Z)
  : result (list Z) :=
  let unfinished :=
    if Py.contains (-1) line
    then match Py.index (-1) line with Ok i => i | Err _ => Py.len line end
    else Py.len line in
  last_token <- Py.getitem line (unfinished - 1) ;;
  let unfinished :=
    if Py.contains last_token end_tokens then unfinished - 1 else unfinished in
  Ok (Py.slice line context_length unfinished).

Fixpoint output_targets (end_tokens : list Z) (context_length : Z)
    (output : list (list Z)) : result (list (list Z)) :=
  match output with
  | [] => Ok []
  | line :: rest =>
      t <- output_target end_tokens context_length line ;;
      ts <- output_targets end_tokens context_length rest ;;
      Ok (t :: ts)
  end.

Definition generate_text (sample : GenerationTaskDataset.gen_item)
    (end_tokens : list Z) (max_length : Z) : result (list (list Z)) :=
  let seq := sequence_to_fill sample max_length in
  let context_length := GenerationTaskDataset.context_length sample in
  let output := filling_sequence seq sample in
  output_targets end_tokens context_length output.

End Generation.

End ModelForEvaluation.

(** ** [tasks.py]: [MultiChoiceTask.predict_single_batch]

    Scores are only compared here: [score_gtb x y] is [x > y]. *)

Module MultiChoiceTask.

Section Predict.

Variable score : Type.
Variable score_zero : score.
Variable score_add : score -> score -> score.
Variable score_gtb : score -> score -> bool.

Variable model_log_softmax :
  list (list Z) -> list (list Z) -> list (list (list (list bool))) ->
  list (list (list score)).

(** Every entry a number: a one-dimensional array. *)
Fixpoint all_floats (l : list (ModelForEvaluation.py_scores score))
  : option (list score) :=
  match l with
  | [] => Some []
  | ModelForEvaluation.ScoreFloat _ x :: rest =>
      match all_floats rest with
      | Some xs => Some (x :: xs)
      | None => None
      end
  | ModelForEvaluation.ScoreList _ _ :: _ => None
  end.

(** Every entry a list: the rows of a two-dimensional array. *)
Fixpoint all_lists (l : list (ModelForEvaluation.py_scores score))
  : option (list (list score)) :=
  match l with
  | [] => Some []
  | ModelForEvaluation.ScoreList _ row :: rest =>
      match all_lists rest with
      | Some rows => Some (row :: rows)
      | None => None
      end
  | ModelForEvaluation.ScoreFloat _ _ :: _ => None
  end.

(** The elements of [np.array(l)] in row order; a list that is neither
    all numbers nor all rows of one length is refused. *)
Definition flattened (l : list (ModelForEvaluation.py_scores score))
  : result (list score) :=
  match all_floats l with
  | Some xs => Ok xs
  | None =>
      match all_lists l with
      | Some (row :: rows) =>
          if forallb (fun r => Nat.eqb (length r) (length row)) rows
          then Ok (concat (row :: rows)) else Err ValueError
      | _ => Err ValueError
      end
  end.

(** The scan of [argmax]: the index of the first element that none of the
    later ones is greater than. *)
Fixpoint argmax_from (best : score) (best_i i : Z) (l : list score) : Z :=
  match l with
  | [] => best_i
  | x :: rest =>
      if score_gtb x best then argmax_from x i (i + 1) rest
      else argmax_from best best_i (i + 1) rest
  end.

(** [np.argmax(l)]: the flat index of the first greatest element; an empty
    sequence is refused. *)
Definition np_argmax (l : list (ModelForEvaluation.py_scores score)) : result Z :=
  xs <- flattened l ;;
  match xs with
  | [] => Err ValueError
  | x :: rest => Ok (argmax_from x 0 1 rest)
  end.

Definition predict_single_batch (b : MultiChoiceTaskDataset.batch) : result Z :=
  log_probs <- ModelForEvaluation.cond_log_prob score score_zero score_add
                 model_log_softmax b ;;
  np_argmax log_probs.

End Predict.

End MultiChoiceTask.

(** ** [inference.py] *)

Module Inference.

(** [get_masks_and_position_ids_gmask] *)
Definition get_masks_and_position_ids_gmask (seq : list Z)
    (mask_position context_length : Z)
  : list (list Z) * list (list Py.matrix) * list (list Z) :=
  let tokens := [seq] in
  let attention_mask := Py.tril (Py.ones (length seq)) in
  let attention_mask := Py.assign_cols (context_length - 1) 1 attention_mask in
  let position_ids := Py.arange 0 (Py.len seq) in
  (tokens, [[attention_mask]], [position_ids]).

(** [get_masks_and_position_ids_mask] *)
Definition get_masks_and_position_ids_mask (seq : list Z)
    (mask_position context_length : Z)
  : list (list Z) * list (list Py.matrix) * list (list Z) :=
  let tokens := [seq] in
  let attention_mask := Py.tril (Py.ones (length seq)) in
  let attention_mask := Py.assign_cols (context_length - 1) 1 attention_mask in
  let position_ids := Py.arange 0 (Py.len seq) in
  let position_ids := Py.assign_from (context_length - 1) mask_position position_ids in
  (tokens, [[attention_mask]], [position_ids]).

(** Lines 130-135 of [process]: the first mask of the working sequence,
    or its length when it has none. *)
Definition detect (mask_tokens : Z) (seq : list Z) : Z :=
  let mask_position := Py.len seq in
  match Py.index mask_tokens seq with
  | Ok i => Z.min mask_position i
  | Err _ => mask_position
  end.

(** Lines 173-178: where the unfilled tail of a decoder output begins. *)
Definition unfinished_of (end_tokens : list Z) (output : list Z) : result Z :=
  let unfinished :=
    match Py.index (-1) output with
    | Ok i => i
    | Err _ => Py.len output
    end in
  last_token <- Py.getitem output (unfinished - 1) ;;
  Ok (if Py.contains last_token end_tokens then unfinished - 1 else unfinished).

(** Lines 172-180: one decoder output filled back into the sequence. *)
Definition fill_back (sop : Z) (end_tokens : list Z) (mask_position : Z)
    (output : list Z) : result (list Z) :=
  unfinished <- unfinished_of end_tokens output ;;
  bog <- Py.index sop output ;;
  Ok (Py.slice output 0 mask_position
      ++ Py.slice output (bog + 1) unfinished
      ++ Py.slice output (mask_position + 1) bog).

(** *** The loop of [process] that fills the masks

    [filling_sequence], with the network and the strategy, is a parameter:
    from its state (the strategy's, the random generator's), the sequence
    to fill, the batch size, and the mask position and context length its
    masks are built from, to the output lines and its next state. *)

Section Process.

Variable get_command : string -> Z.
Variable decoder_state : Type.
Variable filling_sequence :
  decoder_state -> list Z -> Z -> Z -> Z -> list (list Z) * decoder_state.

Record args : Type := {
  task_mask : bool;
  batch_size : Z;
  max_inference_batch_size : positive;
  out_seq_length : Z;
  max_sequence_length : Z
}.

Definition generation_mask (a : args) : string :=
  if task_mask a then "[gMASK]" else "[MASK]".

Definition end_tokens : list Z := [get_command "eop"; get_command "eos"].

(** Lines 150-168: the calls of the decoder on one working sequence. *)
Fixpoint decode_times (a : args) (times : nat) (st : decoder_state) (seq : list Z)
    (mask_position : Z) : list (list Z) * decoder_state :=
  match times with
  | O => ([], st)
  | S times' =>
      let mbz := Z.pos (max_inference_batch_size a) in
      let input_seq :=
        seq ++ [get_command "sop"]
            ++ repeat (-1) (Z.to_nat (out_seq_length a - Py.len seq - 1)) in
      let '(output, st) :=
        filling_sequence st input_seq (Z.min (batch_size a) mbz)
          mask_position (Py.len seq + 1) in
      let '(outputs, st) := decode_times a times' st seq mask_position in
      (output ++ outputs, st)
  end.

(** Lines 171-180: every output filled back. *)
Fixpoint fill_back_all (a : args) (mask_position : Z) (output_list : list (list Z))
  : result (list (list Z)) :=
  match output_list with
  | [] => Ok []
  | output :: rest =>
      o <- fill_back (get_command "sop") end_tokens mask_position output ;;
      os <- fill_back_all a mask_position rest ;;
      Ok (o :: os)
  end.

(** Lines 127-180: the [while True] loop, run for at most [fuel] rounds;
    [None] when the rounds are used up. *)
Fixpoint fill_masks (a : args) (fuel : nat) (st : decoder_state)
    (output_list : list (list Z)) : option (result (list (list Z))) :=
  match fuel with
  | O => None
  | S fuel' =>
      match Py.getitem output_list 0 with
      | Err e => Some (Err e)
      | Ok seq =>
          let mask_tokens := get_command (generation_mask a) in
          let mask_position := detect mask_tokens seq in
          if mask_position =? Py.len seq then Some (Ok output_list)
          else
            let mbz := Z.pos (max_inference_batch_size a) in
            let times := Z.to_nat (Z.max (batch_size a / mbz) 1) in
            let '(output_list, st) := decode_times a times st seq mask_position in
            match fill_back_all a mask_position output_list with
            | Err e => Some (Err e)
            | Ok output_list => fill_masks a fuel' st output_list
            end
      end
  end.

(** Lines 119-180 of [process], from the tokenized query on. *)
Definition generate (a : args) (fuel : nat) (st : decoder_state) (seq : list Z)
  : option (result (list (list Z))) :=
  if Py.len seq >? max_sequence_length a then Some (Err ValueError)
  else
    let mbz := Z.pos (max_inference_batch_size a) in
    match assert ((batch_size a <? mbz) || (batch_size a mod mbz =? 0)) EmptyString with
    | Err e => Some (Err e)
    | Ok _ => fill_masks a fuel st [seq]
    end.

End Process.

End Inference.

(** ** A tokenizer to run the definitions on

    The command ids of a concrete vocabulary, for the examples below. *)

Definition sample_command (name : string) : Z :=
  if String.eqb name "[MASK]" then 150000
  else if String.eqb name "[gMASK]" then 150001
  else if String.eqb name "sop" then 150004
  else if String.eqb name "eop" then 150005
  else if String.eqb name "eos" then 20002
  else 0.

(** ** Notions the statements below are written with *)

(** An [n] by [n] array. *)
Definition square (n : nat) (m : Py.matrix) : Prop :=
  length m = n /\ Forall (fun row => length row = n) m.

(** For consecutive blocks of sizes [ns], the block index [r] falls in and
    its offset in that block. *)
Fixpoint block_of (ns : list nat) (r : nat) : option (nat * nat) :=
  match ns with
  | [] => None
  | n :: rest =>
      if (r <? n)%nat then Some (0%nat, r)
      else match block_of rest (r - n) with
           | Some (k, i) => Some (S k, i)
           | None => None
           end
  end.

(** The index arrays of a sample, one per encoded choice. *)
Definition spans_of (t : MultiChoiceTaskDataset.target_ids) : list (list Z) :=
  match t with
  | MultiChoiceTaskDataset.TargetFirst ids => [ids]
  | MultiChoiceTaskDataset.TargetEach ids => ids
  end.

(** The index ranges of consecutive choices, the first one starting at
    [off]. *)
Fixpoint spans (off : Z) (choices : list (list Z)) : list (list Z) :=
  match choices with
  | [] => []
  | c :: rest => Py.arange off (off + Py.len c) :: spans (off + Py.len c) rest
  end.

(** The choices the loop of the multi-choice encoder goes through. *)
Definition processed (is_single_token : bool) (choices : list (list Z))
  : list (list Z) :=
  if is_single_token then firstn 1 choices else choices.

(** A small multi-choice data file: one item whose choices are one token
    each, and one with a two-token choice. *)

Definition sample_config : MultiChoiceTaskDataset.config :=
  {| MultiChoiceTaskDataset.max_seq_length := 64;
     MultiChoiceTaskDataset.use_multitask_encoding := false |}.

Definition item_single : MultiChoiceTaskDataset.json_item :=
  {| MultiChoiceTaskDataset.inputs := [11; 12];
     MultiChoiceTaskDataset.json_choices := [[5]; [7]];
     MultiChoiceTaskDataset.json_label := 1 |}.

Definition item_multi : MultiChoiceTaskDataset.json_item :=
  {| MultiChoiceTaskDataset.inputs := [11; 12];
     MultiChoiceTaskDataset.json_choices := [[5; 6]; [7]];
     MultiChoiceTaskDataset.json_label := 0 |}.

(** Log-probabilities to score with, on an integer scale: position [t]
    gives token [c] the score [-(t + c)], over 32 positions and 8 tokens. *)
Definition sample_log_probs : list (list (list Z)) :=
  [map (fun t => map (fun c => - (t + c)) (Py.arange 0 8)) (Py.arange 0 32)].

(** The shape the collator relies on: as many position ids as tokens and a
    square visibility matrix of that size. *)
Definition well_shaped (s : MultiChoiceTaskDataset.sample) : Prop :=
  length (MultiChoiceTaskDataset.position_id s) = length (MultiChoiceTaskDataset.token s)
  /\ square (length (MultiChoiceTaskDataset.token s))
            (MultiChoiceTaskDataset.attention_mask s).

(** Whether a sample was encoded in single-token mode. *)
Definition single_token_sample (s : MultiChoiceTaskDataset.sample) : bool :=
  match MultiChoiceTaskDataset.choice_target_ids s with
  | MultiChoiceTaskDataset.TargetFirst _ => true
  | MultiChoiceTaskDataset.TargetEach _ => false
  end.

(** A generation data file: a text of six tokens with two targets, for a
    maximum sequence length of 8. *)

Definition gen_config : GenerationTaskDataset.config :=
  {| GenerationTaskDataset.max_seq_length := 8;
     GenerationTaskDataset.use_task_mask := false;
     GenerationTaskDataset.unidirectional := false |}.

Definition gen_json_item : GenerationTaskDataset.json_item :=
  {| GenerationTaskDataset.inputs := [11; 12; 13; 14; 15; 16];
     GenerationTaskDataset.json_targets := [[21; 22]; [23]] |}.

(** The scores of one sample in single-token mode: for the target
    position [t], the log-probability [logits[t][c]] of every choice [c]. *)
Definition scored {score : Type} (logits : list (list score)) (t : Z)
    (cs : MultiChoiceTaskDataset.py_choices)
    (r : ModelForEvaluation.py_scores score) : Prop :=
  match cs, r with
  | MultiChoiceTaskDataset.ChoiceInt c, ModelForEvaluation.ScoreFloat _ x =>
      Py.entry logits (Z.to_nat t) (Z.to_nat c) = Some x
  | MultiChoiceTaskDataset.ChoiceIds l, ModelForEvaluation.ScoreList _ xs =>
      Forall2 (fun c x => Py.entry logits (Z.to_nat t) (Z.to_nat c) = Some x) l xs
  | _, _ => False
  end.

(** The target position and the choices are indices of the logits. *)
Definition in_range {score : Type} (logits : list (list score)) (t : Z)
    (cs : MultiChoiceTaskDataset.py_choices) : Prop :=
  0 <= t
  /\ exists row,
      nth_error logits (Z.to_nat t) = Some row
      /\ match cs with
         | MultiChoiceTaskDataset.ChoiceInt c => 0 <= c < Py.len row
         | MultiChoiceTaskDataset.ChoiceIds l => Forall (fun c => 0 <= c < Py.len row) l
         | MultiChoiceTaskDataset.ChoiceLists _ => False
         end.

(** A working sequence of the inference driver: tokens and masks, without
    the start-of-prediction id [sop] and without the sentinel [-1]. *)
Definition plain_sequence (sop : Z) (seq : list Z) : Prop :=
  Py.contains sop seq = false /\ Py.contains (-1) seq = false.

(** A decoder output for the working sequence [seq]: the sequence, the
    start-of-prediction id, generated tokens that are neither mask,
    start-of-prediction id nor sentinel, and trailing sentinels. *)
Definition decoder_output (sop mask : Z) (seq out : list Z) : Prop :=
  exists gen k,
    out = seq ++ sop :: gen ++ repeat (-1) k
    /\ Py.contains mask gen = false
    /\ Py.contains sop gen = false
    /\ Py.contains (-1) gen = false.

(** A decoder to run the loop on: it writes the tokens 21 and 22 and an
    end token after the context, and has no state. *)
Definition sample_decoder (st : unit) (input_seq : list Z) (batch_size : Z)
    (mask_position context_length : Z) : list (list Z) * unit :=
  ([firstn (Z.to_nat context_length) input_seq ++ [21; 22; 20002]
      ++ repeat (-1) (length input_seq - Z.to_nat context_length - 3)], st).

Definition sample_args : Inference.args :=
  {| Inference.task_mask := false;
     Inference.batch_size := 1;
     Inference.max_inference_batch_size := 12%positive;
     Inference.out_seq_length := 16;
     Inference.max_sequence_length := 16 |}.

(** * Properties *)

(** ** Lists, slices and arrays *)

Lemma len_app {A : Type} (l1 l2 : list A) : Py.len (l1 ++ l2) = Py.len l1 + Py.len l2.
Proof. unfold Py.len. rewrite length_app. lia. Qed.

Lemma len_nonneg {A : Type} (l : list A) : 0 <= Py.len l.
Proof. unfold Py.len. lia. Qed.

Lemma len_cons {A : Type} (x : A) (l : list A) : Py.len (x :: l) = 1 + Py.len l.
Proof. unfold Py.len. simpl length. lia. Qed.

Lemma imap_from_length {A B : Type} (f : Z -> A -> B) (l : list A) :
  forall i, length (Py.imap_from f i l) = length l.
Proof. induction l as [|x t IH]; intros i; simpl; [reflexivity | now rewrite IH]. Qed.

Lemma imap_length {A B : Type} (f : Z -> A -> B) (l : list A) :
  length (Py.imap f l) = length l.
Proof. apply imap_from_length. Qed.

Lemma nth_error_imap_from {A B : Type} (f : Z -> A -> B) (l : list A) :
  forall i k,
    nth_error (Py.imap_from f i l) k = option_map (f (i + Z.of_nat k)) (nth_error l k).
Proof.
  induction l as [|x t IH]; intros i k.
  - destruct k; reflexivity.
  - destruct k as [|k]; simpl.
    + now rewrite Z.add_0_r.
    + rewrite IH. do 2 f_equal. lia.
Qed.

Lemma nth_error_imap {A B : Type} (f : Z -> A -> B) (l : list A) (k : nat) :
  nth_error (Py.imap f l) k = option_map (f (Z.of_nat k)) (nth_error l k).
Proof. unfold Py.imap. now rewrite nth_error_imap_from. Qed.

Lemma arange_length (lo hi : Z) : length (Py.arange lo hi) = Z.to_nat (hi - lo).
Proof. unfold Py.arange. now rewrite length_map, length_seq. Qed.

Lemma nth_error_arange (lo hi : Z) (k : nat) :
  (k < Z.to_nat (hi - lo))%nat ->
  nth_error (Py.arange lo hi) k = Some (lo + Z.of_nat k).
Proof.
  intros Hk. unfold Py.arange.
  rewrite nth_error_map, nth_error_seq.
  apply Nat.ltb_lt in Hk. now rewrite Hk.
Qed.

Lemma In_arange (lo hi x : Z) : In x (Py.arange lo hi) <-> lo <= x < hi.
Proof.
  unfold Py.arange. rewrite in_map_iff. split.
  - intros [k [<- Hk]]. apply in_seq in Hk. lia.
  - intros H. exists (Z.to_nat (x - lo)). split; [lia|]. apply in_seq. lia.
Qed.

Lemma nth_error_repeat_lt {A : Type} (x : A) (n k : nat) :
  (k < n)%nat -> nth_error (repeat x n) k = Some x.
Proof.
  revert k. induction n as [|n IH]; intros k Hk; [lia|].
  destruct k; simpl; [reflexivity | apply IH; lia].
Qed.

Lemma norm_bound_id (n k : Z) : 0 <= k <= n -> Py.norm_bound n k = k.
Proof. intros H. unfold Py.norm_bound. destruct (k <? 0) eqn:E; lia. Qed.

Lemma norm_bound_clip (n k : Z) : 0 <= n -> 0 <= k -> Py.norm_bound n k = Z.min k n.
Proof. intros Hn H. unfold Py.norm_bound. destruct (k <? 0) eqn:E; lia. Qed.

(** [l.index(x)] finds the first occurrence, and fails exactly when [x] is
    not in [l]. *)
Lemma index_from_spec (x : Z) (l : list Z) :
  forall i,
    match Py.index_from x l i with
    | Ok p => i <= p < i + Py.len l
              /\ nth_error l (Z.to_nat (p - i)) = Some x
              /\ Py.contains x (firstn (Z.to_nat (p - i)) l) = false
    | Err e => e = ValueError /\ Py.contains x l = false
    end.
Proof.
  induction l as [|y t IH]; intros i; simpl.
  - split; reflexivity.
  - rewrite (Z.eqb_sym x y). destruct (y =? x) eqn:E.
    + apply Z.eqb_eq in E. subst y. rewrite Z.sub_diag, len_cons.
      pose proof (len_nonneg t). repeat split; try lia.
    + specialize (IH (i + 1)). destruct (Py.index_from x t (i + 1)) as [p|e].
      * destruct IH as (Hp & Hn & Hf). rewrite len_cons.
        replace (Z.to_nat (p - i)) with (S (Z.to_nat (p - (i + 1)))) by lia.
        split; [lia|]. simpl. rewrite (Z.eqb_sym x y), E. simpl. split; assumption.
      * destruct IH as [-> Hc]. now rewrite Hc.
Qed.

Lemma index_of_contains (x : Z) (l : list Z) :
  Py.contains x l = true ->
  exists p, Py.index x l = Ok p /\ 0 <= p < Py.len l
            /\ nth_error l (Z.to_nat p) = Some x
            /\ Py.contains x (firstn (Z.to_nat p) l) = false.
Proof.
  intros H. unfold Py.index. pose proof (index_from_spec x l 0) as S.
  destruct (Py.index_from x l 0) as [p|e].
  - exists p. rewrite Z.sub_0_r in S. destruct S as (? & ? & ?). repeat split; try lia; assumption.
  - destruct S as [_ S]. congruence.
Qed.

Lemma index_of_absent (x : Z) (l : list Z) :
  Py.contains x l = false -> Py.index x l = Err ValueError.
Proof.
  intros H. unfold Py.index. pose proof (index_from_spec x l 0) as S.
  destruct (Py.index_from x l 0) as [p|e].
  - destruct S as (Hp & Hn & _). apply nth_error_In in Hn.
    assert (Py.contains x l = true); [|congruence].
    apply existsb_exists. exists x. split; [assumption | apply Z.eqb_refl].
  - now destruct S as [-> _].
Qed.

Lemma contains_app (x : Z) (l1 l2 : list Z) :
  Py.contains x (l1 ++ l2) = Py.contains x l1 || Py.contains x l2.
Proof. apply existsb_app. Qed.

(** ** The generation encoder *)

Import GenerationTaskDataset.

Section GenerationFacts.

Variable get_command : string -> Z.

(** The visibility matrix exists for every non-negative [max_seq_length]. *)
Lemma gen_visibility_ok (max_seq_length ctx : Z) (unidirectional : bool) :
  0 <= max_seq_length ->
  gen_visibility max_seq_length ctx unidirectional
  = Ok (if negb unidirectional
        then Py.assign_block (ctx - 1) (ctx - 1) 1
               (Py.tril (Py.ones (Z.to_nat max_seq_length)))
        else Py.tril (Py.ones (Z.to_nat max_seq_length))).
Proof.
  intros H. unfold gen_visibility, Py.ones_sq.
  destruct (max_seq_length <? 0) eqn:E; [lia | reflexivity].
Qed.

(** The tokens produced by [gen_tokens] are never empty. *)
Lemma gen_tokens_nonempty text use_task_mask unidirectional mask_position token :
  gen_tokens get_command text use_task_mask unidirectional = Ok (mask_position, token) ->
  1 <= Py.len token.
Proof.
  unfold gen_tokens.
  destruct (Py.contains _ text).
  - destruct unidirectional; simpl; [discriminate|].
    destruct use_task_mask; simpl; [discriminate|].
    destruct (Py.index _ text); simpl; [|discriminate].
    intros [= _ <-]. unfold Py.len. rewrite length_app. simpl length. lia.
  - destruct unidirectional; intros [= _ <-]; unfold Py.len;
      rewrite ?length_app; simpl length; lia.
Qed.

(** The encoder succeeds exactly when the control tokens are accepted and
    the sequence fits in [max_seq_length]. *)
Lemma build_generation_sample_ok text max_seq_length use_task_mask unidirectional
      mask_position token :
  gen_tokens get_command text use_task_mask unidirectional = Ok (mask_position, token) ->
  Py.len token <= max_seq_length ->
  exists vis,
    gen_visibility max_seq_length (Py.len token) unidirectional = Ok vis /\
    build_generation_sample get_command text max_seq_length use_task_mask unidirectional
    = Ok {| tokens := token ++ repeat 0 (Z.to_nat (max_seq_length - Py.len token));
            position_ids :=
              (if negb use_task_mask
               then Py.assign_from (Py.len token - 1) mask_position
                      (Py.arange 0 max_seq_length)
               else Py.arange 0 max_seq_length);
            attention_mask := Py.lt_half vis;
            context_length := Py.len token |}.
Proof.
  intros Ht Hfit. pose proof (len_nonneg token) as Hn.
  eexists. split; [apply gen_visibility_ok; lia|].
  unfold build_generation_sample. rewrite Ht. cbn [bind].
  rewrite gen_visibility_ok by lia. cbn [bind].
  unfold Py.zeros. destruct (max_seq_length - Py.len token <? 0) eqn:E; [lia|].
  reflexivity.
Qed.

Lemma build_generation_sample_inv text max_seq_length use_task_mask unidirectional item :
  build_generation_sample get_command text max_seq_length use_task_mask unidirectional
  = Ok item ->
  exists mask_position token,
    gen_tokens get_command text use_task_mask unidirectional = Ok (mask_position, token)
    /\ Py.len token <= max_seq_length.
Proof.
  unfold build_generation_sample.
  destruct (gen_tokens get_command text use_task_mask unidirectional)
    as [[mask_position token]|e]; cbn [bind]; [|discriminate].
  intros H. exists mask_position, token. split; [reflexivity|].
  destruct (gen_visibility max_seq_length (Py.len token) unidirectional); cbn [bind] in H;
    [|discriminate].
  unfold Py.zeros in H.
  destruct (max_seq_length - Py.len token <? 0) eqn:E; cbn [bind] in H; [discriminate | lia].
Qed.

(** C5.  For a token sequence [text] that does not contain the mask id,
    and a [max_seq_length] the encoded sequence fits in: the bidirectional
    encoding is [text] followed by the mask id and the start-of-prediction
    id (then zero padding) with [context_length = len(text) + 2]; the
    unidirectional encoding has the pair mask id, start-of-prediction id
    in front of [text], and the same [context_length = len(text) + 2]. *)
Theorem generation_no_mask_context_length
    (text : list Z) (max_seq_length : Z) (use_task_mask : bool) :
  Py.contains (gen_mask_id get_command use_task_mask) text = false ->
  Py.len text + 2 <= max_seq_length ->
  (exists item,
      build_generation_sample get_command text max_seq_length use_task_mask false
      = Ok item
      /\ context_length item = Py.len text + 2
      /\ tokens item
         = text ++ [gen_mask_id get_command use_task_mask; get_command "sop"]
             ++ repeat 0 (Z.to_nat (max_seq_length - (Py.len text + 2))))
  /\
  (exists item,
      build_generation_sample get_command text max_seq_length use_task_mask true
      = Ok item
      /\ context_length item = Py.len text + 2
      /\ tokens item
         = [gen_mask_id get_command use_task_mask; get_command "sop"] ++ text
             ++ repeat 0 (Z.to_nat (max_seq_length - (Py.len text + 2)))).
Proof.
  intros Hmask Hfit.
  assert (Hlen2 : forall a b : Z, Py.len (text ++ [a; b]) = Py.len text + 2).
  { intros. unfold Py.len. rewrite length_app. simpl length. lia. }
  assert (Hlen2' : forall a b : Z, Py.len ([a; b] ++ text) = Py.len text + 2).
  { intros. unfold Py.len. rewrite length_app. simpl length. lia. }
  split.
  - destruct (build_generation_sample_ok text max_seq_length use_task_mask false
                (Py.len text) (text ++ [gen_mask_id get_command use_task_mask; get_command "sop"]))
      as (vis & _ & Hb).
    + unfold gen_tokens. now rewrite Hmask.
    + rewrite Hlen2. exact Hfit.
    + eexists. split; [exact Hb|]. cbn [context_length tokens].
      rewrite Hlen2. split; [reflexivity|]. now rewrite <- app_assoc.
  - destruct (build_generation_sample_ok text max_seq_length use_task_mask true
                (Py.len text) ([gen_mask_id get_command use_task_mask; get_command "sop"] ++ text))
      as (vis & _ & Hb).
    + unfold gen_tokens. now rewrite Hmask.
    + rewrite Hlen2'. exact Hfit.
    + eexists. split; [exact Hb|]. cbn [context_length tokens].
      rewrite Hlen2'. split; [reflexivity|]. now rewrite <- app_assoc.
Qed.

(** The position ids written by [a[start:] = v] over [np.arange(0, n)]. *)
Lemma nth_error_assign_from_arange (n start v : Z) (k : nat) :
  0 <= start ->
  (k < Z.to_nat n)%nat ->
  nth_error (Py.assign_from start v (Py.arange 0 n)) k
  = Some (if Z.of_nat k <? start then Z.of_nat k else v).
Proof.
  intros Hs Hk. unfold Py.assign_from.
  rewrite nth_error_imap, nth_error_arange by lia. cbn [option_map].
  unfold Py.len. rewrite arange_length.
  rewrite norm_bound_clip by lia.
  destruct (Z.leb_spec (Z.min start (Z.of_nat (Z.to_nat (n - 0)))) (Z.of_nat k));
    destruct (Z.ltb_spec (Z.of_nat k) start); try reflexivity; try lia.
Qed.

(** C6.  Whenever the generation encoder returns an item, its position ids
    have length [max_seq_length] and entry [k] is [k], except that with
    [use_task_mask] false every entry at index [context_length - 1] or
    later is [mask_position]; [get_masks_and_position_ids_mask] of the
    inference driver writes the same pattern over the length of its
    sequence. *)
Theorem generation_position_ids
    (text : list Z) (max_seq_length : Z) (use_task_mask unidirectional : bool)
    (item : gen_item) :
  build_generation_sample get_command text max_seq_length use_task_mask unidirectional
  = Ok item ->
  (exists mask_position token,
      gen_tokens get_command text use_task_mask unidirectional = Ok (mask_position, token)
      /\ context_length item = Py.len token
      /\ length (position_ids item) = Z.to_nat max_seq_length
      /\ forall k : nat,
          (k < Z.to_nat max_seq_length)%nat ->
          nth_error (position_ids item) k
          = Some (if use_task_mask then Z.of_nat k
                  else if Z.of_nat k <? context_length item - 1 then Z.of_nat k
                       else mask_position))
  /\
  (forall (seq : list Z) (mask_position ctx : Z),
      1 <= ctx ->
      exists pos,
        snd (Inference.get_masks_and_position_ids_mask seq mask_position ctx) = [pos]
        /\ length pos = length seq
        /\ forall k : nat,
            (k < length seq)%nat ->
            nth_error pos k
            = Some (if Z.of_nat k <? ctx - 1 then Z.of_nat k else mask_position)).
Proof.
  intros Hb. split.
  - destruct (build_generation_sample_inv _ _ _ _ _ Hb) as (mp & token & Ht & Hfit).
    destruct (build_generation_sample_ok _ _ _ _ _ _ Ht Hfit) as (vis & _ & Hb').
    rewrite Hb in Hb'. injection Hb' as ->. cbn [context_length position_ids].
    pose proof (gen_tokens_nonempty _ _ _ _ _ Ht) as Hne.
    exists mp, token. split; [exact Ht | split; [reflexivity|]]. split.
    + destruct use_task_mask; cbn [negb]; unfold Py.assign_from;
        rewrite ?imap_length, arange_length; f_equal; lia.
    + intros k Hk. destruct use_task_mask; cbn [negb].
      * rewrite nth_error_arange by lia. f_equal.
      * apply nth_error_assign_from_arange; lia.
  - intros seq mp ctx Hctx. unfold Inference.get_masks_and_position_ids_mask.
    cbn [snd]. eexists. split; [reflexivity|]. split.
    + unfold Py.assign_from. rewrite imap_length, arange_length. unfold Py.len. lia.
    + intros k Hk. apply nth_error_assign_from_arange; unfold Py.len; lia.
Qed.

(** C8.  For a token sequence that contains the mask id the encoder looks
    for (blank filling): the call fails with an [AssertionError] whenever
    [unidirectional] or [use_task_mask] is true; with both false and a
    [max_seq_length] the sequence fits in, it returns an item whose tokens
    are the sequence followed by the start-of-prediction id (then zero
    padding), and whose position ids from [context_length - 1] on are the
    index of the first mask in the sequence. *)
Theorem generation_blank_filling
    (text : list Z) (max_seq_length : Z) (use_task_mask unidirectional : bool) :
  Py.contains (gen_mask_id get_command use_task_mask) text = true ->
  (unidirectional = true \/ use_task_mask = true ->
   exists msg,
     build_generation_sample get_command text max_seq_length use_task_mask unidirectional
     = Err (AssertionError msg))
  /\
  (unidirectional = false -> use_task_mask = false ->
   Py.len text + 1 <= max_seq_length ->
   exists item p,
     build_generation_sample get_command text max_seq_length use_task_mask unidirectional
     = Ok item
     /\ Py.index (get_command "[MASK]") text = Ok p
     /\ 0 <= p < Py.len text
     /\ nth_error text (Z.to_nat p) = Some (get_command "[MASK]")
     /\ tokens item
        = text ++ [get_command "sop"]
            ++ repeat 0 (Z.to_nat (max_seq_length - (Py.len text + 1)))
     /\ context_length item = Py.len text + 1
     /\ forall k : nat,
         (k < Z.to_nat max_seq_length)%nat ->
         nth_error (position_ids item) k
         = Some (if Z.of_nat k <? context_length item - 1 then Z.of_nat k else p)).
Proof.
  intros Hmask. split.
  - intros Hflag. unfold build_generation_sample, gen_tokens. rewrite Hmask.
    destruct unidirectional; cbn [negb assert bind]; [eexists; reflexivity|].
    destruct Hflag as [Hf | ->]; [discriminate|].
    cbn [negb assert bind]. eexists; reflexivity.
  - intros -> -> Hfit. cbn [gen_mask_id] in Hmask.
    destruct (index_of_contains _ _ Hmask) as (p & Hp & Hrange & Hnth & _).
    assert (Hlen : Py.len (text ++ [get_command "sop"]) = Py.len text + 1).
    { unfold Py.len. rewrite length_app. simpl length. lia. }
    assert (Ht : gen_tokens get_command text false false
                 = Ok (p, text ++ [get_command "sop"])).
    { unfold gen_tokens. cbn [gen_mask_id]. rewrite Hmask. cbn [negb assert bind].
      rewrite Hp. reflexivity. }
    destruct (build_generation_sample_ok text max_seq_length false false _ _ Ht)
      as (vis & _ & Hb); [rewrite Hlen; exact Hfit|].
    eexists. exists p. split; [exact Hb|]. cbn [tokens context_length position_ids negb].
    rewrite Hlen. pose proof (len_nonneg text).
    repeat split; try assumption; try lia.
    + now rewrite <- app_assoc.
    + intros k Hk. apply nth_error_assign_from_arange; lia.
Qed.

End GenerationFacts.

Lemma generation_no_mask_context_length_witness :
  Py.contains (gen_mask_id sample_command false) [11; 12; 13] = false
  /\ Py.len [11; 12; 13] + 2 <= 8
  /\ exists item,
      build_generation_sample sample_command [11; 12; 13] 8 false false = Ok item
      /\ context_length item = 5
      /\ tokens item = [11; 12; 13; 150000; 150004; 0; 0; 0].
Proof.
  assert (H1 : Py.contains (gen_mask_id sample_command false) [11; 12; 13] = false)
    by reflexivity.
  assert (H2 : Py.len [11; 12; 13] + 2 <= 8) by (vm_compute; discriminate).
  split; [exact H1 | split; [exact H2|]].
  exact (proj1 (generation_no_mask_context_length sample_command [11; 12; 13] 8 false H1 H2)).
Defined.

Lemma generation_position_ids_witness :
  exists item,
    build_generation_sample sample_command [11; 12; 13] 8 false false = Ok item
    /\ position_ids item = [0; 1; 2; 3; 3; 3; 3; 3]
    /\ exists mask_position token,
        gen_tokens sample_command [11; 12; 13] false false = Ok (mask_position, token)
        /\ context_length item = Py.len token
        /\ length (position_ids item) = Z.to_nat 8
        /\ forall k : nat,
            (k < Z.to_nat 8)%nat ->
            nth_error (position_ids item) k
            = Some (if Z.of_nat k <? context_length item - 1 then Z.of_nat k
                    else mask_position).
Proof.
  eexists. split; [reflexivity|]. split; [reflexivity|].
  exact (proj1 (generation_position_ids sample_command [11; 12; 13] 8 false false _
                  eq_refl)).
Defined.

Lemma generation_blank_filling_witness :
  Py.contains (gen_mask_id sample_command false) [11; 150000; 13] = true
  /\ (exists msg,
        build_generation_sample sample_command [11; 150000; 13] 8 false true
        = Err (AssertionError msg))
  /\ (exists item,
        build_generation_sample sample_command [11; 150000; 13] 8 false false = Ok item
        /\ tokens item = [11; 150000; 13; 150004; 0; 0; 0; 0]
        /\ position_ids item = [0; 1; 2; 1; 1; 1; 1; 1]).
Proof.
  assert (H : Py.contains (gen_mask_id sample_command false) [11; 150000; 13] = true)
    by reflexivity.
  split; [exact H | split].
  - exact (proj1 (generation_blank_filling sample_command [11; 150000; 13] 8 false true H)
             (or_introl eq_refl)).
  - eexists. repeat split; reflexivity.
Defined.

(** ** Filling a decoder output back into the working sequence *)

Lemma getitem_ok {A : Type} (l : list A) (i : Z) :
  - Py.len l <= i < Py.len l ->
  exists x, Py.getitem l i = Ok x.
Proof.
  intros H. unfold Py.getitem.
  set (j := if i <? 0 then i + Py.len l else i).
  assert (Hj : 0 <= j < Py.len l) by (subst j; destruct (Z.ltb_spec i 0); lia).
  destruct (Z.ltb_spec j 0); [lia|].
  destruct (nth_error l (Z.to_nat j)) eqn:E; [eexists; reflexivity|].
  apply nth_error_None in E. unfold Py.len in Hj. lia.
Qed.

Lemma getitem_nth {A : Type} (l : list A) (i : Z) (x : A) :
  0 <= i -> nth_error l (Z.to_nat i) = Some x -> Py.getitem l i = Ok x.
Proof.
  intros Hi Hn. unfold Py.getitem. cbv zeta.
  destruct (Z.ltb_spec i 0); [lia|].
  destruct (Z.ltb_spec i 0); [lia|]. now rewrite Hn.
Qed.

(** A slice that ends inside a prefix only sees the prefix. *)
Lemma slice_app_prefix {A : Type} (l1 l2 : list A) (lo hi : Z) :
  0 <= lo -> 0 <= hi <= Py.len l1 ->
  Py.slice (l1 ++ l2) lo hi = Py.slice l1 lo hi.
Proof.
  intros Hlo Hhi. unfold Py.slice. rewrite len_app.
  pose proof (len_nonneg l1) as H1. pose proof (len_nonneg l2) as H2.
  rewrite !norm_bound_clip by lia.
  destruct (Z_le_gt_dec lo (Py.len l1)) as [Hle | Hgt].
  - replace (Z.min lo (Py.len l1 + Py.len l2)) with lo by lia.
    replace (Z.min lo (Py.len l1)) with lo by lia.
    replace (Z.min hi (Py.len l1 + Py.len l2)) with hi by lia.
    replace (Z.min hi (Py.len l1)) with hi by lia.
    rewrite skipn_app, firstn_app, length_skipn.
    replace (Z.to_nat (hi - lo) - (length l1 - Z.to_nat lo))%nat with 0%nat
      by (unfold Py.len in *; lia).
    rewrite firstn_O. apply app_nil_r.
  - replace (Z.to_nat (Z.min hi (Py.len l1 + Py.len l2) - Z.min lo (Py.len l1 + Py.len l2)))
      with 0%nat by lia.
    replace (Z.to_nat (Z.min hi (Py.len l1) - Z.min lo (Py.len l1))) with 0%nat by lia.
    reflexivity.
Qed.

(** The first start-of-prediction token of a decoder output lies no later
    than the end of the working sequence the output begins with. *)
Lemma index_sop_bound (sop : Z) (original gen : list Z) :
  exists bog, Py.index sop (original ++ sop :: gen) = Ok bog
              /\ 0 <= bog <= Py.len original.
Proof.
  unfold Py.index.
  assert (G : forall i, exists bog,
               Py.index_from sop (original ++ sop :: gen) i = Ok bog
               /\ i <= bog <= i + Py.len original).
  { induction original as [|y t IH]; intros i; simpl.
    - rewrite Z.eqb_refl. exists i. unfold Py.len. simpl. split; [reflexivity | lia].
    - destruct (y =? sop).
      + exists i. pose proof (len_nonneg (y :: t)). split; [reflexivity | lia].
      + destruct (IH (i + 1)) as (bog & Hb & Hr). exists bog.
        rewrite len_cons. split; [exact Hb | lia]. }
  destruct (G 0) as (bog & Hb & Hr). exists bog. split; [exact Hb | lia].
Qed.

Lemma unfinished_of_ok (end_tokens output : list Z) :
  output <> [] -> exists unfinished, Inference.unfinished_of end_tokens output = Ok unfinished.
Proof.
  intros Hne. unfold Inference.unfinished_of.
  assert (Hlen : 1 <= Py.len output).
  { destruct output; [congruence|]. rewrite len_cons. pose proof (len_nonneg output). lia. }
  set (u := match Py.index (-1) output with Ok i => i | Err _ => Py.len output end).
  assert (Hu : 0 <= u <= Py.len output).
  { subst u. unfold Py.index. pose proof (index_from_spec (-1) output 0) as S.
    destruct (Py.index_from (-1) output 0); lia. }
  destruct (getitem_ok output (u - 1)) as (x & Hx); [lia|].
  rewrite Hx. cbn [bind]. eexists; reflexivity.
Qed.



(** ** Block-diagonal arrays *)

Lemma ones_square (n : nat) : square n (Py.ones n).
Proof.
  unfold square, Py.ones. rewrite repeat_length. split; [reflexivity|].
  apply Forall_forall. intros row Hin. apply repeat_spec in Hin. subst row.
  apply repeat_length.
Qed.

Lemma tril_square (n : nat) (m : Py.matrix) : square n m -> square n (Py.tril m).
Proof.
  intros [Hl Hr]. unfold square, Py.tril. rewrite imap_length. split; [exact Hl|].
  apply Forall_forall. intros row Hin.
  apply In_nth_error in Hin. destruct Hin as [k Hk].
  rewrite nth_error_imap in Hk.
  destruct (nth_error m k) as [row0|] eqn:E; [|discriminate].
  injection Hk as <-. rewrite imap_length.
  apply nth_error_In in E. rewrite Forall_forall in Hr. now apply Hr.
Qed.

Lemma ncols_square (n : nat) (m : Py.matrix) : square n m -> Py.ncols m = n.
Proof.
  intros [Hl Hr]. destruct m as [|row rest]; simpl in *; [exact Hl|].
  now inversion Hr.
Qed.

Lemma entry_ones (n r c : nat) :
  (r < n)%nat -> (c < n)%nat -> Py.entry (Py.ones n) r c = Some 1.
Proof.
  intros Hr Hc. unfold Py.entry, Py.ones.
  rewrite nth_error_repeat_lt by exact Hr. now apply nth_error_repeat_lt.
Qed.

Lemma entry_tril_ones (n r c : nat) :
  (r < n)%nat -> (c < n)%nat ->
  Py.entry (Py.tril (Py.ones n)) r c = Some (if (c <=? r)%nat then 1 else 0).
Proof.
  intros Hr Hc. unfold Py.entry, Py.tril, Py.ones.
  rewrite nth_error_imap, nth_error_repeat_lt by exact Hr. cbn [option_map].
  rewrite nth_error_imap, nth_error_repeat_lt by exact Hc. cbn [option_map].
  destruct (Z.leb_spec (Z.of_nat c) (Z.of_nat r)); destruct (Nat.leb_spec c r);
    try reflexivity; lia.
Qed.

Lemma block_diag2_square (a b : nat) (A B : Py.matrix) :
  square a A -> square b B -> square (a + b) (MultiChoiceTaskDataset.block_diag2 A B).
Proof.
  intros HA HB. pose proof (ncols_square _ _ HA) as Ha. pose proof (ncols_square _ _ HB) as Hb.
  destruct HA as [HlA HrA], HB as [HlB HrB].
  unfold square, MultiChoiceTaskDataset.block_diag2.
  rewrite length_app, !length_map, Ha, Hb. split; [lia|].
  apply Forall_app. split; apply Forall_map.
  - eapply Forall_impl; [|exact HrA]. cbv beta. intros row Hrow.
    rewrite length_app, repeat_length. lia.
  - eapply Forall_impl; [|exact HrB]. cbv beta. intros row Hrow.
    rewrite length_app, repeat_length. lia.
Qed.

Lemma block_diag_square (blocks : list Py.matrix) :
  Forall (fun B => square (length B) B) blocks ->
  square (list_sum (map (@length (list Z)) blocks))
         (MultiChoiceTaskDataset.block_diag blocks).
Proof.
  induction 1 as [|B rest HB _ IH]; simpl.
  - split; constructor.
  - now apply block_diag2_square.
Qed.

Lemma block_of_lt (ns : list nat) :
  forall r k i, block_of ns r = Some (k, i) -> (r < list_sum ns)%nat.
Proof.
  induction ns as [|n rest IH]; intros r k i; simpl; [discriminate|].
  destruct (Nat.ltb_spec r n); [lia|].
  destruct (block_of rest (r - n)) as [[k' i']|] eqn:E; [|discriminate].
  intros _. apply IH in E. lia.
Qed.

Lemma block_of_none (ns : list nat) :
  forall r, block_of ns r = None -> (list_sum ns <= r)%nat.
Proof.
  induction ns as [|n rest IH]; intros r; simpl; [lia|].
  destruct (Nat.ltb_spec r n); [discriminate|].
  destruct (block_of rest (r - n)) as [[k' i']|] eqn:E; [discriminate|].
  intros _. apply IH in E. lia.
Qed.

(** Entry [(r, c)] of a block-diagonal array: the entry of the block both
    indices fall in, and 0 when they fall in two blocks. *)
Lemma block_diag_entry (blocks : list Py.matrix) :
  Forall (fun B => square (length B) B) blocks ->
  forall r c,
    Py.entry (MultiChoiceTaskDataset.block_diag blocks) r c
    = match block_of (map (@length (list Z)) blocks) r,
            block_of (map (@length (list Z)) blocks) c with
      | Some (k, i), Some (k', j) =>
          if Nat.eqb k k' then Py.entry (nth k blocks []) i j else Some 0
      | _, _ => None
      end.
Proof.
  induction 1 as [|B rest HB Hrest IH]; intros r c.
  - simpl. unfold Py.entry. now destruct r.
  - pose proof (block_diag_square rest Hrest) as HM.
    pose proof (ncols_square _ _ HM) as HcM. pose proof (ncols_square _ _ HB) as HcB.
    destruct HM as [HlM HrM].
    cbn [MultiChoiceTaskDataset.block_diag fold_right map block_of].
    fold (MultiChoiceTaskDataset.block_diag rest).
    unfold MultiChoiceTaskDataset.block_diag2. rewrite HcM, HcB.
    unfold Py.entry at 1.
    destruct (Nat.ltb_spec r (length B)) as [Hr | Hr].
    + rewrite nth_error_app1 by (now rewrite length_map).
      rewrite nth_error_map.
      destruct (nth_error B r) as [row|] eqn:Erow;
        [|apply nth_error_None in Erow; lia].
      cbn [option_map].
      assert (Hrow : length row = length B).
      { destruct HB as [_ HB]. rewrite Forall_forall in HB.
        apply HB. eapply nth_error_In; eassumption. }
      destruct (Nat.ltb_spec c (length B)) as [Hc | Hc].
      * rewrite nth_error_app1 by lia. cbn [Nat.eqb nth].
        unfold Py.entry. now rewrite Erow.
      * rewrite nth_error_app2 by lia. rewrite Hrow.
        destruct (block_of (map (@length (list Z)) rest) (c - length B))
          as [[k' j]|] eqn:Ec.
        -- apply block_of_lt in Ec. cbn [Nat.eqb].
           now apply nth_error_repeat_lt.
        -- apply block_of_none in Ec. apply nth_error_None. rewrite repeat_length. lia.
    + rewrite nth_error_app2 by (rewrite length_map; lia).
      rewrite length_map, nth_error_map.
      specialize (IH (r - length B)%nat (c - length B)%nat).
      unfold Py.entry in IH at 1.
      destruct (nth_error (MultiChoiceTaskDataset.block_diag rest) (r - length B))
        as [row|] eqn:Erow.
      * cbn [option_map].
        destruct (block_of (map (@length (list Z)) rest) (r - length B))
          as [[k i]|] eqn:Er.
        2:{ apply block_of_none in Er.
            assert (nth_error (MultiChoiceTaskDataset.block_diag rest) (r - length B) <> None)
              as Hsome by congruence.
            apply nth_error_Some in Hsome. lia. }
        destruct (Nat.ltb_spec c (length B)) as [Hc | Hc].
        -- rewrite nth_error_app1 by (rewrite repeat_length; lia).
           cbn [Nat.eqb]. now apply nth_error_repeat_lt.
        -- rewrite nth_error_app2 by (rewrite repeat_length; lia).
           rewrite repeat_length, IH.
           destruct (block_of (map (@length (list Z)) rest) (c - length B))
             as [[k' j]|]; reflexivity.
      * cbn [option_map]. apply nth_error_None in Erow.
        destruct (block_of (map (@length (list Z)) rest) (r - length B))
          as [[k i]|] eqn:Er; [|reflexivity].
        apply block_of_lt in Er. lia.
Qed.

(** ** The multi-choice encoder *)

Module MC := MultiChoiceTaskDataset.

Lemma entry_square_some (n : nat) (m : Py.matrix) (r c : nat) :
  square n m -> (r < n)%nat -> (c < n)%nat -> exists x, Py.entry m r c = Some x.
Proof.
  intros [Hl Hr] Hrn Hcn. unfold Py.entry.
  destruct (nth_error m r) as [row|] eqn:E; [|apply nth_error_None in E; lia].
  rewrite Forall_forall in Hr. apply nth_error_In in E. apply Hr in E.
  destruct (nth_error row c) eqn:E'; [eexists; reflexivity|].
  apply nth_error_None in E'. lia.
Qed.

(** [m[:rstop, :cstop] = v] on a square array, entry by entry. *)
Lemma entry_assign_block (n : nat) (m : Py.matrix) (rstop cstop v : Z) (r c : nat) :
  square n m -> 0 <= rstop -> 0 <= cstop ->
  Py.entry (Py.assign_block rstop cstop v m) r c
  = option_map (fun x => if (Z.of_nat r <? rstop) && (Z.of_nat c <? cstop) then v else x)
               (Py.entry m r c).
Proof.
  intros [Hl Hr] Hrs Hcs. unfold Py.entry, Py.assign_block.
  rewrite nth_error_imap.
  destruct (nth_error m r) as [row|] eqn:E; [|reflexivity]. cbn [option_map].
  rewrite nth_error_imap.
  destruct (nth_error row c) as [x|] eqn:E'; [|reflexivity]. cbn [option_map].
  assert (Hrow : length row = n).
  { rewrite Forall_forall in Hr. apply Hr. eapply nth_error_In; eassumption. }
  assert (Hrn : (r < n)%nat).
  { rewrite <- Hl. apply nth_error_Some. congruence. }
  assert (Hcn : (c < n)%nat).
  { rewrite <- Hrow. apply nth_error_Some. congruence. }
  unfold Py.len. rewrite Hl, Hrow, !norm_bound_clip by lia.
  f_equal.
  destruct (Z.ltb_spec (Z.of_nat r) (Z.min rstop (Z.of_nat n)));
    destruct (Z.ltb_spec (Z.of_nat r) rstop); try lia;
    destruct (Z.ltb_spec (Z.of_nat c) (Z.min cstop (Z.of_nat n)));
    destruct (Z.ltb_spec (Z.of_nat c) cstop); try lia; reflexivity.
Qed.

Lemma assign_block_square (n : nat) (m : Py.matrix) (rstop cstop v : Z) :
  square n m -> square n (Py.assign_block rstop cstop v m).
Proof.
  intros [Hl Hr]. unfold square, Py.assign_block. rewrite imap_length.
  split; [exact Hl|].
  apply Forall_forall. intros row Hin.
  apply In_nth_error in Hin. destruct Hin as [k Hk].
  rewrite nth_error_imap in Hk.
  destruct (nth_error m k) as [row0|] eqn:E; [|discriminate].
  injection Hk as <-. rewrite imap_length.
  apply nth_error_In in E. rewrite Forall_forall in Hr. now apply Hr.
Qed.

Lemma length_removelast_nonempty {A : Type} (c : list A) :
  c <> [] -> S (length (removelast c)) = length c.
Proof.
  intros Hne. destruct (exists_last Hne) as (l & a & ->).
  rewrite removelast_last, length_app. simpl. lia.
Qed.

Lemma list_sum_step (x : nat) (l : list nat) : list_sum (x :: l) = (x + list_sum l)%nat.
Proof. reflexivity. Qed.

(** Where the ranges of [spans] fall among the blocks of the choices. *)
Lemma spans_block (cs : list (list Z)) :
  forall off i sp,
    nth_error (spans off cs) i = Some sp ->
    exists ci o,
      nth_error cs i = Some ci /\ sp = Py.arange o (o + Py.len ci) /\ off <= o
      /\ o + Py.len ci <= off + Z.of_nat (list_sum (map (@length Z) cs))
      /\ forall r, o <= r < o + Py.len ci ->
                   block_of (map (@length Z) cs) (Z.to_nat (r - off))
                   = Some (i, Z.to_nat (r - o)).
Proof.
  induction cs as [|c rest IH]; intros off i sp Hsp.
  - destruct i; discriminate.
  - destruct i as [|i]; simpl in Hsp.
    + injection Hsp as <-. exists c, off. cbn [map nth_error block_of]. rewrite list_sum_step.
      unfold Py.len. split; [reflexivity|]. split; [reflexivity|].
      split; [lia|]. split; [lia|].
      intros r Hr. destruct (Nat.ltb_spec (Z.to_nat (r - off)) (length c)); [|lia].
      reflexivity.
    + destruct (IH _ _ _ Hsp) as (ci & o & Hci & -> & Ho & Hend & Hb).
      exists ci, o. cbn [map nth_error block_of]. rewrite list_sum_step.
      unfold Py.len in *. split; [exact Hci|]. split; [reflexivity|].
      split; [lia|]. split; [lia|].
      intros r Hr.
      destruct (Nat.ltb_spec (Z.to_nat (r - off)) (length c)); [lia|].
      replace (Z.to_nat (r - off) - length c)%nat
        with (Z.to_nat (r - (off + Z.of_nat (length c)))) by lia.
      now rewrite (Hb r Hr).
Qed.

Lemma block_of_local (ns : list nat) :
  forall r k i, block_of ns r = Some (k, i) ->
                exists n, nth_error ns k = Some n /\ (i < n)%nat.
Proof.
  induction ns as [|n rest IH]; intros r k i; simpl; [discriminate|].
  destruct (Nat.ltb_spec r n).
  - intros [= <- <-]. exists n. split; [reflexivity | assumption].
  - destruct (block_of rest (r - n)) as [[k' i']|] eqn:E; [|discriminate].
    intros [= <- <-]. exact (IH _ _ _ E).
Qed.

Lemma map_length_tril_ones (cs : list (list Z)) :
  map (@length (list Z)) (map (fun c => Py.tril (Py.ones (length c))) cs)
  = map (@length Z) cs.
Proof.
  rewrite map_map. apply map_ext. intros c.
  exact (proj1 (tril_square _ _ (ones_square (length c)))).
Qed.

(** Every entry of the visibility matrix of a context of [d] tokens
    followed by the choices [cs]. *)
Lemma visibility_entry (d : nat) (cs : list (list Z)) (rows : Z) (r c : nat) :
  0 <= rows ->
  Py.entry (Py.assign_block rows (Z.of_nat d) 1
              (MC.block_diag (Py.ones d :: map (fun c => Py.tril (Py.ones (length c))) cs)))
           r c
  = match block_of (d :: map (@length Z) cs) r, block_of (d :: map (@length Z) cs) c with
    | Some (k, i), Some (k', j) =>
        Some (if (Z.of_nat r <? rows) && (Z.of_nat c <? Z.of_nat d) then 1
              else if Nat.eqb k k'
                   then match k with
                        | O => 1
                        | S _ => if (j <=? i)%nat then 1 else 0
                        end
                   else 0)
    | _, _ => None
    end.
Proof.
  intros Hrows.
  set (blocks := Py.ones d :: map (fun c => Py.tril (Py.ones (length c))) cs).
  assert (Hsq : Forall (fun B : Py.matrix => square (length B) B) blocks).
  { constructor.
    - pose proof (ones_square d) as Ho. now rewrite (proj1 Ho).
    - apply Forall_map, Forall_forall. intros c0 _.
      pose proof (tril_square _ _ (ones_square (length c0))) as Ho.
      now rewrite (proj1 Ho). }
  assert (Hlens : map (@length (list Z)) blocks = d :: map (@length Z) cs).
  { subst blocks. cbn [map]. rewrite map_length_tril_ones.
    now rewrite (proj1 (ones_square d)). }
  rewrite (entry_assign_block _ _ _ _ _ _ _ (block_diag_square _ Hsq)) by lia.
  rewrite (block_diag_entry _ Hsq), Hlens.
  destruct (block_of (d :: map (@length Z) cs) r) as [[k i]|] eqn:Er; [|reflexivity].
  destruct (block_of (d :: map (@length Z) cs) c) as [[k' j]|] eqn:Ec; [|reflexivity].
  destruct (Nat.eqb_spec k k') as [<- | Hk]; [|reflexivity].
  destruct (block_of_local _ _ _ _ Er) as (n & Hn & Hi).
  destruct (block_of_local _ _ _ _ Ec) as (n' & Hn' & Hj).
  rewrite Hn in Hn'. injection Hn' as <-.
  destruct k as [|k]; cbn [nth_error] in Hn.
  - injection Hn as <-. subst blocks. cbn [nth]. rewrite entry_ones by assumption.
    cbn [option_map]. now destruct (_ && _).
  - rewrite nth_error_map in Hn.
    destruct (nth_error cs k) as [ck|] eqn:Eck; [|discriminate].
    injection Hn as <-. subst blocks. cbn [nth].
    rewrite (nth_error_nth _ _ _ (map_nth_error _ _ _ Eck)).
    rewrite entry_tril_ones by assumption. reflexivity.
Qed.

Section MultiChoiceFacts.

Variable get_command : string -> Z.

(** The context always encodes: it is the text, followed by the mask id
    unless the text has one. *)
Lemma context_prefix_ok (text : list Z) :
  exists mask_position st0,
    MC.context_prefix get_command text = Ok (mask_position, st0)
    /\ MC.st_token st0
       = (if Py.contains (get_command "[MASK]") text then text
          else text ++ [get_command "[MASK]"])
    /\ length (MC.st_position_id st0) = length (MC.st_token st0)
    /\ MC.st_choice_target_id st0 = []
    /\ 1 <= Py.len (MC.st_token st0).
Proof.
  unfold MC.context_prefix.
  destruct (Py.contains (get_command "[MASK]") text) eqn:E; cbn [negb].
  - destruct (index_of_contains _ _ E) as (p & Hp & Hr & _). rewrite Hp. cbn [bind].
    do 2 eexists. split; [reflexivity|]. cbn.
    rewrite arange_length. unfold Py.len in *. repeat split; lia.
  - do 2 eexists. split; [reflexivity|]. cbn.
    rewrite !length_app, arange_length. unfold Py.len.
    rewrite length_app. simpl length. repeat split; lia.
Qed.

(** With [is_single_token] the loop stops after the first choice. *)
Lemma for_choices_processed (is_single_token bf ume : bool) (mp : Z)
    (choices : list (list Z)) (st : MC.loop_state) :
  MC.for_choices get_command is_single_token bf ume mp choices st
  = MC.for_choices get_command false bf ume mp (processed is_single_token choices) st.
Proof.
  destruct is_single_token; [|reflexivity].
  destruct choices as [|c rest]; reflexivity.
Qed.

(** What the loop has appended once it has gone through [cs]. *)
Lemma for_choices_appends (bf ume : bool) (mp : Z) (cs : list (list Z)) :
  forall st,
    let stF := MC.for_choices get_command false bf ume mp cs st in
    MC.st_token stF
    = MC.st_token st ++ concat (map (fun c => get_command "sop" :: removelast c) cs)
    /\ MC.st_attention_mask stF
       = MC.st_attention_mask st
           ++ map (fun c => Py.tril (Py.ones (length c))) cs
    /\ length (MC.st_position_id stF)
       = (length (MC.st_position_id st) + list_sum (map (@length Z) cs))%nat.
Proof.
  induction cs as [|c rest IH]; intros st; cbn zeta.
  - simpl. rewrite !app_nil_r. repeat split; lia.
  - cbn [MC.for_choices]. specialize (IH (MC.append_choice get_command bf ume mp c st)).
    cbn zeta in IH. destruct IH as (Ht & Hm & Hp).
    rewrite Ht, Hm, Hp. cbn [MC.append_choice MC.st_token MC.st_attention_mask
                               MC.st_position_id map concat].
    rewrite list_sum_step.
    rewrite <- !app_assoc. repeat split.
    rewrite length_app.
    destruct (bf || negb ume); rewrite ?repeat_length, ?arange_length;
      unfold Py.len; lia.
Qed.

(** With every choice non-empty, a choice takes as many tokens as it has
    ids, and the recorded index ranges are consecutive. *)
Lemma for_choices_spans (bf ume : bool) (mp : Z) (cs : list (list Z)) :
  Forall (fun c => c <> []) cs ->
  forall st,
    let stF := MC.for_choices get_command false bf ume mp cs st in
    MC.st_choice_target_id stF
    = MC.st_choice_target_id st ++ spans (Py.len (MC.st_token st)) cs
    /\ length (MC.st_token stF)
       = (length (MC.st_token st) + list_sum (map (@length Z) cs))%nat.
Proof.
  induction 1 as [|c rest Hc _ IH]; intros st; cbn zeta.
  - simpl. rewrite app_nil_r. split; [reflexivity | lia].
  - cbn [MC.for_choices]. specialize (IH (MC.append_choice get_command bf ume mp c st)).
    cbn zeta in IH. destruct IH as (Hs & Hl). rewrite Hs, Hl.
    cbn [MC.append_choice MC.st_token MC.st_choice_target_id spans map].
    rewrite list_sum_step.
    pose proof (length_removelast_nonempty c Hc) as Hrl.
    assert (Hlen : Py.len (MC.st_token st ++ [get_command "sop"] ++ removelast c)
                   = Py.len (MC.st_token st) + Py.len c).
    { unfold Py.len. rewrite !length_app. simpl length. lia. }
    rewrite Hlen, <- app_assoc. split; [reflexivity|].
    rewrite !length_app. simpl length. lia.
Qed.

(** What a returned sample is made of. *)
Lemma build_multiple_choice_sample_inv (text : list Z) (choices : list (list Z))
    (is_single_token ume : bool) (item : MC.sample) :
  MC.build_multiple_choice_sample get_command text choices is_single_token ume = Ok item ->
  exists mask_position st0,
    MC.context_prefix get_command text = Ok (mask_position, st0)
    /\ let stF := MC.for_choices get_command false
                    (Py.contains (get_command "[MASK]") text) ume mask_position
                    (processed is_single_token choices) (MC.context_block st0) in
       MC.token item = MC.st_token stF
       /\ MC.position_id item = MC.st_position_id stF
       /\ MC.attention_mask item = MC.visibility (Py.len (MC.st_token st0)) stF
       /\ spans_of (MC.choice_target_ids item) = MC.st_choice_target_id stF.
Proof.
  unfold MC.build_multiple_choice_sample.
  destruct (context_prefix_ok text) as (mp & st0 & Hc & _ & _ & Hids & _).
  rewrite Hc. cbn [bind]. rewrite for_choices_processed.
  set (stF := MC.for_choices get_command false _ ume mp _ (MC.context_block st0)).
  intros H. exists mp, st0. split; [reflexivity|]. cbn zeta.
  destruct is_single_token.
  - destruct (MC.squeeze_tolist choices); cbn [bind] in H; [|discriminate].
    destruct (Py.getitem (MC.st_choice_target_id stF) 0) as [ids|] eqn:Eg;
      cbn [bind] in H; [|discriminate].
    injection H as <-. cbn. repeat split.
    subst stF. unfold processed in *.
    destruct choices as [|c rest].
    + cbn in Eg. rewrite Hids in Eg. discriminate.
    + cbn in Eg |- *. rewrite Hids in Eg |- *. cbn in Eg |- *. congruence.
  - cbn [bind] in H. injection H as <-. cbn. repeat split.
Qed.

(** The multi-token encoder never fails. *)
Lemma build_multiple_choice_sample_multi_total (text : list Z)
    (choices : list (list Z)) (ume : bool) :
  exists item, MC.build_multiple_choice_sample get_command text choices false ume = Ok item.
Proof.
  unfold MC.build_multiple_choice_sample.
  destruct (context_prefix_ok text) as (mp & st0 & Hc & _).
  rewrite Hc. cbn [bind]. eexists. reflexivity.
Qed.

(** The shape of a returned sample whose choices are non-empty: as many
    position ids as tokens, and a square visibility matrix of that size. *)
Lemma build_multiple_choice_sample_shape (text : list Z) (choices : list (list Z))
    (is_single_token ume : bool) (item : MC.sample) :
  Forall (fun c => c <> []) choices ->
  MC.build_multiple_choice_sample get_command text choices is_single_token ume = Ok item ->
  length (MC.position_id item) = length (MC.token item)
  /\ square (length (MC.token item)) (MC.attention_mask item).
Proof.
  intros Hne Hb.
  destruct (build_multiple_choice_sample_inv _ _ _ _ _ Hb)
    as (mp & st0 & Hc & Ht & Hp & Hm & _).
  destruct (context_prefix_ok text) as (mp' & st0' & Hc' & _ & Hpl & _ & _).
  rewrite Hc in Hc'. injection Hc' as <- <-.
  assert (Hne' : Forall (fun c : list Z => c <> []) (processed is_single_token choices)).
  { unfold processed. destruct is_single_token; [|exact Hne].
    destruct choices as [|c rest]; [constructor|]. inversion Hne. now repeat constructor. }
  set (bf := Py.contains (get_command "[MASK]") text) in *.
  set (cs := processed is_single_token choices) in *.
  destruct (for_choices_appends bf ume mp cs (MC.context_block st0)) as (_ & Hblocks & Hpos).
  destruct (for_choices_spans bf ume mp cs Hne' (MC.context_block st0)) as (_ & Htok).
  rewrite Ht, Hp, Hm, Hpos, Htok. cbn [MC.context_block MC.st_position_id MC.st_token].
  split; [lia|].
  unfold MC.visibility. apply assign_block_square. rewrite Hblocks.
  cbn [MC.context_block MC.st_attention_mask app].
  assert (Hsq : Forall (fun B : Py.matrix => square (length B) B)
                  (Py.ones (length (MC.st_token st0))
                   :: map (fun c => Py.tril (Py.ones (length c))) cs)).
  { constructor.
    - pose proof (ones_square (length (MC.st_token st0))) as Ho.
      now rewrite (proj1 Ho).
    - apply Forall_map, Forall_forall. intros c _.
      pose proof (tril_square _ _ (ones_square (length c))) as Ho.
      now rewrite (proj1 Ho). }
  pose proof (block_diag_square _ Hsq) as Hbd.
  cbn [map] in Hbd. rewrite list_sum_step, map_map in Hbd.
  rewrite (proj1 (ones_square _)) in Hbd.
  erewrite map_ext in Hbd;
    [exact Hbd | intros c; exact (proj1 (tril_square _ _ (ones_square (length c))))].
Qed.

(** X22.  For a multi-choice encoding whose choices are all non-empty, with
    [division] the length of the context (the text and its mask): the
    index ranges of the encoded choices are consecutive from [division];
    an entry of the visibility matrix whose row lies in the range of one
    choice and whose column lies in the range of another is 0; every row
    of the token sequence has 1 in every column before [division]; and
    inside the range of one choice the entry at row [r], column [c] is 1
    exactly when [c <= r]. *)
Theorem multichoice_attention_blocks (text : list Z) (choices : list (list Z))
    (is_single_token ume : bool) (item : MC.sample) :
  Forall (fun c => c <> []) choices ->
  MC.build_multiple_choice_sample get_command text choices is_single_token ume = Ok item ->
  exists mask_position st0,
    MC.context_prefix get_command text = Ok (mask_position, st0)
    /\ let division := Py.len (MC.st_token st0) in
       spans_of (MC.choice_target_ids item)
       = spans division (processed is_single_token choices)
       /\ (forall (i j : nat) (si sj : list Z) (r c : Z),
              i <> j ->
              nth_error (spans_of (MC.choice_target_ids item)) i = Some si ->
              nth_error (spans_of (MC.choice_target_ids item)) j = Some sj ->
              In r si -> In c sj ->
              Py.entry (MC.attention_mask item) (Z.to_nat r) (Z.to_nat c) = Some 0)
       /\ (forall r c : Z,
              0 <= r < Py.len (MC.token item) -> 0 <= c < division ->
              Py.entry (MC.attention_mask item) (Z.to_nat r) (Z.to_nat c) = Some 1)
       /\ (forall (i : nat) (si : list Z) (r c : Z),
              nth_error (spans_of (MC.choice_target_ids item)) i = Some si ->
              In r si -> In c si ->
              Py.entry (MC.attention_mask item) (Z.to_nat r) (Z.to_nat c)
              = Some (if c <=? r then 1 else 0)).
Proof.
  intros Hne Hb.
  destruct (build_multiple_choice_sample_inv _ _ _ _ _ Hb)
    as (mp & st0 & Hc & Ht & _ & Hm & Hs).
  exists mp, st0. split; [exact Hc|]. cbn zeta.
  assert (Hne' : Forall (fun c : list Z => c <> []) (processed is_single_token choices)).
  { unfold processed. destruct is_single_token; [|exact Hne].
    destruct choices as [|c rest]; [constructor|]. inversion Hne. now repeat constructor. }
  set (bf := Py.contains (get_command "[MASK]") text) in *.
  set (cs := processed is_single_token choices) in *.
  set (d := length (MC.st_token st0)).
  destruct (for_choices_appends bf ume mp cs (MC.context_block st0)) as (_ & Hblocks & _).
  destruct (for_choices_spans bf ume mp cs Hne' (MC.context_block st0)) as (Hspans & Htok).
  cbn [MC.context_block MC.st_attention_mask MC.st_choice_target_id MC.st_token app]
    in Hblocks, Hspans, Htok.
  assert (Hids : MC.st_choice_target_id st0 = []).
  { destruct (context_prefix_ok text) as (mp' & st0' & Hc' & _ & _ & Hi & _).
    rewrite Hc in Hc'. now injection Hc' as <- <-. }
  rewrite Hids in Hspans. cbn [app] in Hspans.
  rewrite Hs, Hspans, Ht.
  assert (Hentry : forall r c : nat,
             Py.entry (MC.attention_mask item) r c
             = match block_of (d :: map (@length Z) cs) r,
                     block_of (d :: map (@length Z) cs) c with
               | Some (k, i), Some (k', j) =>
                   Some (if (Z.of_nat r <? Z.of_nat (d + list_sum (map (@length Z) cs)))
                            && (Z.of_nat c <? Z.of_nat d) then 1
                         else if Nat.eqb k k'
                              then match k with
                                   | O => 1
                                   | S _ => if (j <=? i)%nat then 1 else 0
                                   end
                              else 0)
               | _, _ => None
               end).
  { intros r c. rewrite Hm. unfold MC.visibility. rewrite Hblocks.
    unfold Py.len. rewrite Htok. apply visibility_entry. lia. }
  assert (Hin : forall i si r,
             nth_error (spans (Py.len (MC.st_token st0)) cs) i = Some si -> In r si ->
             exists o,
               Z.of_nat d <= o <= r
               /\ r < Z.of_nat (d + list_sum (map (@length Z) cs))
               /\ block_of (d :: map (@length Z) cs) (Z.to_nat r)
                  = Some (S i, Z.to_nat (r - o))).
  { intros i si r Hsi Hr.
    destruct (spans_block _ _ _ _ Hsi) as (ci & o & _ & -> & Ho & Hend & Hblk).
    apply In_arange in Hr. exists o. unfold Py.len in Ho, Hend, Hr, Hblk.
    fold d in Ho, Hend, Hblk.
    split; [lia|]. split; [lia|].
    cbn [block_of]. destruct (Nat.ltb_spec (Z.to_nat r) d); [lia|].
    specialize (Hblk r Hr).
    replace (Z.to_nat r - d)%nat with (Z.to_nat (r - Z.of_nat d)) by lia.
    now rewrite Hblk. }
  split; [reflexivity|]. split; [|split].
  - intros i j si sj r c Hij Hsi Hsj Hr Hcj.
    destruct (Hin _ _ _ Hsi Hr) as (o & Ho & _ & Hbr).
    destruct (Hin _ _ _ Hsj Hcj) as (o' & Ho' & _ & Hbc).
    rewrite Hentry, Hbr, Hbc.
    destruct (Z.ltb_spec (Z.of_nat (Z.to_nat c)) (Z.of_nat d)); [lia|].
    rewrite andb_false_r. cbn [Nat.eqb].
    destruct (Nat.eqb_spec i j); [contradiction | reflexivity].
  - intros r c Hr Hcd. rewrite Hentry.
    unfold Py.len in Hr, Hcd. rewrite Htok in Hr. fold d in Hcd.
    destruct (block_of (d :: map (@length Z) cs) (Z.to_nat r)) as [[k i]|] eqn:Er.
    2:{ apply block_of_none in Er. rewrite list_sum_step in Er. lia. }
    cbn [block_of]. destruct (Nat.ltb_spec (Z.to_nat c) d); [|lia].
    destruct (Z.ltb_spec (Z.of_nat (Z.to_nat r))
                (Z.of_nat (d + list_sum (map (@length Z) cs)))); [|lia].
    destruct (Z.ltb_spec (Z.of_nat (Z.to_nat c)) (Z.of_nat d)); [|lia].
    reflexivity.
  - intros i si r c Hsi Hr Hcs.
    destruct (spans_block _ _ _ _ Hsi) as (ci & o & _ & Hsp & Ho & Hend & Hblk).
    assert (Hbr : block_of (d :: map (@length Z) cs) (Z.to_nat r)
                  = Some (S i, Z.to_nat (r - o))
                  /\ Z.of_nat d <= o <= r).
    { subst si. apply In_arange in Hr. unfold Py.len in Ho, Hend, Hr, Hblk.
      fold d in Ho, Hend, Hblk.
      split; [|lia].
      cbn [block_of]. destruct (Nat.ltb_spec (Z.to_nat r) d); [lia|].
      specialize (Hblk r Hr).
      replace (Z.to_nat r - d)%nat with (Z.to_nat (r - Z.of_nat d)) by lia.
      now rewrite Hblk. }
    assert (Hbc : block_of (d :: map (@length Z) cs) (Z.to_nat c)
                  = Some (S i, Z.to_nat (c - o))
                  /\ Z.of_nat d <= o <= c).
    { subst si. apply In_arange in Hcs. unfold Py.len in Ho, Hend, Hcs, Hblk.
      fold d in Ho, Hend, Hblk.
      split; [|lia].
      cbn [block_of]. destruct (Nat.ltb_spec (Z.to_nat c) d); [lia|].
      specialize (Hblk c Hcs).
      replace (Z.to_nat c - d)%nat with (Z.to_nat (c - Z.of_nat d)) by lia.
      now rewrite Hblk. }
    destruct Hbr as [Hbr Hor], Hbc as [Hbc Hoc].
    rewrite Hentry, Hbr, Hbc.
    destruct (Z.ltb_spec (Z.of_nat (Z.to_nat c)) (Z.of_nat d)); [lia|].
    rewrite andb_false_r, Nat.eqb_refl. f_equal.
    destruct (Nat.leb_spec (Z.to_nat (c - o)) (Z.to_nat (r - o)));
      destruct (Z.leb_spec c r); try reflexivity; lia.
Qed.

End MultiChoiceFacts.

Lemma multichoice_attention_blocks_witness :
  Forall (fun c : list Z => c <> []) [[5; 6]; [7]]
  /\ exists item,
      MC.build_multiple_choice_sample sample_command [11; 12] [[5; 6]; [7]] false false
      = Ok item
      /\ MC.token item = [11; 12; 150000; 150004; 5; 150004]
      /\ MC.attention_mask item
         = [[1; 1; 1; 0; 0; 0];
            [1; 1; 1; 0; 0; 0];
            [1; 1; 1; 0; 0; 0];
            [1; 1; 1; 1; 0; 0];
            [1; 1; 1; 1; 1; 0];
            [1; 1; 1; 0; 0; 1]]
      /\ spans_of (MC.choice_target_ids item) = [[3; 4]; [5]]
      /\ Py.entry (MC.attention_mask item) (Z.to_nat 5) (Z.to_nat 4) = Some 0.
Proof.
  assert (H : Forall (fun c : list Z => c <> []) [[5; 6]; [7]])
    by (repeat constructor; discriminate).
  split; [exact H|].
  eexists. split; [reflexivity|]. split; [reflexivity|]. split; [reflexivity|].
  split; [reflexivity|].
  destruct (multichoice_attention_blocks sample_command [11; 12] [[5; 6]; [7]]
              false false _ H eq_refl) as (mp & st0 & _ & _ & Hcross & _).
  apply (Hcross 1%nat 0%nat [5] [3; 4] 5 4); [discriminate | reflexivity | reflexivity | |];
    simpl; tauto.
Defined.

(** C7.  An empty choice takes a token (its start-of-prediction id) but
    neither a target index nor a block of the visibility matrix, so the
    index ranges of the later choices lie one past their blocks and the
    matrix has fewer rows than there are tokens.  For the text [[11]] and
    the choices [[]], [[5; 6]], [[7; 8]]: the ranges are [[3; 4]] and
    [[5; 6]], the entry at row 5 (in the range of the last choice) and
    column 4 (in the range of the choice before it) is 1, and the last
    token, index 6, has no row at all.  The entries across two choices are
    therefore not all 0, and not every token row sees the context. *)
Theorem empty_choice_breaks_attention_blocks :
  exists s,
    MC.build_multiple_choice_sample sample_command [11] [[]; [5; 6]; [7; 8]] false false
    = Ok s
    /\ MC.token s = [11; 150000; 150004; 150004; 5; 150004; 7]
    /\ spans_of (MC.choice_target_ids s) = [[]; [3; 4]; [5; 6]]
    /\ MC.attention_mask s
       = [[1; 1; 0; 0; 0; 0];
          [1; 1; 0; 0; 0; 0];
          [1; 1; 1; 0; 0; 0];
          [1; 1; 1; 1; 0; 0];
          [1; 1; 0; 0; 1; 0];
          [1; 1; 0; 0; 1; 1]]
    /\ Py.entry (MC.attention_mask s) 5 4 = Some 1
    /\ Py.entry (MC.attention_mask s) 6 0 = None
    /\ ~ (forall (i j : nat) (si sj : list Z) (r c : Z),
            i <> j ->
            nth_error (spans_of (MC.choice_target_ids s)) i = Some si ->
            nth_error (spans_of (MC.choice_target_ids s)) j = Some sj ->
            In r si -> In c sj ->
            Py.entry (MC.attention_mask s) (Z.to_nat r) (Z.to_nat c) = Some 0)
    /\ ~ (forall r c : Z,
            0 <= r < Py.len (MC.token s) -> 0 <= c < 2 ->
            Py.entry (MC.attention_mask s) (Z.to_nat r) (Z.to_nat c) = Some 1).
Proof.
  eexists. split; [reflexivity|]. split; [reflexivity|]. split; [reflexivity|].
  split; [reflexivity|]. split; [reflexivity|]. split; [reflexivity|]. split.
  - intros H.
    assert (H54 : Py.entry [[1; 1; 0; 0; 0; 0]; [1; 1; 0; 0; 0; 0]; [1; 1; 1; 0; 0; 0];
                            [1; 1; 1; 1; 0; 0]; [1; 1; 0; 0; 1; 0]; [1; 1; 0; 0; 1; 1]]
                    (Z.to_nat 5) (Z.to_nat 4) = Some 0).
    { apply (H 2%nat 1%nat [5; 6] [3; 4] 5 4);
        [discriminate | reflexivity | reflexivity | simpl; tauto | simpl; tauto]. }
    discriminate H54.
  - intros H.
    assert (H60 : Py.entry [[1; 1; 0; 0; 0; 0]; [1; 1; 0; 0; 0; 0]; [1; 1; 1; 0; 0; 0];
                            [1; 1; 1; 1; 0; 0]; [1; 1; 0; 0; 1; 0]; [1; 1; 0; 0; 1; 1]]
                    (Z.to_nat 6) (Z.to_nat 0) = Some 1).
    { apply (H 6 0); [vm_compute; split; [discriminate | reflexivity] | lia]. }
    discriminate H60.
Qed.

(** ** The single-token flag of a multi-choice dataset *)

(** For non-empty choices, the target length is 1 exactly when every
    choice is one token. *)
Lemma tgt_seq_length_one (choices : list (list Z)) :
  Forall (fun c => c <> []) choices ->
  (MC.tgt_seq_length choices = 1 <-> Forall (fun c => length c = 1%nat) choices).
Proof.
  intros Hne. unfold MC.tgt_seq_length.
  assert (G : Py.len choices <= fold_right Z.add 0 (map Py.len choices)
              /\ (fold_right Z.add 0 (map Py.len choices) = Py.len choices
                  <-> Forall (fun c => length c = 1%nat) choices)).
  { induction Hne as [|c rest Hc _ IH]; cbn [map fold_right].
    - split; [unfold Py.len; simpl; lia|]. split; [constructor | reflexivity].
    - rewrite len_cons. destruct IH as [IHle IHeq].
      assert (Hc1 : 1 <= Py.len c).
      { destruct c; [congruence|]. rewrite len_cons. pose proof (len_nonneg c). lia. }
      split; [lia|]. split.
      + intros Hsum. constructor; [unfold Py.len in *; lia | apply IHeq; lia].
      + intros Hall. inversion Hall as [|? ? H1 Hr]; subst.
        apply IHeq in Hr. unfold Py.len in *. lia. }
  destruct G as [Gle Geq]. pose proof (len_nonneg choices) as Hn.
  destruct (Z.eqb_spec (fold_right Z.add 0 (map Py.len choices)) (Py.len choices))
    as [E | E].
  - split; [intros _; now apply Geq | reflexivity].
  - split.
    + intros H1. exfalso.
      assert (Py.len choices = 0) by lia.
      destruct choices; [cbn in H1; lia|]. rewrite len_cons in *.
      pose proof (len_nonneg choices). lia.
    + intros Hall. apply Geq in Hall. contradiction.
Qed.

Section FlagFacts.

Variable get_command : string -> Z.

Lemma process_single_item_inv (cfg : MC.config) (flag flag' : bool)
    (item : MC.json_item) (d : MC.data_item) :
  MC.process_single_item get_command cfg flag item = Ok (flag', d) ->
  flag' = flag && (MC.tgt_seq_length (MC.json_choices item) =? 1)
  /\ MC.item_choices d = MC.json_choices item.
Proof.
  unfold MC.process_single_item.
  destruct (assert _ EmptyString); cbn [bind]; [|discriminate].
  destruct (assert _ _); cbn [bind]; [|discriminate].
  intros [= <- <-]. cbn [MC.item_choices]. split; [|reflexivity].
  destruct (MC.tgt_seq_length (MC.json_choices item) =? 1), flag; reflexivity.
Qed.

(** The flag after loading is the conjunction over all items. *)
Lemma process_items_flag (cfg : MC.config) (items : list MC.json_item) :
  forall flag data flag' data',
    MC.process_items get_command cfg items flag data = Ok (flag', data') ->
    flag' = flag && forallb (fun it => MC.tgt_seq_length (MC.json_choices it) =? 1) items
    /\ map MC.item_choices data' = map MC.item_choices data ++ map MC.json_choices items.
Proof.
  induction items as [|item rest IH]; intros flag data flag' data'; cbn [MC.process_items].
  - intros [= <- <-]. cbn. now rewrite andb_true_r, app_nil_r.
  - destruct (MC.process_single_item get_command cfg flag item) as [[f1 d]|] eqn:E;
      cbn [bind]; [|discriminate].
    intros H. apply IH in H. destruct H as [-> Hd].
    apply process_single_item_inv in E. destruct E as [-> Hc].
    cbn [forallb map]. split; [now rewrite andb_assoc|].
    rewrite Hd, map_app. cbn [map]. rewrite Hc, <- app_assoc. reflexivity.
Qed.

(** In single-token mode an item whose choices are one token each, with
    at least one choice, encodes; its target index array is the length of
    the context. *)
Lemma build_single_token (text : list Z) (c0 : Z) (rest : list (list Z)) (ume : bool) :
  Forall (fun c => length c = 1%nat) rest ->
  exists s mask_position st0,
    MC.build_multiple_choice_sample get_command text ([c0] :: rest) true ume = Ok s
    /\ MC.context_prefix get_command text = Ok (mask_position, st0)
    /\ MC.choice_target_ids s = MC.TargetFirst [Py.len (MC.st_token st0)]
    /\ MC.token s = MC.st_token st0 ++ [get_command "sop"].
Proof.
  intros Hrest. unfold MC.build_multiple_choice_sample.
  destruct (context_prefix_ok get_command text) as (mp & st0 & Hc & _).
  rewrite Hc. cbn [bind MC.for_choices].
  assert (Hsq : exists cs', MC.squeeze_tolist ([c0] :: rest) = Ok cs').
  { unfold MC.squeeze_tolist.
    assert (Hall : forallb (fun c' : list Z => Nat.eqb (length c') (length [c0])) rest = true).
    { apply forallb_forall. intros c Hin. rewrite Forall_forall in Hrest.
      rewrite (Hrest c Hin). reflexivity. }
    rewrite Hall. destruct rest; eexists; reflexivity. }
  destruct Hsq as (cs' & ->). cbn [bind].
  cbn [MC.append_choice MC.context_block MC.st_choice_target_id MC.st_token].
  assert (Hids : MC.st_choice_target_id st0 = []).
  { destruct (context_prefix_ok get_command text) as (mp' & st0' & Hc' & _ & _ & Hi & _).
    rewrite Hc in Hc'. now injection Hc' as <- <-. }
  rewrite Hids. cbn [app].
  assert (Har : Py.arange (Py.len (MC.st_token st0)) (Py.len (MC.st_token st0) + Py.len [c0])
                = [Py.len (MC.st_token st0)]).
  { unfold Py.arange.
    replace (Py.len (MC.st_token st0) + Py.len [c0] - Py.len (MC.st_token st0)) with 1
      by (unfold Py.len; simpl length; lia).
    change (Z.to_nat 1) with 1%nat. cbn [seq map]. f_equal. lia. }
  rewrite Har. cbn. do 3 eexists. repeat split.
Qed.

(** C3, as the code has it.  [is_single_token] is one flag for the whole
    dataset.  For a dataset whose choices are all non-empty and that
    loads: the flag is true exactly when every choice of every item has
    length 1; and then every item with at least one choice encodes, with
    [choice_target_ids] the one-element index array holding the length of
    the token sequence before the choice tokens are appended (the context
    and its mask), followed in the tokens by one start-of-prediction id. *)
Theorem single_token_flag_dataset_wide (cfg : MC.config) (items : list MC.json_item)
    (ds : MC.dataset) :
  Forall (fun it => Forall (fun c => c <> []) (MC.json_choices it)) items ->
  MC.init get_command cfg items = Ok ds ->
  (MC.is_single_token ds = true
   <-> Forall (fun it => Forall (fun c => length c = 1%nat) (MC.json_choices it)) items)
  /\ (MC.is_single_token ds = true ->
      forall (idx : nat) (item : MC.data_item),
        nth_error (MC.data ds) idx = Some item ->
        MC.item_choices item <> [] ->
        exists s mask_position st0,
          MC.getitem get_command ds (Z.of_nat idx) = Ok (s, MC.label item)
          /\ MC.context_prefix get_command (MC.text item) = Ok (mask_position, st0)
          /\ MC.choice_target_ids s = MC.TargetFirst [Py.len (MC.st_token st0)]
          /\ MC.token s = MC.st_token st0 ++ [get_command "sop"]).
Proof.
  intros Hne Hinit. unfold MC.init in Hinit.
  destruct (MC.process_items get_command cfg items true []) as [[flag d]|] eqn:E;
    cbn [bind] in Hinit; [|discriminate].
  injection Hinit as <-. cbn [MC.is_single_token MC.data MC.ds_config].
  destruct (process_items_flag _ _ _ _ _ _ E) as [Hflag Hdata].
  cbn [andb map app] in Hflag, Hdata.
  assert (Hiff : flag = true
                 <-> Forall (fun it => Forall (fun c => length c = 1%nat)
                                         (MC.json_choices it)) items).
  { rewrite Hflag, forallb_forall, Forall_forall. rewrite Forall_forall in Hne.
    split; intros H it Hin.
    - apply tgt_seq_length_one; [now apply Hne|]. apply Z.eqb_eq. now apply H.
    - apply Z.eqb_eq. apply tgt_seq_length_one; [now apply Hne | now apply H]. }
  split; [exact Hiff|].
  intros Htrue idx item Hidx Hnonempty.
  assert (Hall : Forall (fun c => length c = 1%nat) (MC.item_choices item)).
  { destruct Hiff as [Hiff _]. specialize (Hiff Htrue).
    assert (Hin : In (MC.item_choices item) (map MC.json_choices items)).
    { rewrite <- Hdata. apply in_map. eapply nth_error_In; eassumption. }
    apply in_map_iff in Hin. destruct Hin as (it & <- & Hit).
    rewrite Forall_forall in Hiff. now apply Hiff. }
  destruct (MC.item_choices item) as [|c0 rest] eqn:Ech; [congruence|].
  inversion Hall as [|? ? Hc0 Hrest]; subst.
  destruct c0 as [|x [|y t]]; try discriminate.
  destruct (build_single_token (MC.text item) x rest
              (MC.use_multitask_encoding cfg) Hrest)
    as (s & mp & st0 & Hb & Hc & Hids & Htok).
  exists s, mp, st0. split; [|repeat split; assumption].
  unfold MC.getitem. cbn [MC.data MC.is_single_token MC.ds_config].
  rewrite (getitem_nth _ (Z.of_nat idx) item) by (try lia; now rewrite Nat2Z.id).
  cbn [bind]. rewrite Ech, Htrue, Hb. reflexivity.
Qed.

End FlagFacts.

Lemma single_token_flag_dataset_wide_witness :
  Forall (fun it => Forall (fun c : list Z => c <> []) (MC.json_choices it)) [item_single]
  /\ exists ds,
      MC.init sample_command sample_config [item_single] = Ok ds
      /\ MC.is_single_token ds = true
      /\ (MC.is_single_token ds = true
          <-> Forall (fun it => Forall (fun c => length c = 1%nat) (MC.json_choices it))
                [item_single]).
Proof.
  assert (H : Forall (fun it => Forall (fun c : list Z => c <> []) (MC.json_choices it))
                [item_single])
    by (repeat constructor; discriminate).
  split; [exact H|].
  eexists. split; [reflexivity|]. split; [reflexivity|].
  exact (proj1 (single_token_flag_dataset_wide sample_command sample_config
                  [item_single] _ H eq_refl)).
Defined.

(** C3 as stated fails: in a dataset that also holds an item with a
    two-token choice, the item whose choices are one token each is encoded
    with [is_single_token] false. *)
Lemma single_token_flag_not_per_item :
  ~ (forall (cfg : MC.config) (items : list MC.json_item) (ds : MC.dataset)
            (item : MC.data_item),
        MC.init sample_command cfg items = Ok ds ->
        In item (MC.data ds) ->
        (MC.is_single_token ds = true
         <-> Forall (fun c => length c = 1%nat) (MC.item_choices item))).
Proof.
  intros H.
  specialize (H sample_config [item_single; item_multi] _ _ eq_refl (or_introl eq_refl)).
  destruct H as [_ H]. cbn in H.
  assert (Hfalse : false = true) by (apply H; repeat constructor).
  discriminate Hfalse.
Qed.

(** ** The collator *)

Lemma entry_lt_half (m : Py.matrix) (r c : nat) :
  Py.entry (Py.lt_half m) r c = option_map (fun x => x <? 1) (Py.entry m r c).
Proof.
  unfold Py.entry, Py.lt_half. rewrite nth_error_map.
  destruct (nth_error m r) as [row|]; [|reflexivity]. cbn [option_map].
  now rewrite nth_error_map.
Qed.

Lemma entry_some_lt (n : nat) (m : Py.matrix) (r c : nat) (v : Z) :
  square n m -> Py.entry m r c = Some v -> (r < n)%nat /\ (c < n)%nat.
Proof.
  intros [Hl Hr] He. unfold Py.entry in He.
  destruct (nth_error m r) as [row|] eqn:E; [|discriminate].
  assert (Hrow : length row = n).
  { rewrite Forall_forall in Hr. apply Hr. eapply nth_error_In; eassumption. }
  split.
  - rewrite <- Hl. apply nth_error_Some. congruence.
  - rewrite <- Hrow. apply nth_error_Some. congruence.
Qed.

Lemma pad_zeros_square (n k : nat) (m : Py.matrix) :
  square n m -> square (n + k) (Py.pad_zeros m k).
Proof.
  intros Hsq. pose proof (ncols_square _ _ Hsq) as Hc. destruct Hsq as [Hl Hr].
  unfold square, Py.pad_zeros.
  rewrite length_app, length_map, repeat_length, Hc. split; [lia|].
  apply Forall_app. split.
  - apply Forall_map. eapply Forall_impl; [|exact Hr]. cbv beta. intros row Hrow.
    rewrite length_app, repeat_length. lia.
  - apply Forall_forall. intros row Hin. apply repeat_spec in Hin. subst row.
    apply repeat_length.
Qed.

(** Entries of a padded array: the array inside, zero outside. *)
Lemma entry_pad_zeros (n k : nat) (m : Py.matrix) (r c : nat) :
  square n m -> (r < n + k)%nat -> (c < n + k)%nat ->
  Py.entry (Py.pad_zeros m k) r c
  = if (r <? n)%nat && (c <? n)%nat then Py.entry m r c else Some 0.
Proof.
  intros Hsq Hr Hc. pose proof (ncols_square _ _ Hsq) as Hn. destruct Hsq as [Hl Hrows].
  unfold Py.entry, Py.pad_zeros.
  destruct (Nat.ltb_spec r n) as [Hrn | Hrn]; cbn [andb].
  - rewrite nth_error_app1 by (rewrite length_map; lia).
    rewrite nth_error_map.
    destruct (nth_error m r) as [row|] eqn:E; [|apply nth_error_None in E; lia].
    cbn [option_map].
    assert (Hrow : length row = n).
    { rewrite Forall_forall in Hrows. apply Hrows. eapply nth_error_In; eassumption. }
    destruct (Nat.ltb_spec c n) as [Hcn | Hcn].
    + now rewrite nth_error_app1 by lia.
    + rewrite nth_error_app2 by lia. apply nth_error_repeat_lt. lia.
  - rewrite nth_error_app2 by (rewrite length_map; lia).
    rewrite length_map, nth_error_repeat_lt by lia.
    apply nth_error_repeat_lt. lia.
Qed.

Lemma fold_left_max_ge (t : list Z) :
  forall x, x <= fold_left Z.max t x /\ Forall (fun y => y <= fold_left Z.max t x) t.
Proof.
  induction t as [|y t IH]; intros x; cbn [fold_left].
  - split; [lia | constructor].
  - destruct (IH (Z.max x y)) as [H1 H2]. split; [lia|].
    constructor; [lia | exact H2].
Qed.

Lemma fold_left_max_in (t : list Z) :
  forall x, fold_left Z.max t x = x \/ In (fold_left Z.max t x) t.
Proof.
  induction t as [|y t IH]; intros x; cbn [fold_left].
  - now left.
  - destruct (IH (Z.max x y)) as [H | H].
    + rewrite H. destruct (Z.max_spec x y) as [[_ ->] | [_ ->]]; [right; now left | now left].
    + right. now right.
Qed.

(** The padded length is the least multiple of the tile that covers the
    longest sample. *)
Lemma length_to_pad_spec (samples : list MC.sample) :
  samples <> [] ->
  exists L,
    MC.length_to_pad samples = Ok L
    /\ L mod MC.TILE = 0
    /\ (forall s, In s samples -> Py.len (MC.token s) <= L)
    /\ (exists s, In s samples /\ L < Py.len (MC.token s) + MC.TILE).
Proof.
  intros Hne. destruct samples as [|s0 rest]; [congruence|].
  unfold MC.length_to_pad, Py.max. cbn [map bind].
  set (m := fold_left Z.max (map (fun spl => Py.len (MC.token spl)) rest)
              (Py.len (MC.token s0))).
  destruct (fold_left_max_ge (map (fun spl => Py.len (MC.token spl)) rest)
              (Py.len (MC.token s0))) as [H0 Hall].
  fold m in H0, Hall.
  eexists. split; [reflexivity|]. unfold MC.TILE.
  split; [apply Z_mod_mult|].
  assert (Hdiv : m <= (m + 32 - 1) / 32 * 32 < m + 32).
  { pose proof (Z.div_mod (m + 32 - 1) 32 ltac:(lia)) as Hdm.
    pose proof (Z.mod_pos_bound (m + 32 - 1) 32 ltac:(lia)) as Hb. lia. }
  split.
  - intros s [<- | Hin]; [lia|].
    rewrite Forall_forall in Hall.
    specialize (Hall (Py.len (MC.token s))
                  (in_map (fun spl => Py.len (MC.token spl)) _ _ Hin)). lia.
  - destruct (fold_left_max_in (map (fun spl => Py.len (MC.token spl)) rest)
                (Py.len (MC.token s0))) as [H | H]; fold m in H.
    + exists s0. split; [now left | lia].
    + apply in_map_iff in H. destruct H as (s & Hs & Hin).
      exists s. split; [now right | lia].
Qed.

(** The three padded arrays of a well-shaped sample. *)
Lemma pad_batch_ok (s : MC.sample) (L : Z) :
  well_shaped s -> Py.len (MC.token s) <= L ->
  pad_batch (MC.token s) (MC.position_id s) (MC.attention_mask s) L
  = Ok (MC.token s ++ repeat 0 (Z.to_nat (L - Py.len (MC.token s))),
        MC.position_id s ++ repeat 0 (Z.to_nat (L - Py.len (MC.token s))),
        Py.pad_zeros (MC.attention_mask s) (Z.to_nat (L - Py.len (MC.token s)))).
Proof.
  intros [Hp _] HL. unfold pad_batch, Py.pad, Py.zeros.
  assert (Hpl : Py.len (MC.position_id s) = Py.len (MC.token s))
    by (unfold Py.len; now rewrite Hp).
  rewrite Hpl.
  destruct (Z.ltb_spec (L - Py.len (MC.token s)) 0); [lia|]. reflexivity.
Qed.

Lemma pad_samples_ok (L : Z) (samples : list MC.sample) :
  Forall well_shaped samples ->
  (forall s, In s samples -> Py.len (MC.token s) <= L) ->
  MC.pad_samples samples L
  = Ok (map (fun s => MC.token s ++ repeat 0 (Z.to_nat (L - Py.len (MC.token s)))) samples,
        map (fun s => MC.position_id s ++ repeat 0 (Z.to_nat (L - Py.len (MC.token s))))
          samples,
        map (fun s => Py.pad_zeros (MC.attention_mask s)
                        (Z.to_nat (L - Py.len (MC.token s)))) samples).
Proof.
  induction 1 as [|s rest Hs _ IH]; intros HL; cbn [MC.pad_samples map].
  - reflexivity.
  - rewrite (pad_batch_ok s L Hs) by (apply HL; now left). cbn [bind].
    rewrite IH by (intros s' Hin; apply HL; now right). reflexivity.
Qed.

Lemma stack_same_shape (n : nat) (ms : list Py.matrix) :
  Forall (square n) ms -> Py.stack ms = Ok ms.
Proof.
  intros Hall. unfold Py.stack. destruct ms as [|m rest]; [reflexivity|].
  inversion Hall as [|? ? Hm Hrest]; subst.
  assert (Hf : forallb (fun m' => Nat.eqb (length m') (length m)
                                  && Nat.eqb (Py.ncols m') (Py.ncols m)) rest = true).
  { apply forallb_forall. intros m' Hin. rewrite Forall_forall in Hrest.
    specialize (Hrest m' Hin).
    rewrite (ncols_square _ _ Hm), (ncols_square _ _ Hrest).
    rewrite (proj1 Hm), (proj1 Hrest), Nat.eqb_refl. reflexivity. }
  now rewrite Hf.
Qed.

(** The collator succeeds on every non-empty list of well-shaped samples,
    and this is the batch it returns. *)
Lemma collate_fn_ok (flag : bool) (samples : list MC.sample) :
  samples <> [] -> Forall well_shaped samples ->
  exists L,
    MC.length_to_pad samples = Ok L
    /\ 0 <= L
    /\ (forall s, In s samples -> Py.len (MC.token s) <= L)
    /\ MC.collate_fn flag samples
       = Ok {| MC.tokens :=
                 map (fun s => MC.token s ++ repeat 0 (Z.to_nat (L - Py.len (MC.token s))))
                   samples;
               MC.position_ids :=
                 map (fun s => MC.position_id s
                                 ++ repeat 0 (Z.to_nat (L - Py.len (MC.token s)))) samples;
               MC.batch_attention_mask :=
                 map Py.lt_half
                   (map (fun s => Py.pad_zeros (MC.attention_mask s)
                                    (Z.to_nat (L - Py.len (MC.token s)))) samples);
               MC.batch_choices := map MC.choices samples;
               MC.batch_choice_target_ids := map MC.choice_target_ids samples;
               MC.batch_is_single_token := flag |}.
Proof.
  intros Hne Hws.
  destruct (length_to_pad_spec samples Hne) as (L & HL & _ & Hle & _).
  exists L. split; [exact HL|].
  assert (H0 : 0 <= L).
  { destruct samples as [|s rest]; [congruence|].
    specialize (Hle s (or_introl eq_refl)). pose proof (len_nonneg (MC.token s)). lia. }
  split; [exact H0 | split; [exact Hle|]].
  unfold MC.collate_fn. rewrite HL. cbn [bind].
  rewrite (pad_samples_ok L samples Hws Hle). cbn [bind].
  rewrite (stack_same_shape (Z.to_nat L)); [reflexivity|].
  apply Forall_map, Forall_forall. intros s Hin.
  rewrite Forall_forall in Hws. destruct (Hws s Hin) as [_ Hsq].
  specialize (Hle s Hin).
  replace (Z.to_nat L)
    with (length (MC.token s) + Z.to_nat (L - Py.len (MC.token s)))%nat
    by (unfold Py.len in *; lia).
  now apply pad_zeros_square.
Qed.

(** The encoder's samples have the shape the collator relies on. *)
Lemma build_multiple_choice_sample_well_shaped (get_command : string -> Z)
    (text : list Z) (choices : list (list Z)) (is_single_token ume : bool)
    (s : MC.sample) :
  Forall (fun c => c <> []) choices ->
  MC.build_multiple_choice_sample get_command text choices is_single_token ume = Ok s ->
  well_shaped s.
Proof. intros Hne Hb. exact (build_multiple_choice_sample_shape _ _ _ _ _ _ Hne Hb). Qed.

Lemma Forall_map_length_pad (L : Z) (f : MC.sample -> list Z) (samples : list MC.sample) :
  (forall s, In s samples -> Py.len (f s) = Py.len (MC.token s)) ->
  (forall s, In s samples -> Py.len (MC.token s) <= L) ->
  Forall (fun t => Py.len t = L)
    (map (fun s => f s ++ repeat 0 (Z.to_nat (L - Py.len (MC.token s)))) samples).
Proof.
  intros Hf HL. apply Forall_map, Forall_forall. intros s Hin.
  rewrite len_app, (Hf s Hin). specialize (HL s Hin).
  unfold Py.len at 2. rewrite repeat_length. lia.
Qed.

(** X23.  For every non-empty list of well-shaped samples (as many
    position ids as tokens, a square visibility matrix of that size, which
    is what the encoder returns for non-empty choices), the collator pads
    the tokens, the position ids and both axes of the attention mask of
    every sample to [L], the least multiple of 32 that is at least the
    longest token sequence of the batch.  The padding of tokens and
    position ids is zeros; the delivered mask of a sample is [L] by [L],
    its entry is the sample's visibility compared with one half where the
    sample has an entry, and [True] (a padded 0) everywhere else.  Samples
    of lengths 10 and 35 are padded to 64. *)
Theorem collate_pads_to_tile (flag : bool) (samples : list MC.sample) :
  samples <> [] ->
  Forall well_shaped samples ->
  (exists L b,
      MC.length_to_pad samples = Ok L
      /\ L mod 32 = 0
      /\ (forall s, In s samples -> Py.len (MC.token s) <= L)
      /\ (exists s, In s samples /\ L < Py.len (MC.token s) + 32)
      /\ MC.collate_fn flag samples = Ok b
      /\ MC.tokens b
         = map (fun s => MC.token s ++ repeat 0 (Z.to_nat (L - Py.len (MC.token s))))
             samples
      /\ MC.position_ids b
         = map (fun s => MC.position_id s
                           ++ repeat 0 (Z.to_nat (L - Py.len (MC.token s)))) samples
      /\ Forall (fun t => Py.len t = L) (MC.tokens b)
      /\ Forall (fun p => Py.len p = L) (MC.position_ids b)
      /\ Forall (fun m => Py.len m = L /\ Forall (fun row => Py.len row = L) m)
           (MC.batch_attention_mask b)
      /\ (forall (i : nat) (s : MC.sample),
             nth_error samples i = Some s ->
             exists m,
               nth_error (MC.batch_attention_mask b) i = Some m
               /\ forall r c : nat,
                   Z.of_nat r < L -> Z.of_nat c < L ->
                   Py.entry m r c
                   = Some (match Py.entry (MC.attention_mask s) r c with
                           | Some v => v <? 1
                           | None => true
                           end)))
  /\
  (forall s1 s2 : MC.sample,
      Py.len (MC.token s1) = 10 -> Py.len (MC.token s2) = 35 ->
      MC.length_to_pad [s1; s2] = Ok 64).
Proof.
  intros Hne Hws. split.
  - destruct (length_to_pad_spec samples Hne) as (L & HL & Hmod & Hle & Hlt).
    destruct (collate_fn_ok flag samples Hne Hws) as (L' & HL' & H0 & _ & Hb).
    rewrite HL in HL'. injection HL' as <-.
    eexists L, _. split; [exact HL|]. split; [exact Hmod|]. split; [exact Hle|].
    split; [exact Hlt|]. split; [exact Hb|].
    cbn [MC.tokens MC.position_ids MC.batch_attention_mask].
    split; [reflexivity|]. split; [reflexivity|].
    split; [apply Forall_map_length_pad; [reflexivity | exact Hle]|].
    split; [|split].
    + apply Forall_map_length_pad; [|exact Hle].
      intros s Hin. rewrite Forall_forall in Hws. destruct (Hws s Hin) as [Hp _].
      unfold Py.len. now rewrite Hp.
    + rewrite map_map. apply Forall_map, Forall_forall. intros s Hin.
      rewrite Forall_forall in Hws. destruct (Hws s Hin) as [_ Hsq].
      specialize (Hle s Hin).
      pose proof (pad_zeros_square _ (Z.to_nat (L - Py.len (MC.token s))) _ Hsq)
        as [Hrows Hcols].
      unfold Py.lt_half, Py.len in *. rewrite length_map, Hrows. split; [lia|].
      apply Forall_map. eapply Forall_impl; [|exact Hcols]. cbv beta.
      intros row Hrow. rewrite length_map, Hrow. lia.
    + intros i s Hi.
      assert (Hin : In s samples) by (eapply nth_error_In; eassumption).
      rewrite Forall_forall in Hws. destruct (Hws s Hin) as [_ Hsq].
      specialize (Hle s Hin). unfold Py.len in Hle.
      eexists. split; [rewrite map_map; apply map_nth_error; exact Hi|].
      intros r c Hr Hc. rewrite entry_lt_half.
      rewrite (entry_pad_zeros _ _ _ _ _ Hsq) by (unfold Py.len; lia).
      destruct (Py.entry (MC.attention_mask s) r c) as [v|] eqn:Ev.
      * destruct (entry_some_lt _ _ _ _ _ Hsq Ev) as [Hrn Hcn].
        apply Nat.ltb_lt in Hrn, Hcn. rewrite Hrn, Hcn. reflexivity.
      * destruct (Nat.ltb_spec r (length (MC.token s))) as [Hrn | Hrn];
          [|reflexivity].
        destruct (Nat.ltb_spec c (length (MC.token s))) as [Hcn | Hcn];
          [|reflexivity].
        destruct (entry_square_some _ _ r c Hsq Hrn Hcn) as (x & Hx). congruence.
  - intros s1 s2 H1 H2. unfold MC.length_to_pad, Py.max. cbn [map fold_left bind].
    rewrite H1, H2. reflexivity.
Qed.

Lemma collate_pads_to_tile_witness :
  exists s1 s2,
    MC.build_multiple_choice_sample sample_command (repeat 11 7%nat) [[5; 6]] false false
    = Ok s1
    /\ MC.build_multiple_choice_sample sample_command (repeat 11 32%nat) [[5; 6]] false false
       = Ok s2
    /\ Py.len (MC.token s1) = 10 /\ Py.len (MC.token s2) = 35
    /\ [s1; s2] <> []
    /\ Forall well_shaped [s1; s2]
    /\ MC.length_to_pad [s1; s2] = Ok 64
    /\ exists L b,
        MC.length_to_pad [s1; s2] = Ok L
        /\ MC.collate_fn false [s1; s2] = Ok b
        /\ Forall (fun t => Py.len t = L) (MC.tokens b)
        /\ Forall (fun p => Py.len p = L) (MC.position_ids b)
        /\ Forall (fun m => Py.len m = L /\ Forall (fun row => Py.len row = L) m)
             (MC.batch_attention_mask b).
Proof.
  assert (Hc : Forall (fun c : list Z => c <> []) [[5; 6]])
    by (repeat constructor; discriminate).
  do 2 eexists. split; [reflexivity|]. split; [reflexivity|].
  split; [reflexivity|]. split; [reflexivity|].
  match goal with
  | |- ?l <> [] /\ _ =>
      assert (Hne : l <> []) by discriminate;
      assert (Hws : Forall well_shaped l)
  end.
  { constructor; [|constructor; [|constructor]].
    - exact (build_multiple_choice_sample_well_shaped sample_command (repeat 11 7%nat)
               [[5; 6]] false false _ Hc eq_refl).
    - exact (build_multiple_choice_sample_well_shaped sample_command (repeat 11 32%nat)
               [[5; 6]] false false _ Hc eq_refl). }
  split; [exact Hne|]. split; [exact Hws|].
  destruct (collate_pads_to_tile false _ Hne Hws)
    as [(L & b & HL & _ & _ & _ & Hb & _ & _ & Ht & Hp & Hm & _) H64].
  split; [apply H64; reflexivity|].
  exists L, b. repeat split; assumption.
Defined.

(** C9.  A sample with an empty choice has one token more than its
    visibility matrix has rows, and [pad_batch] pads the matrix by what
    the tokens lack.  For the text [[11]] and the choices [[]], [[5; 6]],
    [[7; 8]] (7 tokens, 6 position ids, a 6 by 6 matrix) the collator pads
    the tokens and the position ids to 32 and the attention mask to 31 by
    31, not to 32; collated together with a sample without an empty
    choice, whose mask is padded to 32 by 32, the masks cannot be stacked
    and the collator fails. *)
Theorem collate_pads_empty_choice_mask_short :
  exists s s' b,
    MC.build_multiple_choice_sample sample_command [11] [[]; [5; 6]; [7; 8]] false false
    = Ok s
    /\ MC.build_multiple_choice_sample sample_command [11] [[5; 6]; [7; 8]] false false
       = Ok s'
    /\ Py.len (MC.token s) = 7
    /\ Py.len (MC.position_id s) = 6
    /\ Py.len (MC.attention_mask s) = 6
    /\ MC.length_to_pad [s] = Ok 32
    /\ MC.collate_fn false [s] = Ok b
    /\ Forall (fun t => Py.len t = 32) (MC.tokens b)
    /\ Forall (fun p => Py.len p = 32) (MC.position_ids b)
    /\ Forall (fun m => Py.len m = 31 /\ Forall (fun row => Py.len row = 31) m)
         (MC.batch_attention_mask b)
    /\ ~ Forall (fun m => Py.len m = 32) (MC.batch_attention_mask b)
    /\ MC.length_to_pad [s'; s] = Ok 32
    /\ exists e, MC.collate_fn false [s'; s] = Err e.
Proof.
  do 3 eexists. split; [reflexivity|]. split; [reflexivity|].
  split; [reflexivity|]. split; [reflexivity|]. split; [reflexivity|].
  split; [reflexivity|]. split; [vm_compute; reflexivity|].
  split; [repeat constructor|]. split; [repeat constructor|].
  split; [repeat constructor|]. split.
  - intros H. inversion H as [|m ms Hm _]. discriminate Hm.
  - split; [reflexivity|]. eexists. vm_compute. reflexivity.
Qed.

Lemma pad_batch_err (tokens position_ids : list Z) (m : Py.matrix) (L : Z) (e : error) :
  pad_batch tokens position_ids m L = Err e -> e = ValueError.
Proof.
  unfold pad_batch, Py.pad, Py.zeros.
  destruct (L - Py.len tokens <? 0); cbn [bind]; [now intros [= <-]|].
  destruct (L - Py.len position_ids <? 0); cbn [bind]; [now intros [= <-] | discriminate].
Qed.

Lemma pad_samples_err (L : Z) (samples : list MC.sample) (e : error) :
  MC.pad_samples samples L = Err e -> e = ValueError.
Proof.
  induction samples as [|s rest IH]; cbn [MC.pad_samples]; [discriminate|].
  destruct (pad_batch (MC.token s) (MC.position_id s) (MC.attention_mask s) L)
    as [[[tok pos] att]|e'] eqn:E; cbn [bind].
  - destruct (MC.pad_samples rest L) as [[[toks poss] atts]|e'']; cbn [bind];
      [discriminate|].
    intros [= <-]. now apply IH.
  - intros [= <-]. exact (pad_batch_err _ _ _ _ _ E).
Qed.

(** C2, as the code has it.  The collator makes no check of the modes of
    its samples: on every non-empty list of well-shaped samples, mixed or
    not, it returns a batch that carries the flag of the dataset and every
    sample's own choices and target ids; and the only exception it raises
    is a [ValueError] (an empty list, or arrays that cannot be padded or
    stacked). *)
Theorem collate_makes_no_mode_check (flag : bool) (samples : list MC.sample) :
  (samples <> [] -> Forall well_shaped samples ->
   exists b,
     MC.collate_fn flag samples = Ok b
     /\ MC.batch_is_single_token b = flag
     /\ MC.batch_choices b = map MC.choices samples
     /\ MC.batch_choice_target_ids b = map MC.choice_target_ids samples)
  /\ (forall e, MC.collate_fn flag samples = Err e -> e = ValueError).
Proof.
  split.
  - intros Hne Hws. destruct (collate_fn_ok flag samples Hne Hws) as (L & _ & _ & _ & Hb).
    eexists. split; [exact Hb|]. repeat split.
  - intros e. unfold MC.collate_fn, MC.length_to_pad, Py.max.
    destruct (map (fun spl => Py.len (MC.token spl)) samples) as [|x t];
      cbn [bind]; [now intros [= <-]|].
    destruct (MC.pad_samples samples _) as [[[toks poss] atts]|e'] eqn:E; cbn [bind].
    + unfold Py.stack. destruct atts as [|m rest]; cbn [bind]; [discriminate|].
      match goal with |- context [forallb ?f rest] => destruct (forallb f rest) end;
        cbn [bind]; [discriminate | now intros [= <-]].
    + intros [= <-]. exact (pad_samples_err _ _ _ E).
Qed.

Lemma collate_makes_no_mode_check_witness :
  exists s1 s2,
    MC.build_multiple_choice_sample sample_command [11; 12] [[5; 6]; [7]] false false
    = Ok s1
    /\ MC.build_multiple_choice_sample sample_command [11; 12; 13] [[8]; [9; 10]] false false
       = Ok s2
    /\ [s1; s2] <> []
    /\ Forall well_shaped [s1; s2]
    /\ exists b,
        MC.collate_fn false [s1; s2] = Ok b
        /\ MC.batch_is_single_token b = false
        /\ MC.batch_choices b = map MC.choices [s1; s2]
        /\ MC.batch_choice_target_ids b = map MC.choice_target_ids [s1; s2].
Proof.
  assert (Hc1 : Forall (fun c : list Z => c <> []) [[5; 6]; [7]])
    by (repeat constructor; discriminate).
  assert (Hc2 : Forall (fun c : list Z => c <> []) [[8]; [9; 10]])
    by (repeat constructor; discriminate).
  do 2 eexists. split; [reflexivity|]. split; [reflexivity|].
  match goal with
  | |- ?l <> [] /\ _ =>
      assert (Hne : l <> []) by discriminate;
      assert (Hws : Forall well_shaped l)
  end.
  { constructor; [|constructor; [|constructor]].
    - exact (build_multiple_choice_sample_well_shaped sample_command [11; 12]
               [[5; 6]; [7]] false false _ Hc1 eq_refl).
    - exact (build_multiple_choice_sample_well_shaped sample_command [11; 12; 13]
               [[8]; [9; 10]] false false _ Hc2 eq_refl). }
  split; [exact Hne|]. split; [exact Hws|].
  exact (proj1 (collate_makes_no_mode_check false _) Hne Hws).
Defined.

(** C2 as stated fails: a sample encoded in single-token mode and one
    encoded in multi-token mode collate into one batch without any error. *)
Lemma collate_accepts_mixed_modes :
  exists s1 s2 b,
    MC.build_multiple_choice_sample sample_command [11; 12] [[5]; [7]] true false = Ok s1
    /\ MC.build_multiple_choice_sample sample_command [11; 12] [[5; 6]; [7]] false false
       = Ok s2
    /\ single_token_sample s1 = true
    /\ single_token_sample s2 = false
    /\ MC.collate_fn true [s1; s2] = Ok b.
Proof.
  do 3 eexists. split; [reflexivity|]. split; [reflexivity|].
  split; [reflexivity|]. split; [reflexivity|]. vm_compute. reflexivity.
Qed.

(** ** The attention mask handed to the model *)

(** Every entry of the visibility matrix of a generation sample. *)
Lemma gen_visibility_entry (max_seq_length ctx : Z) (unidirectional : bool)
    (vis : Py.matrix) (r c : nat) :
  1 <= ctx ->
  gen_visibility max_seq_length ctx unidirectional = Ok vis ->
  Py.entry vis r c
  = if (r <? Z.to_nat max_seq_length)%nat && (c <? Z.to_nat max_seq_length)%nat
    then Some (if negb unidirectional
                  && (Z.of_nat r <? ctx - 1) && (Z.of_nat c <? ctx - 1) then 1
               else if (c <=? r)%nat then 1 else 0)
    else None.
Proof.
  intros Hctx. unfold gen_visibility, Py.ones_sq.
  destruct (Z.ltb_spec max_seq_length 0); cbn [bind]; [discriminate|].
  intros [= <-]. set (n := Z.to_nat max_seq_length).
  pose proof (tril_square _ _ (ones_square n)) as Hsq.
  assert (Htril : Py.entry (Py.tril (Py.ones n)) r c
                  = if (r <? n)%nat && (c <? n)%nat
                    then Some (if (c <=? r)%nat then 1 else 0) else None).
  { destruct (Nat.ltb_spec r n) as [Hr | Hr]; destruct (Nat.ltb_spec c n) as [Hc0 | Hc0];
      cbn [andb]; try (now apply entry_tril_ones).
    - destruct (Py.entry (Py.tril (Py.ones n)) r c) eqn:E; [|reflexivity].
      apply (entry_some_lt _ _ _ _ _ Hsq) in E. lia.
    - destruct (Py.entry (Py.tril (Py.ones n)) r c) eqn:E; [|reflexivity].
      apply (entry_some_lt _ _ _ _ _ Hsq) in E. lia.
    - destruct (Py.entry (Py.tril (Py.ones n)) r c) eqn:E; [|reflexivity].
      apply (entry_some_lt _ _ _ _ _ Hsq) in E. lia. }
  destruct unidirectional; cbn [negb andb].
  - exact Htril.
  - rewrite (entry_assign_block _ _ _ _ _ _ _ Hsq) by lia. rewrite Htril.
    destruct ((r <? n)%nat && (c <? n)%nat); reflexivity.
Qed.

Section MaskFacts.

Variable get_command : string -> Z.

(** The visibility matrix of a multi-choice sample holds only 0 and 1, and
    is 1 in every column of the context. *)
Lemma multichoice_visibility_facts (text : list Z) (choices : list (list Z))
    (is_single_token ume : bool) (s : MC.sample) :
  Forall (fun c => c <> []) choices ->
  MC.build_multiple_choice_sample get_command text choices is_single_token ume = Ok s ->
  exists mask_position st0,
    MC.context_prefix get_command text = Ok (mask_position, st0)
    /\ (forall r c v, Py.entry (MC.attention_mask s) r c = Some v -> v = 0 \/ v = 1)
    /\ (forall r c : nat,
           (r < length (MC.token s))%nat -> (c < length (MC.st_token st0))%nat ->
           Py.entry (MC.attention_mask s) r c = Some 1).
Proof.
  intros Hne Hb.
  destruct (build_multiple_choice_sample_inv _ _ _ _ _ _ Hb)
    as (mp & st0 & Hc & Ht & _ & Hm & _).
  exists mp, st0. split; [exact Hc|].
  assert (Hne' : Forall (fun c : list Z => c <> []) (processed is_single_token choices)).
  { unfold processed. destruct is_single_token; [|exact Hne].
    destruct choices as [|c rest]; [constructor|]. inversion Hne. now repeat constructor. }
  set (bf := Py.contains (get_command "[MASK]") text) in *.
  set (cs := processed is_single_token choices) in *.
  set (d := length (MC.st_token st0)).
  destruct (for_choices_appends get_command bf ume mp cs (MC.context_block st0))
    as (_ & Hblocks & _).
  destruct (for_choices_spans get_command bf ume mp cs Hne' (MC.context_block st0))
    as (_ & Htok).
  cbn [MC.context_block MC.st_attention_mask MC.st_token app] in Hblocks, Htok.
  assert (Hentry : forall r c : nat,
             Py.entry (MC.attention_mask s) r c
             = match block_of (d :: map (@length Z) cs) r,
                     block_of (d :: map (@length Z) cs) c with
               | Some (k, i), Some (k', j) =>
                   Some (if (Z.of_nat r <? Z.of_nat (d + list_sum (map (@length Z) cs)))
                            && (Z.of_nat c <? Z.of_nat d) then 1
                         else if Nat.eqb k k'
                              then match k with
                                   | O => 1
                                   | S _ => if (j <=? i)%nat then 1 else 0
                                   end
                              else 0)
               | _, _ => None
               end).
  { intros r c. rewrite Hm. unfold MC.visibility. rewrite Hblocks.
    unfold Py.len. rewrite Htok. apply visibility_entry. lia. }
  split.
  - intros r c v. rewrite Hentry.
    destruct (block_of _ r) as [[k i]|]; [|discriminate].
    destruct (block_of _ c) as [[k' j]|]; [|discriminate].
    intros [= <-].
    destruct (_ && _); [now right|].
    destruct (Nat.eqb k k'); [|now left].
    destruct k; [now right|]. destruct (j <=? i)%nat; [now right | now left].
  - intros r c Hr Hcd. rewrite Hentry. rewrite Ht, Htok in Hr.
    destruct (block_of (d :: map (@length Z) cs) r) as [[k i]|] eqn:Er.
    2:{ apply block_of_none in Er. rewrite list_sum_step in Er. lia. }
    cbn [block_of]. destruct (Nat.ltb_spec c d); [|lia].
    destruct (Z.ltb_spec (Z.of_nat r) (Z.of_nat (d + list_sum (map (@length Z) cs))));
      [|lia].
    destruct (Z.ltb_spec (Z.of_nat c) (Z.of_nat d)); [|lia].
    reflexivity.
Qed.

End MaskFacts.

(** C10.  The attention mask handed to the model is the complement of the
    0/1 visibility matrix.  For a generation sample and for every sample
    of a collated multi-choice batch, the delivered entry is the
    visibility entry compared with one half: [True] exactly where the
    visibility is 0.  The fully visible context block (rows and columns
    before [context_length - 1] of a bidirectional generation sample; every
    token row and every context column of a multi-choice sample) is
    delivered as [False] throughout, and [process_data] passes the boolean
    tensor on unchanged under one added axis. *)
Theorem delivered_attention_mask_is_complement (get_command : string -> Z) :
  (forall (text : list Z) (max_seq_length : Z) (use_task_mask unidirectional : bool)
          (item : gen_item),
      build_generation_sample get_command text max_seq_length use_task_mask unidirectional
      = Ok item ->
      exists vis,
        gen_visibility max_seq_length (context_length item) unidirectional = Ok vis
        /\ attention_mask item = Py.lt_half vis
        /\ (forall r c v,
               Py.entry vis r c = Some v ->
               (v = 0 \/ v = 1) /\ Py.entry (attention_mask item) r c = Some (v =? 0))
        /\ (unidirectional = false ->
            forall r c : nat,
              Z.of_nat r < context_length item - 1 ->
              Z.of_nat c < context_length item - 1 ->
              Py.entry vis r c = Some 1
              /\ Py.entry (attention_mask item) r c = Some false))
  /\
  (forall (flag : bool) (samples : list MC.sample) (b : MC.batch),
      samples <> [] -> Forall well_shaped samples ->
      MC.collate_fn flag samples = Ok b ->
      snd (ModelForEvaluation.process_data b)
      = map (fun m => [m]) (MC.batch_attention_mask b)
      /\ forall (k : nat) (s : MC.sample),
          nth_error samples k = Some s ->
          exists m,
            nth_error (MC.batch_attention_mask b) k = Some m
            /\ (forall r c v,
                   Py.entry (MC.attention_mask s) r c = Some v ->
                   Py.entry m r c = Some (v <? 1))
            /\ (forall text choices is_single_token ume,
                   Forall (fun c => c <> []) choices ->
                   MC.build_multiple_choice_sample get_command text choices
                     is_single_token ume = Ok s ->
                   (forall r c v,
                       Py.entry (MC.attention_mask s) r c = Some v ->
                       (v = 0 \/ v = 1) /\ Py.entry m r c = Some (v =? 0))
                   /\ exists mask_position st0,
                       MC.context_prefix get_command text = Ok (mask_position, st0)
                       /\ forall r c : nat,
                           (r < length (MC.token s))%nat ->
                           (c < length (MC.st_token st0))%nat ->
                           Py.entry (MC.attention_mask s) r c = Some 1
                           /\ Py.entry m r c = Some false)).
Proof.
  split.
  - intros text max_seq_length utm uni item Hb.
    destruct (build_generation_sample_inv _ _ _ _ _ _ Hb) as (mp & token & Ht & Hfit).
    destruct (build_generation_sample_ok _ _ _ _ _ _ _ Ht Hfit) as (vis & Hv & Hb').
    rewrite Hb in Hb'. injection Hb' as ->. cbn [context_length attention_mask].
    pose proof (gen_tokens_nonempty _ _ _ _ _ _ Ht) as Hne.
    exists vis. split; [exact Hv|]. split; [reflexivity|].
    pose proof (fun r c => gen_visibility_entry _ _ _ _ r c Hne Hv) as Hentry.
    split.
    + intros r c v He. rewrite entry_lt_half, He. cbn [option_map].
      rewrite Hentry in He.
      destruct (_ && _) in He; [|discriminate]. injection He as <-.
      destruct (_ && _); [split; [now right | reflexivity]|].
      destruct (c <=? r)%nat; split; auto.
    + intros -> r c Hr Hc.
      assert (He : Py.entry vis r c = Some 1).
      { rewrite Hentry.
        destruct (Nat.ltb_spec r (Z.to_nat max_seq_length)); [|lia].
        destruct (Nat.ltb_spec c (Z.to_nat max_seq_length)); [|lia].
        destruct (Z.ltb_spec (Z.of_nat r) (Py.len token - 1)); [|lia].
        destruct (Z.ltb_spec (Z.of_nat c) (Py.len token - 1)); [|lia].
        reflexivity. }
      split; [exact He|]. rewrite entry_lt_half, He. reflexivity.
  - intros flag samples b Hne Hws Hb.
    split; [reflexivity|].
    destruct (collate_fn_ok flag samples Hne Hws) as (L & _ & _ & HL & Hb').
    rewrite Hb in Hb'. injection Hb' as ->. cbn [MC.batch_attention_mask].
    intros k s Hk.
    assert (Hin : In s samples) by (eapply nth_error_In; eassumption).
    rewrite Forall_forall in Hws. destruct (Hws s Hin) as [_ Hsq].
    specialize (HL s Hin).
    eexists. split.
    { rewrite map_map. apply map_nth_error. exact Hk. }
    assert (Hpad : forall r c v,
               Py.entry (MC.attention_mask s) r c = Some v ->
               Py.entry (Py.lt_half (Py.pad_zeros (MC.attention_mask s)
                                       (Z.to_nat (L - Py.len (MC.token s))))) r c
               = Some (v <? 1)).
    { intros r c v He. destruct (entry_some_lt _ _ _ _ _ Hsq He) as [Hr Hc].
      rewrite entry_lt_half, (entry_pad_zeros _ _ _ _ _ Hsq) by lia.
      destruct (Nat.ltb_spec r (length (MC.token s))); [|lia].
      destruct (Nat.ltb_spec c (length (MC.token s))); [|lia].
      cbn [andb]. now rewrite He. }
    split; [exact Hpad|].
    intros text choices ist ume Hc Hbuild.
    destruct (multichoice_visibility_facts get_command _ _ _ _ _ Hc Hbuild)
      as (mp & st0 & Hctx & H01 & Hvis).
    split.
    + intros r c v He. specialize (H01 _ _ _ He).
      rewrite (Hpad _ _ _ He). destruct H01 as [-> | ->]; split; auto.
    + exists mp, st0. split; [exact Hctx|]. intros r c Hr Hcd.
      specialize (Hvis r c Hr Hcd). split; [exact Hvis|].
      now rewrite (Hpad _ _ _ Hvis).
Qed.

Lemma delivered_attention_mask_is_complement_witness :
  exists item,
    build_generation_sample sample_command [11; 12; 13] 6 false false = Ok item
    /\ attention_mask item
       = [[false; false; false; false; true;  true];
          [false; false; false; false; true;  true];
          [false; false; false; false; true;  true];
          [false; false; false; false; true;  true];
          [false; false; false; false; false; true];
          [false; false; false; false; false; false]]
    /\ exists vis,
        gen_visibility 6 (context_length item) false = Ok vis
        /\ attention_mask item = Py.lt_half vis
        /\ (forall r c v,
               Py.entry vis r c = Some v ->
               (v = 0 \/ v = 1) /\ Py.entry (attention_mask item) r c = Some (v =? 0))
        /\ (false = false ->
            forall r c : nat,
              Z.of_nat r < context_length item - 1 ->
              Z.of_nat c < context_length item - 1 ->
              Py.entry vis r c = Some 1
              /\ Py.entry (attention_mask item) r c = Some false).
Proof.
  eexists. split; [reflexivity|]. split; [reflexivity|].
  exact (proj1 (delivered_attention_mask_is_complement sample_command)
           [11; 12; 13] 6 false false _ eq_refl).
Defined.

(** ** Scoring *)

Module ME := ModelForEvaluation.

Section ScoringFacts.

Variable score : Type.
Variable score_zero : score.
Variable score_add : score -> score -> score.

(** The multi-token loop hands back the list it was given. *)
Lemma multi_token_loop_keeps (logits_batch : list (list (list score))) :
  forall (choices_batch : list MC.py_choices) (tids_batch : list MC.target_ids)
         (log_probs : list (ME.py_scores score)),
    ME.multi_token_loop score score_zero score_add logits_batch choices_batch
      tids_batch log_probs = Ok log_probs
    \/ exists e,
        ME.multi_token_loop score score_zero score_add logits_batch choices_batch
          tids_batch log_probs = Err e.
Proof.
  induction logits_batch as [|output lb IH]; intros cb tb lp; cbn [ME.multi_token_loop].
  - now left.
  - destruct cb as [|cs cb]; [now left|]. destruct tb as [|tids tb]; [now left|].
    destruct (ME.log_probs_single score score_zero score_add output cs tids) as [l|e];
      cbn [bind]; [apply IH | right; now exists e].
Qed.

(** The loop the description asks for returns one entry per sample. *)
Lemma described_multi_token_loop_length (logits_batch : list (list (list score))) :
  forall (choices_batch : list MC.py_choices) (tids_batch : list MC.target_ids)
         (log_probs r : list (ME.py_scores score)),
    length choices_batch = length logits_batch ->
    length tids_batch = length logits_batch ->
    ME.described_multi_token_loop score score_zero score_add logits_batch choices_batch
      tids_batch log_probs = Ok r ->
    length r = (length log_probs + length logits_batch)%nat.
Proof.
  induction logits_batch as [|output lb IH]; intros cb tb lp r Hc Ht;
    cbn [ME.described_multi_token_loop].
  - intros [= <-]. simpl. lia.
  - destruct cb as [|cs cb]; [discriminate|]. destruct tb as [|tids tb]; [discriminate|].
    destruct (ME.log_probs_single score score_zero score_add output cs tids) as [l|e];
      cbn [bind]; [|discriminate].
    intros H. apply IH in H; simpl in Hc, Ht; try lia.
    rewrite length_app in H. simpl in *. lia.
Qed.

End ScoringFacts.

(** C1, on the code.  In multi-token mode [cond_log_prob] computes every
    sample's list of summed log-probabilities and appends none of them:
    whatever the batch, it returns the empty list (or raises).  On the
    collated batch of one sample with the choices [5, 6] and [7] it
    returns [[]], where the described result is [[[-18, -12]]]: one entry for the sample,
    holding the sum over each choice's target positions of the
    log-probabilities of its own token ids. *)
Theorem cond_log_prob_multi_token_returns_nothing :
  (forall (score : Type) (score_zero : score) (score_add : score -> score -> score)
          (model : list (list Z) -> list (list Z) -> list (list (list (list bool))) ->
                   list (list (list score)))
          (tokens position_ids : list (list Z)) (mask : list (list (list bool)))
          (choices : list MC.py_choices) (tids : list MC.target_ids),
      let b := {| MC.tokens := tokens;
                  MC.position_ids := position_ids;
                  MC.batch_attention_mask := mask;
                  MC.batch_choices := choices;
                  MC.batch_choice_target_ids := tids;
                  MC.batch_is_single_token := false |} in
      ME.cond_log_prob score score_zero score_add model b = Ok []
      \/ exists e, ME.cond_log_prob score score_zero score_add model b = Err e)
  /\ exists (s : MC.sample) (b : MC.batch),
      MC.build_multiple_choice_sample sample_command [11; 12] [[5; 6]; [7]] false false
      = Ok s
      /\ MC.collate_fn false [s] = Ok b
      /\ MC.batch_choices b = [MC.ChoiceLists [[5; 6]; [7]]]
      /\ MC.batch_choice_target_ids b = [MC.TargetEach [[3; 4]; [5]]]
      /\ ME.cond_log_prob Z 0 Z.add (fun _ _ _ => sample_log_probs) b = Ok []
      /\ ME.described_multi_token_loop Z 0 Z.add sample_log_probs
           (MC.batch_choices b) (MC.batch_choice_target_ids b) []
         = Ok [ME.ScoreList Z [-18; -12]].
Proof.
  split.
  - intros score score_zero score_add model tokens position_ids mask choices tids b.
    unfold ME.cond_log_prob. cbn.
    apply multi_token_loop_keeps.
  - do 2 eexists. split; [reflexivity|]. split; [vm_compute; reflexivity|].
    repeat split; vm_compute; reflexivity.
Qed.

(** ** Where the hypotheses above end *)

(** A sequence that does not fit in [max_seq_length] is refused when the
    tokens are padded. *)
Example generation_too_long :
  build_generation_sample sample_command [11; 12; 13] 4 false false = Err ValueError.
Proof. reflexivity. Qed.

(** With an empty choice the target length can equal the number of
    choices although a choice has two tokens; the flag then stays true. *)
Example empty_choice_keeps_flag :
  exists ds,
    MC.init sample_command sample_config
      [{| MC.inputs := [11]; MC.json_choices := [[]; [5; 6]]; MC.json_label := 0 |}]
    = Ok ds
    /\ MC.is_single_token ds = true.
Proof. eexists. split; reflexivity. Qed.

(** * Further properties of the code *)

(** ** The generation dataset *)

Module GD := GenerationTaskDataset.

Lemma py_max_spec (l : list Z) :
  l <> [] ->
  exists m, Py.max l = Ok m /\ In m l /\ Forall (fun y => y <= m) l.
Proof.
  intros Hne. destruct l as [|x t]; [congruence|].
  unfold Py.max. exists (fold_left Z.max t x). split; [reflexivity|].
  destruct (fold_left_max_ge t x) as [Hx Ht]. split.
  - destruct (fold_left_max_in t x) as [-> | H]; [now left | now right].
  - constructor; assumption.
Qed.

(** [l[lo:]] for a non-negative [lo]. *)
Lemma slice_suffix {A : Type} (l : list A) (lo : Z) :
  0 <= lo -> Py.slice l lo (Py.len l) = skipn (Z.to_nat lo) l.
Proof.
  intros Hlo. unfold Py.slice. pose proof (len_nonneg l) as Hn.
  rewrite !norm_bound_clip by lia. rewrite Z.min_id.
  destruct (Z_le_gt_dec lo (Py.len l)) as [Hle | Hgt].
  - replace (Z.min lo (Py.len l)) with lo by lia.
    apply firstn_all2. rewrite length_skipn. unfold Py.len in *. lia.
  - replace (Z.min lo (Py.len l)) with (Py.len l) by lia.
    rewrite Z.sub_diag. cbn [Z.to_nat firstn].
    symmetry. apply skipn_all2. unfold Py.len in *. lia.
Qed.

(** Skipping all but the last [n] elements, for an [n] below the length
    that may be negative. *)
Lemma skipn_last_tokens {A : Type} (l : list A) (n : Z) :
  n < Py.len l ->
  skipn (Z.to_nat (Py.len l - n)) l = skipn (length l - Z.to_nat n) l.
Proof.
  intros Hn. destruct (Z_le_gt_dec 0 n) as [Hpos | Hneg].
  - f_equal. unfold Py.len in *. lia.
  - rewrite !skipn_all2; [reflexivity | lia | unfold Py.len in *; lia].
Qed.

(** X1.  [GenerationTaskDataset.process_single_item] fails with a
    [ValueError] exactly on an item without targets.  Otherwise it keeps
    the targets, and with [m] the length of the longest target the text
    it keeps is: the whole input text when that fits with [m] and two
    control tokens in [max_seq_length]; and otherwise exactly its last
    [max_seq_length - m - 2] tokens (none when that number is not
    positive).  So when [max_seq_length] has room for the longest target
    and the two control tokens, the kept text, any target and two control
    tokens fit in [max_seq_length]. *)
Theorem generation_process_single_item (cfg : GD.config) (item : GD.json_item) :
  (GD.json_targets item = [] -> GD.process_single_item cfg item = Err ValueError)
  /\
  (GD.json_targets item <> [] ->
   exists d m,
     GD.process_single_item cfg item = Ok d
     /\ GD.targets d = GD.json_targets item
     /\ (exists t, In t (GD.json_targets item) /\ Py.len t = m)
     /\ (forall t, In t (GD.json_targets item) -> Py.len t <= m)
     /\ (Py.len (GD.inputs item) + m + 2 <= GD.max_seq_length cfg ->
         GD.text d = GD.inputs item)
     /\ (GD.max_seq_length cfg < Py.len (GD.inputs item) + m + 2 ->
         GD.text d
         = skipn (length (GD.inputs item) - Z.to_nat (GD.max_seq_length cfg - m - 2))
             (GD.inputs item)
         /\ Py.len (GD.text d) = Z.max 0 (GD.max_seq_length cfg - m - 2))
     /\ (m + 2 <= GD.max_seq_length cfg ->
         forall t, In t (GD.json_targets item) ->
                   Py.len (GD.text d) + Py.len t + 2 <= GD.max_seq_length cfg)).
Proof.
  unfold GD.process_single_item. split.
  - intros ->. reflexivity.
  - intros Hne.
    destruct (py_max_spec (map Py.len (GD.json_targets item))) as (m & Hm & Hin & Hall).
    { destruct (GD.json_targets item); [congruence | discriminate]. }
    rewrite Hm. cbn [bind]. rewrite Forall_forall in Hall.
    assert (Hle : forall t, In t (GD.json_targets item) -> Py.len t <= m).
    { intros t Ht. apply Hall. now apply in_map. }
    apply in_map_iff in Hin. destruct Hin as (tm & Htm & Hintm).
    pose proof (len_nonneg (GD.inputs item)) as Hn.
    pose proof (len_nonneg tm) as Hm0.
    eexists. exists m. split; [reflexivity|]. cbn [GD.targets GD.text].
    split; [reflexivity|]. split; [now exists tm|]. split; [exact Hle|].
    destruct (Z.gtb_spec (Py.len (GD.inputs item) + m + 2) (GD.max_seq_length cfg))
      as [Hgt | Hfit].
    + rewrite slice_suffix by lia.
      rewrite (skipn_last_tokens (GD.inputs item) (GD.max_seq_length cfg - m - 2))
        by lia.
      assert (Hlen : Py.len (skipn (length (GD.inputs item)
                                    - Z.to_nat (GD.max_seq_length cfg - m - 2))
                               (GD.inputs item))
                     = Z.max 0 (GD.max_seq_length cfg - m - 2)).
      { unfold Py.len at 1. rewrite length_skipn. unfold Py.len in *. lia. }
      split; [lia|]. split; [intros _; split; [reflexivity | exact Hlen]|].
      intros Hroom t Ht. specialize (Hle t Ht). rewrite Hlen. lia.
    + split; [reflexivity|]. split; [lia|].
      intros _ t Ht. specialize (Hle t Ht). lia.
Qed.

Lemma generation_process_single_item_witness :
  GD.json_targets gen_json_item <> []
  /\ exists d,
      GD.process_single_item gen_config gen_json_item = Ok d
      /\ GD.text d = [13; 14; 15; 16]
      /\ GD.text d = skipn 2 (GD.inputs gen_json_item)
      /\ Py.len (GD.text d) = 4.
Proof.
  assert (H : GD.json_targets gen_json_item <> []) by discriminate.
  split; [exact H|].
  destruct (proj2 (generation_process_single_item gen_config gen_json_item) H)
    as (d & m & Hd & _ & _ & _ & _ & _ & _).
  exists d. split; [exact Hd|].
  vm_compute in Hd. injection Hd as <-. repeat split; reflexivity.
Defined.

(** What a processed generation item keeps. *)
Lemma gen_processed_fits (cfg : GD.config) (item : GD.json_item) (d : GD.data_item) :
  GD.process_single_item cfg item = Ok d ->
  GD.targets d = GD.json_targets item
  /\ GD.targets d <> []
  /\ ((forall t, In t (GD.json_targets item) -> Py.len t + 2 <= GD.max_seq_length cfg) ->
      forall t, In t (GD.targets d) ->
                Py.len (GD.text d) + Py.len t + 2 <= GD.max_seq_length cfg).
Proof.
  unfold GD.process_single_item.
  destruct (GD.json_targets item) as [|t0 ts] eqn:Et; [discriminate|].
  destruct (py_max_spec (map Py.len (t0 :: ts))) as (m & Hm & Hin & Hall);
    [discriminate|].
  rewrite Hm. cbn [bind]. rewrite Forall_forall in Hall.
  assert (Hle : forall t, In t (t0 :: ts) -> Py.len t <= m).
  { intros t Ht. apply Hall. now apply in_map. }
  apply in_map_iff in Hin. destruct Hin as (tm & Htm & Hintm).
  pose proof (len_nonneg (GD.inputs item)) as Hn.
  intros [= <-]. cbn [GD.targets GD.text].
  split; [reflexivity|]. split; [discriminate|].
  intros Hroom t Ht. specialize (Hle t Ht). specialize (Hroom tm Hintm).
  destruct (Z.gtb_spec (Py.len (GD.inputs item) + m + 2) (GD.max_seq_length cfg)); [|lia].
  rewrite slice_suffix by lia.
  unfold Py.len at 1. rewrite length_skipn. unfold Py.len in *. lia.
Qed.

Lemma gen_process_items_spec (cfg : GD.config) (items : list GD.json_item) :
  forall data data',
    GD.process_items cfg items data = Ok data' ->
    exists ds,
      data' = data ++ ds
      /\ Forall2 (fun item d => GD.process_single_item cfg item = Ok d) items ds.
Proof.
  induction items as [|item rest IH]; intros data data'; cbn [GD.process_items].
  - intros [= <-]. exists []. split; [now rewrite app_nil_r | constructor].
  - destruct (GD.process_single_item cfg item) as [d|] eqn:E; cbn [bind]; [|discriminate].
    intros H. destruct (IH _ _ H) as (ds & -> & Hds).
    exists (d :: ds). split; [now rewrite <- app_assoc | now constructor].
Qed.

Section GenerationDatasetFacts.

Variable get_command : string -> Z.

(** X2.  In a generation dataset that loads, with a [max_seq_length] that
    has room for every target and two control tokens, every item encodes
    unless it asks for blank filling together with [unidirectional] or
    [use_task_mask]: [__getitem__] returns the sample, padded to
    [max_seq_length], and after its context there is room for every one
    of its targets. *)
Theorem generation_getitem_fits (cfg : GD.config) (items : list GD.json_item)
    (data : list GD.data_item) :
  GD.init cfg items = Ok data ->
  (forall item, In item items ->
                forall t, In t (GD.json_targets item) ->
                          Py.len t + 2 <= GD.max_seq_length cfg) ->
  length data = length items
  /\ forall (idx : nat) (d : GD.data_item),
      nth_error data idx = Some d ->
      (Py.contains (GD.gen_mask_id get_command (GD.use_task_mask cfg)) (GD.text d) = true ->
       GD.unidirectional cfg = false /\ GD.use_task_mask cfg = false) ->
      exists sample,
        GD.getitem get_command cfg data (Z.of_nat idx) = Ok (sample, GD.targets d)
        /\ Py.len (GD.tokens sample) = GD.max_seq_length cfg
        /\ forall t, In t (GD.targets d) ->
                     GD.context_length sample + Py.len t <= GD.max_seq_length cfg.
Proof.
  intros Hinit Hroom. unfold GD.init in Hinit.
  destruct (gen_process_items_spec _ _ _ _ Hinit) as (ds & -> & Hds). cbn [app].
  split; [symmetry; exact (Forall2_length Hds)|].
  intros idx d Hidx Hconf.
  assert (Hitem : exists item, In item items /\ GD.process_single_item cfg item = Ok d).
  { clear Hinit Hroom Hconf. revert idx Hidx.
    induction Hds as [|item d' items' ds' H1 _ IH]; intros idx Hidx.
    - destruct idx; discriminate.
    - destruct idx as [|idx]; cbn in Hidx.
      + injection Hidx as ->. exists item. split; [now left | exact H1].
      + destruct (IH _ Hidx) as (it & Hin & Hp). exists it. split; [now right | exact Hp]. }
  destruct Hitem as (item & Hin & Hp).
  destruct (gen_processed_fits _ _ _ Hp) as (Ht & Hne & Hfits).
  specialize (Hfits (Hroom item Hin)).
  assert (Hlen : Py.len (GD.text d) + 2 <= GD.max_seq_length cfg).
  { destruct (GD.targets d) as [|t0 ts]; [congruence|].
    specialize (Hfits t0 (or_introl eq_refl)). pose proof (len_nonneg t0). lia. }
  assert (Htok : exists mp token,
             GD.gen_tokens get_command (GD.text d) (GD.use_task_mask cfg)
               (GD.unidirectional cfg) = Ok (mp, token)
             /\ Py.len (GD.text d) + 1 <= Py.len token <= Py.len (GD.text d) + 2).
  { unfold GD.gen_tokens.
    destruct (Py.contains (GD.gen_mask_id get_command (GD.use_task_mask cfg)) (GD.text d))
      eqn:Em.
    - destruct (Hconf eq_refl) as [Hu Hk]. rewrite Hu, Hk in *. cbn [negb assert bind].
      destruct (index_of_contains _ _ Em) as (p & Hp' & _). rewrite Hp'. cbn [bind].
      do 2 eexists. split; [reflexivity|].
      unfold Py.len. rewrite length_app. simpl length. lia.
    - destruct (GD.unidirectional cfg); do 2 eexists; (split; [reflexivity|]);
        unfold Py.len; rewrite length_app; simpl length; lia. }
  destruct Htok as (mp & token & Htok & Hbound).
  destruct (build_generation_sample_ok get_command _ (GD.max_seq_length cfg) _ _ _ _ Htok)
    as (vis & _ & Hb); [lia|].
  eexists. split.
  - unfold GD.getitem.
    rewrite (getitem_nth _ (Z.of_nat idx) d) by (try lia; now rewrite Nat2Z.id).
    cbn [bind]. rewrite Hb. reflexivity.
  - cbn [GD.tokens GD.context_length]. split.
    + rewrite len_app. unfold Py.len at 2. rewrite repeat_length. lia.
    + intros t Ht'. specialize (Hfits t Ht'). lia.
Qed.

(** X3.  Every generation sample has [max_seq_length] tokens and position
    ids and a [max_seq_length] by [max_seq_length] attention mask; its
    context length is between 1 and [max_seq_length], and every token from
    the context length on is the padding 0. *)
Theorem generation_sample_shape (text : list Z) (max_seq_length : Z)
    (use_task_mask unidirectional : bool) (item : GD.gen_item) :
  GD.build_generation_sample get_command text max_seq_length use_task_mask unidirectional
  = Ok item ->
  1 <= GD.context_length item <= max_seq_length
  /\ Py.len (GD.tokens item) = max_seq_length
  /\ Py.len (GD.position_ids item) = max_seq_length
  /\ Py.len (GD.attention_mask item) = max_seq_length
  /\ Forall (fun row => Py.len row = max_seq_length) (GD.attention_mask item)
  /\ forall k : nat,
      GD.context_length item <= Z.of_nat k < max_seq_length ->
      nth_error (GD.tokens item) k = Some 0.
Proof.
  intros Hb.
  destruct (build_generation_sample_inv _ _ _ _ _ _ Hb) as (mp & token & Ht & Hfit).
  destruct (build_generation_sample_ok _ _ _ _ _ _ _ Ht Hfit) as (vis & Hv & Hb').
  rewrite Hb in Hb'. injection Hb' as ->.
  cbn [GD.context_length GD.tokens GD.position_ids GD.attention_mask].
  pose proof (gen_tokens_nonempty _ _ _ _ _ _ Ht) as Hne.
  split; [lia|]. split.
  { rewrite len_app. unfold Py.len at 2. rewrite repeat_length. lia. }
  split.
  { unfold Py.len. destruct use_task_mask; cbn [negb]; unfold Py.assign_from;
      rewrite ?imap_length, arange_length; lia. }
  assert (Hsq : square (Z.to_nat max_seq_length) vis).
  { rewrite gen_visibility_ok in Hv by lia. injection Hv as <-.
    destruct unidirectional; cbn [negb];
      [|apply assign_block_square]; apply tril_square, ones_square. }
  destruct Hsq as [Hrows Hcols]. split.
  { unfold Py.len, Py.lt_half. rewrite length_map, Hrows. lia. }
  split.
  { unfold Py.lt_half. apply Forall_map. eapply Forall_impl; [|exact Hcols].
    cbv beta. intros row Hrow. unfold Py.len. rewrite length_map, Hrow. lia. }
  intros k Hk. unfold Py.len in Hk.
  rewrite nth_error_app2 by lia. apply nth_error_repeat_lt. unfold Py.len. lia.
Qed.

(** X4.  The mask of a generation sample, entry by entry.  Unidirectional:
    row [r] is blocked from column [c] exactly when [c > r].
    Bidirectional: exactly when [c > r] and the two are not both before
    [context_length - 1]. *)
Theorem generation_attention_mask_entries (text : list Z) (max_seq_length : Z)
    (use_task_mask unidirectional : bool) (item : GD.gen_item) (r c : nat) :
  GD.build_generation_sample get_command text max_seq_length use_task_mask unidirectional
  = Ok item ->
  Z.of_nat r < max_seq_length -> Z.of_nat c < max_seq_length ->
  Py.entry (GD.attention_mask item) r c
  = Some (if unidirectional then (r <? c)%nat
          else (r <? c)%nat
               && negb ((Z.of_nat r <? GD.context_length item - 1)
                        && (Z.of_nat c <? GD.context_length item - 1))).
Proof.
  intros Hb Hr Hc.
  destruct (build_generation_sample_inv _ _ _ _ _ _ Hb) as (mp & token & Ht & Hfit).
  destruct (build_generation_sample_ok _ _ _ _ _ _ _ Ht Hfit) as (vis & Hv & Hb').
  rewrite Hb in Hb'. injection Hb' as ->. cbn [GD.context_length GD.attention_mask].
  pose proof (gen_tokens_nonempty _ _ _ _ _ _ Ht) as Hne.
  rewrite entry_lt_half, (gen_visibility_entry _ _ _ _ r c Hne Hv).
  destruct (Nat.ltb_spec r (Z.to_nat max_seq_length)); [|lia].
  destruct (Nat.ltb_spec c (Z.to_nat max_seq_length)); [|lia].
  cbn [andb option_map]. f_equal.
  destruct unidirectional; cbn [negb andb].
  - destruct (Nat.leb_spec c r); destruct (Nat.ltb_spec r c); try lia; reflexivity.
  - destruct ((Z.of_nat r <? Py.len token - 1) && (Z.of_nat c <? Py.len token - 1));
      cbn [negb]; [now rewrite andb_false_r|].
    rewrite andb_true_r.
    destruct (Nat.leb_spec c r); destruct (Nat.ltb_spec r c); try lia; reflexivity.
Qed.

End GenerationDatasetFacts.

Lemma generation_getitem_fits_witness :
  exists data,
    GD.init gen_config [gen_json_item] = Ok data
    /\ (forall item, In item [gen_json_item] ->
                     forall t, In t (GD.json_targets item) ->
                               Py.len t + 2 <= GD.max_seq_length gen_config)
    /\ exists d sample,
        nth_error data 0 = Some d
        /\ GD.getitem sample_command gen_config data (Z.of_nat 0) = Ok (sample, GD.targets d)
        /\ GD.tokens sample = [13; 14; 15; 16; 150000; 150004; 0; 0]
        /\ Py.len (GD.tokens sample) = GD.max_seq_length gen_config.
Proof.
  eexists. split; [reflexivity|].
  assert (Hroom : forall item, In item [gen_json_item] ->
                    forall t, In t (GD.json_targets item) ->
                              Py.len t + 2 <= GD.max_seq_length gen_config).
  { intros item [<- | []] t [<- | [<- | []]]; vm_compute; discriminate. }
  split; [exact Hroom|].
  destruct (proj2 (generation_getitem_fits sample_command gen_config [gen_json_item]
                     _ eq_refl Hroom) 0%nat _ eq_refl)
    as (sample & Hs & Hlen & _).
  { intros Hc. vm_compute in Hc. discriminate. }
  eexists. exists sample. split; [reflexivity|]. split; [exact Hs|].
  split; [|exact Hlen].
  vm_compute in Hs. injection Hs as <-. reflexivity.
Defined.

Lemma generation_sample_shape_witness :
  exists item,
    GD.build_generation_sample sample_command [11; 12; 13] 8 false true = Ok item
    /\ GD.context_length item = 5
    /\ Py.len (GD.tokens item) = 8
    /\ Py.len (GD.position_ids item) = 8
    /\ Py.len (GD.attention_mask item) = 8.
Proof.
  eexists. split; [reflexivity|]. split; [reflexivity|].
  destruct (generation_sample_shape sample_command [11; 12; 13] 8 false true _ eq_refl)
    as (_ & H1 & H2 & H3 & _).
  repeat split; assumption.
Defined.

Lemma generation_attention_mask_entries_witness :
  exists item,
    GD.build_generation_sample sample_command [11; 12; 13] 8 false true = Ok item
    /\ Z.of_nat 2 < 8 /\ Z.of_nat 5 < 8
    /\ Py.entry (GD.attention_mask item) 2 5 = Some true
    /\ Py.entry (GD.attention_mask item) 5 2 = Some false.
Proof.
  eexists. split; [reflexivity|].
  assert (H2 : Z.of_nat 2 < 8) by (vm_compute; reflexivity).
  assert (H5 : Z.of_nat 5 < 8) by (vm_compute; reflexivity).
  split; [exact H2|]. split; [exact H5|]. split.
  - exact (generation_attention_mask_entries sample_command [11; 12; 13] 8 false true
             _ 2%nat 5%nat eq_refl H2 H5).
  - exact (generation_attention_mask_entries sample_command [11; 12; 13] 8 false true
             _ 5%nat 2%nat eq_refl H5 H2).
Defined.

(** ** The multi-choice dataset *)

Lemma sum_len_list_sum (cs : list (list Z)) :
  fold_right Z.add 0 (map Py.len cs) = Z.of_nat (list_sum (map (@length Z) cs)).
Proof.
  induction cs as [|c rest IH]; [reflexivity|].
  cbn [map fold_right]. rewrite list_sum_step, IH. unfold Py.len. lia.
Qed.

Section MultiChoiceDatasetFacts.

Variable get_command : string -> Z.

(** What [process_single_item] hands back when it returns. *)
Lemma mc_process_single_item_ok (cfg : MC.config) (flag flag' : bool)
    (item : MC.json_item) (d : MC.data_item) :
  MC.process_single_item get_command cfg flag item = Ok (flag', d) ->
  let tgt := MC.tgt_seq_length (MC.json_choices item) in
  tgt < MC.max_seq_length cfg
  /\ flag' = flag && (tgt =? 1)
  /\ MC.item_choices d = MC.json_choices item
  /\ MC.label d = MC.json_label item
  /\ (exists k, MC.text d = skipn k (MC.inputs item))
  /\ (Py.len (MC.inputs item) + tgt + 2 <= MC.max_seq_length cfg ->
      MC.text d = MC.inputs item)
  /\ (Py.len (MC.text d) + tgt + 2 <= MC.max_seq_length cfg
      \/ (MC.text d = [] /\ tgt = MC.max_seq_length cfg - 1))
  /\ (Py.contains (get_command "[MASK]") (MC.text d) = true ->
      MC.use_multitask_encoding cfg = false).
Proof.
  unfold MC.process_single_item. cbn zeta.
  set (tgt := MC.tgt_seq_length (MC.json_choices item)).
  unfold assert at 1.
  destruct (Z.ltb_spec tgt (MC.max_seq_length cfg)) as [Hlt | Hge]; cbn [bind];
    [|discriminate].
  set (text' := if Py.len (MC.inputs item) + tgt + 2 >? MC.max_seq_length cfg
                then Py.slice (MC.inputs item)
                       (Py.len (MC.inputs item) - (MC.max_seq_length cfg - tgt - 2))
                       (Py.len (MC.inputs item))
                else MC.inputs item).
  unfold assert.
  destruct (Py.contains (get_command "[MASK]") text' && MC.use_multitask_encoding cfg)
    eqn:Ea; cbn [negb bind]; [discriminate|].
  intros [= <- <-]. cbn [MC.item_choices MC.label MC.text].
  pose proof (len_nonneg (MC.inputs item)) as Hn.
  split; [exact Hlt|]. split.
  { destruct (tgt =? 1), flag; reflexivity. }
  split; [reflexivity|]. split; [reflexivity|].
  assert (Htext : (exists k, text' = skipn k (MC.inputs item))
                  /\ (Py.len (MC.inputs item) + tgt + 2 <= MC.max_seq_length cfg ->
                      text' = MC.inputs item)
                  /\ (Py.len text' + tgt + 2 <= MC.max_seq_length cfg
                      \/ (text' = [] /\ tgt = MC.max_seq_length cfg - 1))).
  { subst text'.
    destruct (Z.gtb_spec (Py.len (MC.inputs item) + tgt + 2) (MC.max_seq_length cfg))
      as [Hgt | Hfit].
    - rewrite slice_suffix by lia. split; [eexists; reflexivity|]. split; [lia|].
      destruct (Z_le_gt_dec 0 (MC.max_seq_length cfg - tgt - 2)) as [Hpos | Hneg].
      + left. unfold Py.len at 1. rewrite length_skipn. unfold Py.len in *. lia.
      + right. split; [|lia]. apply skipn_all2. unfold Py.len in *. lia.
    - split; [exists 0%nat; reflexivity|]. split; [reflexivity|]. left. lia. }
  destruct Htext as (H1 & H2 & H3).
  split; [exact H1|]. split; [exact H2|]. split; [exact H3|].
  intros Hm. rewrite Hm in Ea. exact Ea.
Qed.

(** X5.  [MultiChoiceTaskDataset.process_single_item], case by case.  The
    text it keeps is the whole input text when that fits with the target
    length and two control tokens in [max_seq_length], and otherwise
    exactly its last [max_seq_length - tgt_seq_length - 2] tokens (none
    when that number is not positive).  It raises an [AssertionError] when
    the target length is not below [max_seq_length]; it raises an
    [AssertionError] when the target length is below [max_seq_length],
    the mask id occurs in the kept text and unified multitask encoding
    is on; in every other case it returns the kept text with the choices
    and the label of the item, and the flag cleared unless the target
    length is 1.  The kept text, the target length and two control tokens
    fit in [max_seq_length], unless [max_seq_length] is the target length
    plus 1, where nothing is kept. *)
Theorem multichoice_process_single_item (cfg : MC.config) (flag : bool)
    (item : MC.json_item) :
  let tgt := MC.tgt_seq_length (MC.json_choices item) in
  let kept :=
    if Py.len (MC.inputs item) + tgt + 2 <=? MC.max_seq_length cfg
    then MC.inputs item
    else skipn (length (MC.inputs item) - Z.to_nat (MC.max_seq_length cfg - tgt - 2))
           (MC.inputs item) in
  (MC.max_seq_length cfg <= tgt ->
   exists msg,
     MC.process_single_item get_command cfg flag item = Err (AssertionError msg))
  /\ (tgt < MC.max_seq_length cfg ->
      Py.contains (get_command "[MASK]") kept = true ->
      MC.use_multitask_encoding cfg = true ->
      exists msg,
        MC.process_single_item get_command cfg flag item = Err (AssertionError msg))
  /\ (tgt < MC.max_seq_length cfg ->
      Py.contains (get_command "[MASK]") kept = false
      \/ MC.use_multitask_encoding cfg = false ->
      MC.process_single_item get_command cfg flag item
      = Ok (flag && (tgt =? 1),
            {| MC.text := kept;
               MC.item_choices := MC.json_choices item;
               MC.label := MC.json_label item |}))
  /\ (tgt < MC.max_seq_length cfg ->
      Py.len kept + tgt + 2 <= MC.max_seq_length cfg
      \/ (kept = [] /\ tgt = MC.max_seq_length cfg - 1)).
Proof.
  cbn zeta. unfold MC.process_single_item. cbn zeta.
  set (tgt := MC.tgt_seq_length (MC.json_choices item)).
  pose proof (len_nonneg (MC.inputs item)) as Hn.
  assert (Hkept :
            tgt < MC.max_seq_length cfg ->
            (if Py.len (MC.inputs item) + tgt + 2 >? MC.max_seq_length cfg
             then Py.slice (MC.inputs item)
                    (Py.len (MC.inputs item) - (MC.max_seq_length cfg - tgt - 2))
                    (Py.len (MC.inputs item))
             else MC.inputs item)
            = (if Py.len (MC.inputs item) + tgt + 2 <=? MC.max_seq_length cfg
               then MC.inputs item
               else skipn (length (MC.inputs item)
                           - Z.to_nat (MC.max_seq_length cfg - tgt - 2))
                      (MC.inputs item))).
  { intros Hlt.
    destruct (Z.gtb_spec (Py.len (MC.inputs item) + tgt + 2) (MC.max_seq_length cfg));
      destruct (Z.leb_spec (Py.len (MC.inputs item) + tgt + 2) (MC.max_seq_length cfg));
      try lia; [|reflexivity].
    rewrite slice_suffix by lia. apply skipn_last_tokens. lia. }
  split; [|split; [|split]].
  - intros Hge. unfold assert at 1.
    destruct (Z.ltb_spec tgt (MC.max_seq_length cfg)); [lia|].
    eexists. reflexivity.
  - intros Hlt Hmask Hume. unfold assert at 1.
    destruct (Z.ltb_spec tgt (MC.max_seq_length cfg)); [|lia]. cbn [bind].
    rewrite (Hkept Hlt), Hmask, Hume. eexists. reflexivity.
  - intros Hlt Hfree. unfold assert at 1.
    destruct (Z.ltb_spec tgt (MC.max_seq_length cfg)); [|lia]. cbn [bind].
    rewrite (Hkept Hlt).
    match goal with
    | |- context [assert (negb ?c)] => assert (Hc : c = false)
    end.
    { destruct Hfree as [-> | ->]; [reflexivity | apply andb_false_r]. }
    rewrite Hc. cbn [negb assert bind]. f_equal. f_equal.
    destruct (tgt =? 1), flag; reflexivity.
  - intros Hlt.
    destruct (Z.leb_spec (Py.len (MC.inputs item) + tgt + 2) (MC.max_seq_length cfg))
      as [Hfit | Hgt]; [left; lia|].
    destruct (Z_le_gt_dec 0 (MC.max_seq_length cfg - tgt - 2)) as [Hpos | Hneg].
    + left. unfold Py.len at 1. rewrite length_skipn. unfold Py.len in *. lia.
    + right. split; [|lia]. apply skipn_all2. unfold Py.len in *. lia.
Qed.

Lemma mc_process_items_spec (cfg : MC.config) (items : list MC.json_item) :
  forall flag data flag' data',
    MC.process_items get_command cfg items flag data = Ok (flag', data') ->
    exists ds,
      data' = data ++ ds
      /\ Forall2 (fun item d =>
                    exists f f', MC.process_single_item get_command cfg f item = Ok (f', d))
           items ds.
Proof.
  induction items as [|item rest IH]; intros flag data flag' data'; cbn [MC.process_items].
  - intros [= <- <-]. exists []. split; [now rewrite app_nil_r | constructor].
  - destruct (MC.process_single_item get_command cfg flag item) as [[f1 d]|] eqn:E;
      cbn [bind]; [|discriminate].
    intros H. destruct (IH _ _ _ _ H) as (ds & -> & Hds).
    exists (d :: ds). split; [now rewrite <- app_assoc|].
    constructor; [now exists flag, f1 | exact Hds].
Qed.

(** X6.  In a multi-choice dataset that loads and whose choices are all
    non-empty, a sample is never longer than [max_seq_length] when the
    dataset is in single-token mode, or when the item has a choice of two
    tokens or more. *)
Theorem multichoice_sample_fits (cfg : MC.config) (items : list MC.json_item)
    (ds : MC.dataset) (idx : nat) (d : MC.data_item) (s : MC.sample) (l : Z) :
  Forall (fun it => Forall (fun c => c <> []) (MC.json_choices it)) items ->
  MC.init get_command cfg items = Ok ds ->
  nth_error (MC.data ds) idx = Some d ->
  MC.getitem get_command ds (Z.of_nat idx) = Ok (s, l) ->
  MC.is_single_token ds = true
  \/ Exists (fun c => (2 <= length c)%nat) (MC.item_choices d) ->
  Py.len (MC.token s) <= MC.max_seq_length cfg.
Proof.
  intros Hne Hinit Hidx Hget Hmode. unfold MC.init in Hinit.
  destruct (MC.process_items get_command cfg items true []) as [[flag data]|] eqn:E;
    cbn [bind] in Hinit; [|discriminate].
  injection Hinit as <-. cbn [MC.data MC.is_single_token MC.ds_config] in *.
  destruct (process_items_flag _ _ _ _ _ _ _ E) as [Hflag _].
  destruct (mc_process_items_spec _ _ _ _ _ _ E) as (ds' & Hds' & Hrel).
  cbn [app andb] in Hds', Hflag. subst ds'.
  assert (Hitem : exists item f f',
             In item items
             /\ MC.process_single_item get_command cfg f item = Ok (f', d)).
  { clear E Hflag Hget Hmode Hne. revert idx Hidx.
    induction Hrel as [|item d' items' ds' H1 _ IH]; intros idx Hidx.
    - destruct idx; discriminate.
    - destruct idx as [|idx]; cbn in Hidx.
      + injection Hidx as ->. destruct H1 as (f & f' & H1).
        exists item, f, f'. split; [now left | exact H1].
      + destruct (IH _ Hidx) as (it & f & f' & Hin & Hp).
        exists it, f, f'. split; [now right | exact Hp]. }
  destruct Hitem as (item & f & f' & Hin & Hp).
  destruct (mc_process_single_item_ok _ _ _ _ _ Hp)
    as (Hlt & _ & Hch & _ & _ & _ & Hfit & _).
  cbn zeta in Hlt, Hfit.
  rewrite Forall_forall in Hne. specialize (Hne item Hin). rewrite <- Hch in Hne.
  rewrite <- Hch in Hlt, Hfit.
  unfold MC.getitem in Hget. cbn [MC.data MC.is_single_token MC.ds_config] in Hget.
  rewrite (getitem_nth _ (Z.of_nat idx) d) in Hget by (try lia; now rewrite Nat2Z.id).
  cbn [bind] in Hget.
  destruct (MC.build_multiple_choice_sample get_command (MC.text d) (MC.item_choices d)
              flag (MC.use_multitask_encoding cfg)) as [s'|] eqn:Eb;
    cbn [bind] in Hget; [|discriminate].
  injection Hget as -> _.
  destruct (build_multiple_choice_sample_inv _ _ _ _ _ _ Eb)
    as (mp & st0 & Hc & Ht & _ & _ & Hsp).
  destruct (context_prefix_ok get_command (MC.text d))
    as (mp' & st0' & Hc' & Htok0 & _ & _ & _).
  rewrite Hc in Hc'. injection Hc' as <- <-.
  assert (Hne' : Forall (fun c : list Z => c <> []) (processed flag (MC.item_choices d))).
  { unfold processed. destruct flag; [|exact Hne].
    destruct (MC.item_choices d) as [|c rest]; [constructor|].
    inversion Hne. now repeat constructor. }
  destruct (for_choices_spans get_command
              (Py.contains (get_command "[MASK]") (MC.text d))
              (MC.use_multitask_encoding cfg) mp _ Hne' (MC.context_block st0))
    as (_ & Hlen).
  cbn [MC.context_block MC.st_token] in Hlen.
  assert (Hprefix : Py.len (MC.st_token st0) <= Py.len (MC.text d) + 1).
  { rewrite Htok0. destruct (Py.contains _ (MC.text d)); [lia|].
    unfold Py.len. rewrite length_app. simpl length. lia. }
  assert (Happ : Z.of_nat (list_sum (map (@length Z) (processed flag (MC.item_choices d))))
                 <= MC.tgt_seq_length (MC.item_choices d)).
  { pose proof (tgt_seq_length_one _ Hne) as Hone.
    destruct flag; unfold processed.
    - assert (Hall : Forall (fun it => (MC.tgt_seq_length (MC.json_choices it) =? 1) = true)
                       items)
        by (apply Forall_forall; now apply forallb_forall).
      rewrite Forall_forall in Hall. specialize (Hall item Hin).
      rewrite <- Hch in Hall. apply Z.eqb_eq in Hall. rewrite Hall.
      apply Hone in Hall.
      destruct (MC.item_choices d) as [|c rest]; [simpl; lia|].
      inversion Hall as [|? ? Hc1 _]; subst. cbn [firstn map]. rewrite list_sum_step, Hc1.
      simpl. lia.
    - destruct Hmode as [Hm | Hex]; [discriminate|].
      unfold MC.tgt_seq_length. rewrite sum_len_list_sum.
      destruct (Z.eqb_spec (Z.of_nat (list_sum (map (@length Z) (MC.item_choices d))))
                  (Py.len (MC.item_choices d))) as [Heq | Hneq]; [|lia].
      exfalso.
      assert (Hall : Forall (fun c => length c = 1%nat) (MC.item_choices d)).
      { apply Hone. unfold MC.tgt_seq_length. rewrite sum_len_list_sum.
        apply Z.eqb_eq in Heq. now rewrite Heq. }
      apply Exists_exists in Hex. destruct Hex as (c & Hcin & Hc2).
      rewrite Forall_forall in Hall. specialize (Hall c Hcin). lia. }
  rewrite Ht. unfold Py.len at 1. rewrite Hlen. unfold Py.len in *.
  destruct Hfit as [Hfit | [Hempty Htgt]]; [lia|].
  rewrite Hempty in *. simpl length in *. lia.
Qed.

End MultiChoiceDatasetFacts.

Lemma multichoice_process_single_item_witness :
  MC.tgt_seq_length (MC.json_choices item_multi) < MC.max_seq_length sample_config
  /\ MC.use_multitask_encoding sample_config = false
  /\ MC.process_single_item sample_command sample_config true item_multi
     = Ok (false, {| MC.text := [11; 12];
                     MC.item_choices := [[5; 6]; [7]];
                     MC.label := 0 |})
  /\ Py.contains (sample_command "[MASK]") [150000; 12] = true
  /\ exists msg,
      MC.process_single_item sample_command
        {| MC.max_seq_length := 7; MC.use_multitask_encoding := true |} true
        {| MC.inputs := [11; 150000; 12];
           MC.json_choices := [[5; 6]; [7]];
           MC.json_label := 0 |}
      = Err (AssertionError msg).
Proof.
  assert (H1 : MC.tgt_seq_length (MC.json_choices item_multi)
               < MC.max_seq_length sample_config) by (vm_compute; reflexivity).
  assert (H2 : MC.use_multitask_encoding sample_config = false) by reflexivity.
  split; [exact H1 | split; [exact H2|]]. split.
  - exact (proj1 (proj2 (proj2 (multichoice_process_single_item sample_command
                                  sample_config true item_multi)))
             H1 (or_intror H2)).
  - split; [reflexivity|].
    exact (proj1 (proj2 (multichoice_process_single_item sample_command
                           {| MC.max_seq_length := 7; MC.use_multitask_encoding := true |}
                           true
                           {| MC.inputs := [11; 150000; 12];
                              MC.json_choices := [[5; 6]; [7]];
                              MC.json_label := 0 |}))
             ltac:(vm_compute; reflexivity) eq_refl eq_refl).
Defined.

Lemma multichoice_sample_fits_witness :
  exists ds d s l,
    Forall (fun it => Forall (fun c : list Z => c <> []) (MC.json_choices it))
      [item_single; item_multi]
    /\ MC.init sample_command sample_config [item_single; item_multi] = Ok ds
    /\ nth_error (MC.data ds) 1 = Some d
    /\ MC.getitem sample_command ds (Z.of_nat 1) = Ok (s, l)
    /\ Exists (fun c : list Z => (2 <= length c)%nat) (MC.item_choices d)
    /\ Py.len (MC.token s) <= MC.max_seq_length sample_config.
Proof.
  assert (Hne : Forall (fun it => Forall (fun c : list Z => c <> []) (MC.json_choices it))
                  [item_single; item_multi])
    by (repeat constructor; discriminate).
  assert (Hex : Exists (fun c : list Z => (2 <= length c)%nat) [[5; 6]; [7]])
    by (left; simpl; lia).
  do 4 eexists. split; [exact Hne|]. split; [reflexivity|]. split; [reflexivity|].
  split; [reflexivity|]. split; [exact Hex|].
  exact (multichoice_sample_fits sample_command sample_config [item_single; item_multi]
           _ 1%nat _ _ _ Hne eq_refl eq_refl eq_refl (or_intror Hex)).
Defined.

(** In a dataset in multi-token mode, an item whose choices are one token
    each is cut for one target token and encoded with all of them: its
    sample can be longer than [max_seq_length]. *)
Example single_token_item_in_multi_token_dataset_overflows :
  exists ds s l,
    MC.init sample_command
      {| MC.max_seq_length := 8; MC.use_multitask_encoding := false |}
      [{| MC.inputs := [11; 12; 13; 14; 15; 16; 17; 18; 19; 20];
          MC.json_choices := [[5]; [6]; [7]; [8]];
          MC.json_label := 0 |};
       item_multi] = Ok ds
    /\ MC.getitem sample_command ds 0 = Ok (s, l)
    /\ Py.len (MC.token s) = 10.
Proof. do 3 eexists. repeat split; reflexivity. Qed.

(** ** The layout of a multi-choice sample *)

(** Where an index falls in a concatenation of pieces as long as the
    blocks. *)
Lemma concat_block {A : Type} (f : list Z -> list A) (cs : list (list Z)) :
  Forall (fun c => length (f c) = length c) cs ->
  forall r k j,
    block_of (map (@length Z) cs) r = Some (k, j) ->
    exists c, nth_error cs k = Some c
              /\ nth_error (concat (map f cs)) r = nth_error (f c) j.
Proof.
  induction 1 as [|c rest Hc _ IH]; intros r k j; cbn [map block_of concat].
  - discriminate.
  - destruct (Nat.ltb_spec r (length c)) as [Hr | Hr].
    + intros [= <- <-]. exists c. split; [reflexivity|].
      apply nth_error_app1. lia.
    + destruct (block_of (map (@length Z) rest) (r - length c)) as [[k' j']|] eqn:E;
        [|discriminate].
      intros [= <- <-]. destruct (IH _ _ _ E) as (c' & Hc' & Hn).
      exists c'. split; [exact Hc'|].
      rewrite nth_error_app2 by lia. now rewrite Hc.
Qed.

Lemma nth_error_removelast_cons (x : Z) (c : list Z) (k : nat) :
  (k < length c)%nat -> nth_error (x :: removelast c) k = nth_error (x :: c) k.
Proof.
  intros Hk. destruct k as [|k]; [reflexivity|]. cbn [nth_error].
  assert (Hne : c <> []) by (destruct c; [simpl in Hk; lia | discriminate]).
  destruct (exists_last Hne) as (l & a & ->).
  rewrite removelast_last. rewrite length_app in Hk. simpl in Hk.
  symmetry. apply nth_error_app1. lia.
Qed.

Lemma nth_error_processed (is_single_token : bool) (choices : list (list Z))
    (i : nat) (c : list Z) :
  nth_error (processed is_single_token choices) i = Some c ->
  nth_error choices i = Some c.
Proof.
  unfold processed. destruct is_single_token; [|auto].
  destruct choices as [|c0 rest]; [destruct i; discriminate|].
  destruct i as [|i]; [auto|]. cbn. destruct i; discriminate.
Qed.

(** The ranges of [spans], with their starting index spelled out. *)
Lemma spans_block_offset (cs : list (list Z)) :
  forall off i sp,
    nth_error (spans off cs) i = Some sp ->
    exists ci,
      nth_error cs i = Some ci
      /\ sp = Py.arange (off + Z.of_nat (list_sum (map (@length Z) (firstn i cs))))
                (off + Z.of_nat (list_sum (map (@length Z) (firstn i cs))) + Py.len ci)
      /\ forall r,
          off + Z.of_nat (list_sum (map (@length Z) (firstn i cs))) <= r
          < off + Z.of_nat (list_sum (map (@length Z) (firstn i cs))) + Py.len ci ->
          block_of (map (@length Z) cs) (Z.to_nat (r - off))
          = Some (i, Z.to_nat
                       (r - (off + Z.of_nat (list_sum (map (@length Z) (firstn i cs)))))).
Proof.
  induction cs as [|c rest IH]; intros off i sp Hsp.
  - destruct i; discriminate.
  - destruct i as [|i]; cbn [spans nth_error] in Hsp.
    + injection Hsp as <-. exists c. cbn [firstn map list_sum nth_error block_of].
      rewrite Z.add_0_r. split; [reflexivity|]. split; [reflexivity|].
      intros r Hr. unfold Py.len in Hr.
      destruct (Nat.ltb_spec (Z.to_nat (r - off)) (length c)); [reflexivity | lia].
    + destruct (IH _ _ _ Hsp) as (ci & Hci & -> & Hb).
      exists ci. cbn [firstn map nth_error block_of]. rewrite list_sum_step.
      replace (off + Z.of_nat (length c + list_sum (map (@length Z) (firstn i rest))))
        with (off + Py.len c + Z.of_nat (list_sum (map (@length Z) (firstn i rest))))
        by (unfold Py.len; lia).
      split; [exact Hci|]. split; [reflexivity|].
      intros r Hr. unfold Py.len in Hr.
      destruct (Nat.ltb_spec (Z.to_nat (r - off)) (length c)); [lia|].
      replace (Z.to_nat (r - off) - length c)%nat
        with (Z.to_nat (r - (off + Py.len c))) by (unfold Py.len; lia).
      rewrite (Hb r) by (unfold Py.len in *; lia). reflexivity.
Qed.

Lemma nth_error_firstn_lt {A : Type} (n : nat) (l : list A) (i : nat) :
  (i < n)%nat -> nth_error (firstn n l) i = nth_error l i.
Proof.
  intros H. rewrite nth_error_firstn. now destruct (Nat.ltb_spec i n); [|lia].
Qed.

Section LayoutFacts.

Variable get_command : string -> Z.

Lemma for_choices_position_ids (bf ume : bool) (mp : Z) (cs : list (list Z)) :
  forall st,
    MC.st_position_id (MC.for_choices get_command false bf ume mp cs st)
    = MC.st_position_id st
        ++ concat (map (fun c => if bf || negb ume
                                 then repeat mp (length c)
                                 else Py.arange mp (mp + Py.len c)) cs).
Proof.
  induction cs as [|c rest IH]; intros st.
  - simpl. now rewrite app_nil_r.
  - cbn [MC.for_choices map concat]. rewrite IH.
    cbn [MC.append_choice MC.st_position_id]. now rewrite <- app_assoc.
Qed.

Lemma context_prefix_positions (text : list Z) (mp : Z) (st0 : MC.loop_state) :
  MC.context_prefix get_command text = Ok (mp, st0) ->
  0 <= mp < Py.len (MC.st_token st0)
  /\ nth_error (MC.st_token st0) (Z.to_nat mp) = Some (get_command "[MASK]")
  /\ Py.contains (get_command "[MASK]") (firstn (Z.to_nat mp) (MC.st_token st0)) = false
  /\ forall r : nat, (r < length (MC.st_token st0))%nat ->
                     nth_error (MC.st_position_id st0) r = Some (Z.of_nat r).
Proof.
  unfold MC.context_prefix.
  destruct (Py.contains (get_command "[MASK]") text) eqn:E; cbn [negb].
  - destruct (index_of_contains _ _ E) as (p & Hp & Hr & Hn & Hf). rewrite Hp. cbn [bind].
    intros [= <- <-]. cbn [MC.st_token MC.st_position_id].
    split; [exact Hr|]. split; [exact Hn|]. split; [exact Hf|].
    intros r Hlt. rewrite nth_error_arange by (unfold Py.len; lia). f_equal.
  - intros [= <- <-]. cbn [MC.st_token MC.st_position_id].
    pose proof (len_nonneg text) as Hn0. unfold Py.len in *.
    rewrite length_app. simpl length. split; [lia|]. split.
    { rewrite Nat2Z.id, nth_error_app2 by lia. now rewrite Nat.sub_diag. }
    split.
    { rewrite Nat2Z.id, firstn_app, Nat.sub_diag, firstn_all. cbn [firstn].
      now rewrite app_nil_r. }
    intros r Hlt. destruct (Nat.eq_dec r (length text)) as [-> | Hneq].
    + rewrite nth_error_app2 by (rewrite arange_length; lia).
      rewrite arange_length. replace (length text - Z.to_nat (Z.of_nat (length text) - 0))%nat
        with 0%nat by lia. reflexivity.
    + rewrite nth_error_app1 by (rewrite arange_length; lia).
      rewrite nth_error_arange by lia. f_equal.
Qed.

(** The tokens and the position id at the [k]-th index of the range of
    the [i]-th encoded choice. *)
Lemma multichoice_layout (text : list Z) (choices : list (list Z))
    (is_single_token ume : bool) (s : MC.sample) :
  Forall (fun c => c <> []) choices ->
  MC.build_multiple_choice_sample get_command text choices is_single_token ume = Ok s ->
  exists mask_position st0,
    MC.context_prefix get_command text = Ok (mask_position, st0)
    /\ firstn (length (MC.st_token st0)) (MC.token s) = MC.st_token st0
    /\ firstn (length (MC.st_token st0)) (MC.position_id s) = MC.st_position_id st0
    /\ forall (i k : nat) (si : list Z) (r : Z),
        nth_error (spans_of (MC.choice_target_ids s)) i = Some si ->
        nth_error si k = Some r ->
        exists ci,
          nth_error choices i = Some ci
          /\ (k < length ci)%nat
          /\ r = Py.len (MC.st_token st0)
                 + Z.of_nat (list_sum (map (@length Z) (firstn i choices))) + Z.of_nat k
          /\ nth_error (MC.token s) (Z.to_nat r)
             = nth_error (get_command "sop" :: ci) k
          /\ nth_error (MC.position_id s) (Z.to_nat r)
             = Some (if Py.contains (get_command "[MASK]") text || negb ume
                     then mask_position else mask_position + Z.of_nat k).
Proof.
  intros Hne Hb.
  destruct (build_multiple_choice_sample_inv _ _ _ _ _ _ Hb)
    as (mp & st0 & Hc & Ht & Hp & _ & Hs).
  exists mp, st0. split; [exact Hc|].
  assert (Hne' : Forall (fun c : list Z => c <> []) (processed is_single_token choices)).
  { unfold processed. destruct is_single_token; [|exact Hne].
    destruct choices as [|c rest]; [constructor|]. inversion Hne. now repeat constructor. }
  set (bf := Py.contains (get_command "[MASK]") text) in *.
  set (cs := processed is_single_token choices) in *.
  destruct (for_choices_appends get_command bf ume mp cs (MC.context_block st0))
    as (Htok & _ & _).
  pose proof (for_choices_position_ids bf ume mp cs (MC.context_block st0)) as Hpos.
  destruct (for_choices_spans get_command bf ume mp cs Hne' (MC.context_block st0))
    as (Hspans & _).
  destruct (context_prefix_ok get_command text) as (mp' & st0' & Hc' & _ & Hpl & Hids & _).
  rewrite Hc in Hc'. injection Hc' as <- <-.
  cbn [MC.context_block MC.st_token MC.st_position_id MC.st_choice_target_id]
    in Htok, Hpos, Hspans.
  rewrite Hids in Hspans. cbn [app] in Hspans.
  rewrite Ht, Hp, Hs, Htok, Hpos, Hspans.
  split.
  { rewrite firstn_app, Nat.sub_diag, firstn_all. cbn [firstn]. apply app_nil_r. }
  split.
  { rewrite <- Hpl, firstn_app, Nat.sub_diag, firstn_all. cbn [firstn]. apply app_nil_r. }
  intros i k si r Hsi Hk.
  destruct (spans_block_offset _ _ _ _ Hsi) as (ci & Hci' & -> & Hblk).
  assert (Hfirst : firstn i cs = firstn i choices).
  { subst cs. unfold processed in *. destruct is_single_token; [|reflexivity].
    destruct choices as [|c0 rest]; [destruct i; discriminate|].
    destruct i as [|i]; [reflexivity|]. cbn in Hci'. destruct i; discriminate. }
  exists ci. split; [now apply nth_error_processed in Hci'|].
  rewrite Hfirst in *.
  set (d := length (MC.st_token st0)) in *.
  set (o := Py.len (MC.st_token st0)
            + Z.of_nat (list_sum (map (@length Z) (firstn i choices)))) in *.
  assert (Hklt : (k < length ci)%nat).
  { assert (Hsome : nth_error (Py.arange o (o + Py.len ci)) k <> None) by congruence.
    apply nth_error_Some in Hsome. rewrite arange_length in Hsome.
    unfold Py.len in Hsome. lia. }
  rewrite nth_error_arange in Hk by (unfold Py.len; lia). injection Hk as <-.
  split; [exact Hklt|]. split; [reflexivity|].
  specialize (Hblk (o + Z.of_nat k)).
  assert (Hod : Z.of_nat d <= o) by (subst o d; unfold Py.len; lia).
  assert (Hidx : block_of (map (@length Z) cs) (Z.to_nat (o + Z.of_nat k) - d)
                 = Some (i, k)).
  { replace (Z.to_nat (o + Z.of_nat k) - d)%nat
      with (Z.to_nat (o + Z.of_nat k - Py.len (MC.st_token st0)))
      by (unfold Py.len; fold d; lia).
    rewrite Hblk by (unfold Py.len; lia). do 2 f_equal. lia. }
  split.
  - rewrite nth_error_app2 by (fold d; lia). fold d.
    destruct (concat_block (fun c => get_command "sop" :: removelast c) cs) with
      (r := (Z.to_nat (o + Z.of_nat k) - d)%nat) (k := i) (j := k)
      as (c & Hcn & Hn); [|exact Hidx|].
    { eapply Forall_impl; [|exact Hne']. cbv beta. intros c Hcne.
      cbn [length]. now apply length_removelast_nonempty. }
    rewrite Hn. rewrite Hci' in Hcn. injection Hcn as <-.
    now apply nth_error_removelast_cons.
  - rewrite nth_error_app2 by (rewrite Hpl; fold d; lia). rewrite Hpl. fold d.
    destruct (concat_block (fun c => if bf || negb ume
                                     then repeat mp (length c)
                                     else Py.arange mp (mp + Py.len c)) cs) with
      (r := (Z.to_nat (o + Z.of_nat k) - d)%nat) (k := i) (j := k)
      as (c & Hcn & Hn); [|exact Hidx|].
    { apply Forall_forall. intros c _.
      destruct (bf || negb ume); [apply repeat_length|].
      rewrite arange_length. unfold Py.len. lia. }
    rewrite Hn. rewrite Hci' in Hcn. injection Hcn as <-.
    destruct (bf || negb ume).
    + now apply nth_error_repeat_lt.
    + apply nth_error_arange. unfold Py.len. lia.
Qed.

(** X7.  The position ids of a multi-choice sample with non-empty
    choices: a context token has its own index as position id;
    [mask_position] is the index of the first mask of the context; and the
    position id at the [k]-th index of a choice's target range is
    [mask_position], or [mask_position + k] under unified multitask
    encoding of a text without a mask. *)
Theorem multichoice_position_ids (text : list Z) (choices : list (list Z))
    (is_single_token ume : bool) (s : MC.sample) :
  Forall (fun c => c <> []) choices ->
  MC.build_multiple_choice_sample get_command text choices is_single_token ume = Ok s ->
  exists mask_position st0,
    MC.context_prefix get_command text = Ok (mask_position, st0)
    /\ 0 <= mask_position < Py.len (MC.st_token st0)
    /\ nth_error (MC.token s) (Z.to_nat mask_position) = Some (get_command "[MASK]")
    /\ Py.contains (get_command "[MASK]")
         (firstn (Z.to_nat mask_position) (MC.token s)) = false
    /\ (forall r : nat, (r < length (MC.st_token st0))%nat ->
                        nth_error (MC.position_id s) r = Some (Z.of_nat r))
    /\ (forall (i k : nat) (si : list Z) (r : Z),
           nth_error (spans_of (MC.choice_target_ids s)) i = Some si ->
           nth_error si k = Some r ->
           nth_error (MC.position_id s) (Z.to_nat r)
           = Some (if Py.contains (get_command "[MASK]") text || negb ume
                   then mask_position else mask_position + Z.of_nat k)).
Proof.
  intros Hne Hb.
  destruct (multichoice_layout _ _ _ _ _ Hne Hb) as (mp & st0 & Hc & Htok & Hpos & Hspan).
  destruct (context_prefix_positions _ _ _ Hc) as (Hmp & Hmask & Hfirst & Hctx).
  exists mp, st0. split; [exact Hc|]. split; [exact Hmp|].
  assert (Hlt : (Z.to_nat mp < length (MC.st_token st0))%nat) by (unfold Py.len in Hmp; lia).
  split.
  { rewrite <- (nth_error_firstn_lt (length (MC.st_token st0)) _ _ Hlt), Htok.
    exact Hmask. }
  split.
  { rewrite <- Htok in Hfirst. rewrite firstn_firstn in Hfirst.
    replace (Nat.min (Z.to_nat mp) (length (MC.st_token st0))) with (Z.to_nat mp)
      in Hfirst by lia.
    exact Hfirst. }
  split.
  { intros r Hr. rewrite <- (nth_error_firstn_lt (length (MC.st_token st0)) _ _ Hr), Hpos.
    now apply Hctx. }
  intros i k si r Hsi Hk.
  destruct (Hspan i k si r Hsi Hk) as (ci & _ & _ & _ & _ & Hp). exact Hp.
Qed.

(** X8.  The tokens of a multi-choice sample with non-empty choices: the
    context (the text, and a mask unless the text has one) comes first,
    and the token at the [k]-th index of the [i]-th choice's target range
    is the [k]-th element of the start-of-prediction id followed by the
    choice: every target index holds the token before the one it is to
    predict.  The range of the [i]-th choice starts where the context and
    the choices before it end. *)
Theorem multichoice_tokens_layout (text : list Z) (choices : list (list Z))
    (is_single_token ume : bool) (s : MC.sample) :
  Forall (fun c => c <> []) choices ->
  MC.build_multiple_choice_sample get_command text choices is_single_token ume = Ok s ->
  exists mask_position st0,
    MC.context_prefix get_command text = Ok (mask_position, st0)
    /\ MC.st_token st0
       = (if Py.contains (get_command "[MASK]") text then text
          else text ++ [get_command "[MASK]"])
    /\ firstn (length (MC.st_token st0)) (MC.token s) = MC.st_token st0
    /\ forall (i k : nat) (si : list Z) (r : Z),
        nth_error (spans_of (MC.choice_target_ids s)) i = Some si ->
        nth_error si k = Some r ->
        exists ci,
          nth_error choices i = Some ci
          /\ (k < length ci)%nat
          /\ r = Py.len (MC.st_token st0)
                 + Z.of_nat (list_sum (map (@length Z) (firstn i choices))) + Z.of_nat k
          /\ nth_error (MC.token s) (Z.to_nat r)
             = nth_error (get_command "sop" :: ci) k.
Proof.
  intros Hne Hb.
  destruct (multichoice_layout _ _ _ _ _ Hne Hb) as (mp & st0 & Hc & Htok & _ & Hspan).
  destruct (context_prefix_ok get_command text) as (mp' & st0' & Hc' & Ht0 & _).
  rewrite Hc in Hc'. injection Hc' as <- <-.
  exists mp, st0. split; [exact Hc|]. split; [exact Ht0|]. split; [exact Htok|].
  intros i k si r Hsi Hk.
  destruct (Hspan i k si r Hsi Hk) as (ci & H1 & H2 & H3 & H4 & _).
  exists ci. repeat split; assumption.
Qed.

End LayoutFacts.

Lemma multichoice_position_ids_witness :
  Forall (fun c : list Z => c <> []) [[5; 6]; [7]]
  /\ exists s,
      MC.build_multiple_choice_sample sample_command [11; 12] [[5; 6]; [7]] false true
      = Ok s
      /\ MC.position_id s = [0; 1; 2; 2; 3; 2]
      /\ nth_error (MC.position_id s) (Z.to_nat 4) = Some (2 + Z.of_nat 1).
Proof.
  assert (H : Forall (fun c : list Z => c <> []) [[5; 6]; [7]])
    by (repeat constructor; discriminate).
  split; [exact H|].
  eexists. split; [reflexivity|]. split; [reflexivity|].
  destruct (multichoice_position_ids sample_command [11; 12] [[5; 6]; [7]] false true
              _ H eq_refl) as (mp & st0 & Hc & _ & _ & _ & _ & Hspan).
  vm_compute in Hc. injection Hc as <- <-.
  exact (Hspan 0%nat 1%nat [3; 4] 4 eq_refl eq_refl).
Defined.

Lemma multichoice_tokens_layout_witness :
  Forall (fun c : list Z => c <> []) [[5; 6]; [7]]
  /\ exists s,
      MC.build_multiple_choice_sample sample_command [11; 12] [[5; 6]; [7]] false false
      = Ok s
      /\ MC.token s = [11; 12; 150000; 150004; 5; 150004]
      /\ exists ci,
          nth_error [[5; 6]; [7]] 0 = Some ci
          /\ nth_error (MC.token s) (Z.to_nat 4) = nth_error (150004 :: ci) 1.
Proof.
  assert (H : Forall (fun c : list Z => c <> []) [[5; 6]; [7]])
    by (repeat constructor; discriminate).
  split; [exact H|].
  eexists. split; [reflexivity|]. split; [reflexivity|].
  destruct (multichoice_tokens_layout sample_command [11; 12] [[5; 6]; [7]] false false
              _ H eq_refl) as (mp & st0 & _ & _ & _ & Hspan).
  destruct (Hspan 0%nat 1%nat [3; 4] 4 eq_refl eq_refl) as (ci & Hci & _ & _ & Htok).
  exists ci. split; [exact Hci | exact Htok].
Defined.

(** ** Single-token samples and their scores *)

Section SingleTokenFacts.

Variable get_command : string -> Z.

(** X9.  [build_multiple_choice_sample] in single-token mode: without any
    choice it raises an [IndexError]; with choices of different lengths a
    [ValueError]; with one choice of one token the sample's [choices] is
    that token id alone; with two or more choices of one token each it is
    the flat list of their token ids. *)
Theorem single_token_sample_choices (text : list Z) (choices : list (list Z))
    (ume : bool) :
  (choices = [] ->
   MC.build_multiple_choice_sample get_command text choices true ume = Err IndexError)
  /\ (forall c1 c2, In c1 choices -> In c2 choices -> length c1 <> length c2 ->
       MC.build_multiple_choice_sample get_command text choices true ume = Err ValueError)
  /\ (forall x, choices = [[x]] ->
       exists s,
         MC.build_multiple_choice_sample get_command text choices true ume = Ok s
         /\ MC.choices s = MC.ChoiceInt x)
  /\ ((2 <= length choices)%nat -> Forall (fun c => length c = 1%nat) choices ->
      exists s,
        MC.build_multiple_choice_sample get_command text choices true ume = Ok s
        /\ MC.choices s = MC.ChoiceIds (concat choices)).
Proof.
  destruct (context_prefix_ok get_command text) as (mp & st0 & Hc & _ & _ & Hids & _).
  unfold MC.build_multiple_choice_sample. rewrite Hc. cbn [bind].
  split; [|split; [|split]].
  - intros ->. cbn [MC.squeeze_tolist bind MC.for_choices MC.context_block
                      MC.st_choice_target_id].
    rewrite Hids. reflexivity.
  - intros c1 c2 H1 H2 Hlen.
    assert (Hsq : MC.squeeze_tolist choices = Err ValueError).
    { destruct choices as [|c rest]; [contradiction|]. unfold MC.squeeze_tolist.
      assert (Hf : forallb (fun c' : list Z => Nat.eqb (length c') (length c)) rest = false).
      { apply not_true_is_false. intros Hall. rewrite forallb_forall in Hall.
        assert (Heq : forall c', In c' (c :: rest) -> length c' = length c).
        { intros c' [<- | Hin]; [reflexivity|]. apply Nat.eqb_eq. now apply Hall. }
        rewrite (Heq c1 H1), (Heq c2 H2) in Hlen. congruence. }
      now rewrite Hf. }
    rewrite Hsq. reflexivity.
  - intros x ->. cbn [MC.squeeze_tolist forallb bind MC.for_choices MC.append_choice
                        MC.context_block MC.st_choice_target_id].
    rewrite Hids. cbn [app]. unfold Py.getitem. cbn. eexists. split; reflexivity.
  - intros Hlen Hall.
    destruct choices as [|c [|c' rest]]; try (simpl in Hlen; lia).
    inversion Hall as [|? ? Hc1 Hrest]; subst.
    destruct c as [|x [|y t]]; try discriminate.
    assert (Hsq : MC.squeeze_tolist ([x] :: c' :: rest)
                  = Ok (MC.ChoiceIds (concat ([x] :: c' :: rest)))).
    { unfold MC.squeeze_tolist.
      assert (Hf : forallb (fun c0 : list Z => Nat.eqb (length c0) (length [x])) (c' :: rest)
                   = true).
      { apply forallb_forall. intros c0 Hin. rewrite Forall_forall in Hrest.
        rewrite (Hrest c0 Hin). reflexivity. }
      now rewrite Hf. }
    rewrite Hsq. cbn [bind MC.for_choices MC.append_choice MC.context_block
                        MC.st_choice_target_id].
    rewrite Hids. cbn [app]. unfold Py.getitem. cbn. eexists. split; reflexivity.
Qed.

End SingleTokenFacts.

Lemma single_token_sample_choices_witness :
  (2 <= length [[5]; [7]; [9]])%nat
  /\ Forall (fun c : list Z => length c = 1%nat) [[5]; [7]; [9]]
  /\ exists s,
      MC.build_multiple_choice_sample sample_command [11; 12] [[5]; [7]; [9]] true false
      = Ok s
      /\ MC.choices s = MC.ChoiceIds [5; 7; 9].
Proof.
  assert (H1 : (2 <= length [[5]; [7]; [9]])%nat) by (simpl; lia).
  assert (H2 : Forall (fun c : list Z => length c = 1%nat) [[5]; [7]; [9]])
    by (repeat constructor).
  split; [exact H1 | split; [exact H2|]].
  exact (proj2 (proj2 (proj2 (single_token_sample_choices sample_command [11; 12]
                                [[5]; [7]; [9]] false))) H1 H2).
Defined.

Section SingleTokenScoring.

Variable score : Type.
Variable score_zero : score.
Variable score_add : score -> score -> score.

Lemma gather_ok (logits : list (list score)) (row : list score) (t c : Z) :
  0 <= t -> nth_error logits (Z.to_nat t) = Some row -> 0 <= c < Py.len row ->
  exists x, ME.gather score logits t c = Ok x
            /\ Py.entry logits (Z.to_nat t) (Z.to_nat c) = Some x.
Proof.
  intros Ht Hrow Hc. unfold ME.gather, Py.entry.
  rewrite (getitem_nth _ t row Ht Hrow). cbn [bind]. rewrite Hrow.
  destruct (nth_error row (Z.to_nat c)) as [x|] eqn:E.
  - exists x. split; [now apply getitem_nth; [lia|] | reflexivity].
  - apply nth_error_None in E. unfold Py.len in Hc. lia.
Qed.

Lemma gather_all_ok (logits : list (list score)) (row : list score) (t : Z)
    (cs : list Z) :
  0 <= t -> nth_error logits (Z.to_nat t) = Some row ->
  Forall (fun c => 0 <= c < Py.len row) cs ->
  exists xs,
    ME.gather_all score logits (map (fun c => (t, c)) cs) = Ok xs
    /\ Forall2 (fun c x => Py.entry logits (Z.to_nat t) (Z.to_nat c) = Some x) cs xs.
Proof.
  intros Ht Hrow. induction 1 as [|c rest Hc _ IH]; cbn [map ME.gather_all].
  - exists []. split; [reflexivity | constructor].
  - destruct (gather_ok logits row t c Ht Hrow Hc) as (x & Hx & Hex).
    destruct IH as (xs & Hxs & Hall). rewrite Hx. cbn [bind]. rewrite Hxs. cbn [bind].
    exists (x :: xs). split; [reflexivity | now constructor].
Qed.

Lemma single_token_scores_ok (logits : list (list score)) (t : Z) (tl : list Z)
    (cs : MC.py_choices) :
  in_range logits t cs ->
  exists r,
    ME.single_token_scores score logits cs (MC.TargetFirst (t :: tl)) = Ok r
    /\ scored logits t cs r.
Proof.
  intros (Ht & row & Hrow & Hcs). unfold ME.single_token_scores.
  unfold Py.getitem at 1. cbn [Z.ltb Z.compare Z.to_nat nth_error bind].
  destruct cs as [c | l | l]; [| |contradiction].
  - destruct (gather_ok logits row t c Ht Hrow Hcs) as (x & Hx & Hex).
    rewrite Hx. cbn [bind]. eexists. split; [reflexivity | exact Hex].
  - destruct (gather_all_ok logits row t l Ht Hrow Hcs) as (xs & Hxs & Hall).
    rewrite Hxs. cbn [bind]. eexists. split; [reflexivity | exact Hall].
Qed.

(** The single-token loop over samples whose indices are all in range. *)
Lemma single_token_loop_ok (logits_batch : list (list (list score))) :
  forall (choices_batch : list MC.py_choices) (tids_batch : list MC.target_ids)
         (log_probs : list (ME.py_scores score)),
    length choices_batch = length logits_batch ->
    length tids_batch = length logits_batch ->
    (forall i logits,
        nth_error logits_batch i = Some logits ->
        exists t tl cs,
          nth_error tids_batch i = Some (MC.TargetFirst (t :: tl))
          /\ nth_error choices_batch i = Some cs
          /\ in_range logits t cs) ->
    exists rs,
      ME.single_token_loop score logits_batch choices_batch tids_batch log_probs
      = Ok (log_probs ++ rs)
      /\ length rs = length logits_batch
      /\ forall i logits t tl cs,
          nth_error logits_batch i = Some logits ->
          nth_error tids_batch i = Some (MC.TargetFirst (t :: tl)) ->
          nth_error choices_batch i = Some cs ->
          exists r, nth_error rs i = Some r /\ scored logits t cs r.
Proof.
  induction logits_batch as [|logits lb IH]; intros cb tb lp Hc Ht Hall.
  - exists []. cbn. rewrite app_nil_r. split; [reflexivity|]. split; [reflexivity|].
    intros i ? ? ? ? H. destruct i; discriminate.
  - destruct cb as [|cs cb]; [discriminate|]. destruct tb as [|tids tb]; [discriminate|].
    cbn [ME.single_token_loop].
    destruct (Hall 0%nat logits eq_refl) as (t & tl & cs0 & Ht0 & Hc0 & Hr0).
    cbn in Ht0, Hc0. injection Ht0 as ->. injection Hc0 as <-.
    destruct (single_token_scores_ok logits t tl cs Hr0) as (r & Hr & Hsc).
    rewrite Hr. cbn [bind].
    destruct (IH cb tb (lp ++ [r])) as (rs & Hrs & Hlen & Hrest).
    { simpl in Hc. lia. }
    { simpl in Ht. lia. }
    { intros i lg Hi. exact (Hall (S i) lg Hi). }
    exists (r :: rs). rewrite Hrs, <- app_assoc. split; [reflexivity|].
    split; [simpl; lia|].
    intros i lg t' tl' cs' Hi Hti Hci. destruct i as [|i].
    + cbn in Hi, Hti, Hci. injection Hi as <-. injection Hti as <- <-. injection Hci as <-.
      exists r. split; [reflexivity | exact Hsc].
    + cbn in Hi, Hti, Hci. exact (Hrest i lg t' tl' cs' Hi Hti Hci).
Qed.

Variable model_log_softmax :
  list (list Z) -> list (list Z) -> list (list (list (list bool))) ->
  list (list (list score)).

(** X10.  In single-token mode, on a batch with one choice set and one
    target position per sample that index the logits, [cond_log_prob]
    returns one entry per sample: for every choice of the sample, the
    log-probability of its token at the sample's target position (a bare
    number when the sample has a single choice). *)
Theorem cond_log_prob_single_token (b : MC.batch) :
  let logits_batch :=
    model_log_softmax (MC.tokens b) (MC.position_ids b)
      (map (fun m => [m]) (MC.batch_attention_mask b)) in
  MC.batch_is_single_token b = true ->
  length (MC.batch_choices b) = length logits_batch ->
  length (MC.batch_choice_target_ids b) = length logits_batch ->
  (forall i logits,
      nth_error logits_batch i = Some logits ->
      exists t tl cs,
        nth_error (MC.batch_choice_target_ids b) i = Some (MC.TargetFirst (t :: tl))
        /\ nth_error (MC.batch_choices b) i = Some cs
        /\ in_range logits t cs) ->
  exists rs,
    ME.cond_log_prob score score_zero score_add model_log_softmax b = Ok rs
    /\ length rs = length logits_batch
    /\ forall i logits t tl cs,
        nth_error logits_batch i = Some logits ->
        nth_error (MC.batch_choice_target_ids b) i = Some (MC.TargetFirst (t :: tl)) ->
        nth_error (MC.batch_choices b) i = Some cs ->
        exists r, nth_error rs i = Some r /\ scored logits t cs r.
Proof.
  cbn zeta. intros Hflag Hc Ht Hall.
  unfold ME.cond_log_prob, ME.process_data. rewrite Hflag.
  destruct (single_token_loop_ok _ _ _ [] Hc Ht Hall) as (rs & Hrs & Hlen & Hsc).
  exists rs. split; [exact Hrs|]. split; [exact Hlen | exact Hsc].
Qed.

End SingleTokenScoring.

Lemma cond_log_prob_single_token_witness :
  exists (s : MC.sample) (b : MC.batch),
    MC.build_multiple_choice_sample sample_command [11; 12] [[5]; [7]] true false = Ok s
    /\ MC.collate_fn true [s] = Ok b
    /\ MC.batch_is_single_token b = true
    /\ ME.cond_log_prob Z 0 Z.add (fun _ _ _ => sample_log_probs) b
       = Ok [ME.ScoreList Z [-8; -10]]
    /\ exists rs,
        ME.cond_log_prob Z 0 Z.add (fun _ _ _ => sample_log_probs) b = Ok rs
        /\ length rs = length sample_log_probs.
Proof.
  do 2 eexists. split; [reflexivity|]. split; [vm_compute; reflexivity|].
  split; [reflexivity|]. split; [vm_compute; reflexivity|].
  match goal with
  | |- exists rs, ME.cond_log_prob _ _ _ ?m ?b = Ok rs /\ _ =>
      destruct (cond_log_prob_single_token Z 0 Z.add m b eq_refl eq_refl eq_refl)
        as (rs & Hrs & Hlen & _)
  end.
  - intros i logits Hi. destruct i as [|i]; [|destruct i; discriminate].
    cbn in Hi. injection Hi as <-.
    exists 3, [], (MC.ChoiceIds [5; 7]). split; [reflexivity|]. split; [reflexivity|].
    split; [lia|]. eexists. split; [reflexivity|].
    repeat constructor; vm_compute; congruence.
  - exists rs. split; [exact Hrs | exact Hlen].
Defined.

(** ** Predicting a label *)

Section PredictFacts.

Variable score : Type.
Variable score_zero : score.
Variable score_add : score -> score -> score.
Variable score_gtb : score -> score -> bool.

(** X11.  On a multi-token batch [MultiChoiceTask.predict_single_batch]
    never returns a label: [cond_log_prob] hands it an empty list, of
    which [np.argmax] raises a [ValueError] (or [cond_log_prob] has raised
    before). *)
Theorem predict_single_batch_multi_token_raises
    (model : list (list Z) -> list (list Z) -> list (list (list (list bool))) ->
             list (list (list score)))
    (tokens position_ids : list (list Z)) (mask : list (list (list bool)))
    (choices : list MC.py_choices) (tids : list MC.target_ids) :
  let b := {| MC.tokens := tokens;
              MC.position_ids := position_ids;
              MC.batch_attention_mask := mask;
              MC.batch_choices := choices;
              MC.batch_choice_target_ids := tids;
              MC.batch_is_single_token := false |} in
  (ME.cond_log_prob score score_zero score_add model b = Ok []
   /\ MultiChoiceTask.predict_single_batch score score_zero score_add score_gtb model b
      = Err ValueError)
  \/ exists e,
      ME.cond_log_prob score score_zero score_add model b = Err e
      /\ MultiChoiceTask.predict_single_batch score score_zero score_add score_gtb model b
         = Err e.
Proof.
  cbn zeta. unfold MultiChoiceTask.predict_single_batch.
  set (b := {| MC.tokens := tokens; MC.batch_is_single_token := false |}).
  assert (H : ME.cond_log_prob score score_zero score_add model b = Ok []
              \/ exists e, ME.cond_log_prob score score_zero score_add model b = Err e).
  { unfold ME.cond_log_prob. cbn. apply multi_token_loop_keeps. }
  destruct H as [H | [e H]]; rewrite H; cbn [bind].
  - left. split; reflexivity.
  - right. exists e. split; reflexivity.
Qed.

(** The comparison is a strict order in which being greater carries over
    (no NaN among the scores). *)
Hypothesis gtb_irrefl : forall x, score_gtb x x = false.
Hypothesis gtb_trans :
  forall x y z, score_gtb x y = true -> score_gtb y z = true -> score_gtb x z = true.
Hypothesis gtb_total :
  forall x y z, score_gtb x y = true -> score_gtb x z = true \/ score_gtb z y = true.

(** The scan keeps the first greatest element seen so far. *)
Lemma argmax_from_spec (l : list score) :
  forall (seen : list score) (best : score) (best_i : nat),
    nth_error seen best_i = Some best ->
    (forall y, In y seen -> score_gtb y best = false) ->
    (forall j y, (j < best_i)%nat -> nth_error seen j = Some y -> score_gtb best y = true) ->
    exists (i : nat) (x : score),
      MultiChoiceTask.argmax_from score score_gtb best (Z.of_nat best_i)
        (Z.of_nat (length seen)) l = Z.of_nat i
      /\ nth_error (seen ++ l) i = Some x
      /\ (forall y, In y (seen ++ l) -> score_gtb y x = false)
      /\ (forall j y, (j < i)%nat -> nth_error (seen ++ l) j = Some y ->
                      score_gtb x y = true).
Proof.
  induction l as [|x rest IH]; intros seen best best_i Hbest Hmax Hfirst.
  - cbn [MultiChoiceTask.argmax_from]. rewrite app_nil_r.
    exists best_i, best. repeat split; assumption.
  - cbn [MultiChoiceTask.argmax_from].
    replace (Z.of_nat (length seen) + 1) with (Z.of_nat (length (seen ++ [x])))
      by (rewrite length_app; simpl; lia).
    replace (seen ++ x :: rest) with ((seen ++ [x]) ++ rest)
      by (now rewrite <- app_assoc).
    destruct (score_gtb x best) eqn:E.
    + apply IH.
      * rewrite nth_error_app2 by lia. now rewrite Nat.sub_diag.
      * intros y Hy. apply in_app_or in Hy. destruct Hy as [Hy | [<- | []]].
        -- destruct (score_gtb y x) eqn:Ey; [|reflexivity].
           pose proof (gtb_trans _ _ _ Ey E) as Hyb. rewrite (Hmax y Hy) in Hyb.
           discriminate.
        -- apply gtb_irrefl.
      * intros j y Hj Hy. rewrite nth_error_app1 in Hy by exact Hj.
        destruct (gtb_total _ _ y E) as [H | H]; [exact H|].
        apply nth_error_In in Hy. now rewrite (Hmax y Hy) in H.
    + apply IH.
      * rewrite nth_error_app1; [exact Hbest|]. apply nth_error_Some. congruence.
      * intros y Hy. apply in_app_or in Hy. destruct Hy as [Hy | [<- | []]];
          [now apply Hmax | exact E].
      * intros j y Hj Hy.
        assert (Hlt : (best_i < length seen)%nat) by (apply nth_error_Some; congruence).
        rewrite nth_error_app1 in Hy by lia. now apply (Hfirst j).
Qed.

Variable model_log_softmax :
  list (list Z) -> list (list Z) -> list (list (list (list bool))) ->
  list (list (list score)).

(** [cond_log_prob] on a single-token batch of one sample. *)
Lemma cond_log_prob_single_token_loop (b : MC.batch) (logits : list (list score))
    (t : Z) (tl cs : list Z) :
  MC.batch_is_single_token b = true ->
  model_log_softmax (MC.tokens b) (MC.position_ids b)
    (map (fun m => [m]) (MC.batch_attention_mask b)) = [logits] ->
  MC.batch_choice_target_ids b = [MC.TargetFirst (t :: tl)] ->
  MC.batch_choices b = [MC.ChoiceIds cs] ->
  in_range logits t (MC.ChoiceIds cs) ->
  exists xs,
    ME.cond_log_prob score score_zero score_add model_log_softmax b
    = Ok [ME.ScoreList score xs]
    /\ Forall2 (fun c y => Py.entry logits (Z.to_nat t) (Z.to_nat c) = Some y) cs xs.
Proof.
  intros Hflag Hlog Htid Hch Hrange.
  unfold ME.cond_log_prob, ME.process_data. rewrite Hflag, Hlog, Htid, Hch.
  cbn [ME.single_token_loop].
  destruct (single_token_scores_ok score logits t tl _ Hrange) as (r & Hr & Hsc).
  rewrite Hr. cbn [bind app].
  destruct r as [x | xs]; [contradiction|].
  exists xs. split; [reflexivity | exact Hsc].
Qed.

(** X12.  On a single-token batch of one sample with at least one choice,
    all indices in range, [predict_single_batch] returns the index of the
    first choice whose log-probability at the target position no other
    choice's exceeds. *)
Theorem predict_single_batch_single_token (b : MC.batch) (logits : list (list score))
    (t : Z) (tl cs : list Z) :
  MC.batch_is_single_token b = true ->
  model_log_softmax (MC.tokens b) (MC.position_ids b)
    (map (fun m => [m]) (MC.batch_attention_mask b)) = [logits] ->
  MC.batch_choice_target_ids b = [MC.TargetFirst (t :: tl)] ->
  MC.batch_choices b = [MC.ChoiceIds cs] ->
  cs <> [] ->
  in_range logits t (MC.ChoiceIds cs) ->
  exists (i : nat) (xs : list score) (x : score),
    MultiChoiceTask.predict_single_batch score score_zero score_add score_gtb
      model_log_softmax b = Ok (Z.of_nat i)
    /\ Forall2 (fun c y => Py.entry logits (Z.to_nat t) (Z.to_nat c) = Some y) cs xs
    /\ nth_error xs i = Some x
    /\ (forall y, In y xs -> score_gtb y x = false)
    /\ (forall j y, (j < i)%nat -> nth_error xs j = Some y -> score_gtb x y = true).
Proof.
  intros Hflag Hlog Htid Hch Hne Hrange.
  unfold MultiChoiceTask.predict_single_batch.
  destruct (cond_log_prob_single_token_loop b logits t tl cs) as (xs & Hcond & Hall);
    try assumption.
  rewrite Hcond. cbn [bind].
  unfold MultiChoiceTask.np_argmax, MultiChoiceTask.flattened.
  cbn [MultiChoiceTask.all_floats MultiChoiceTask.all_lists forallb concat bind].
  rewrite app_nil_r.
  destruct xs as [|x0 rest].
  { inversion Hall. subst. congruence. }
  destruct (argmax_from_spec rest [x0] x0 0%nat eq_refl) as (i & x & Hi & Hx & Hmax & Hfirst).
  { intros y [<- | []]. apply gtb_irrefl. }
  { intros j y Hj. lia. }
  cbn [length Z.of_nat app] in Hi, Hx, Hmax, Hfirst.
  exists i, (x0 :: rest), x. split; [now rewrite <- Hi|].
  repeat split; assumption.
Qed.

End PredictFacts.

Lemma predict_single_batch_single_token_witness :
  exists (s : MC.sample) (b : MC.batch),
    MC.build_multiple_choice_sample sample_command [11; 12] [[5]; [7]] true false = Ok s
    /\ MC.collate_fn true [s] = Ok b
    /\ MultiChoiceTask.predict_single_batch Z 0 Z.add Z.gtb
         (fun _ _ _ => sample_log_probs) b = Ok 0
    /\ exists (i : nat) (xs : list Z) (x : Z),
        MultiChoiceTask.predict_single_batch Z 0 Z.add Z.gtb
          (fun _ _ _ => sample_log_probs) b = Ok (Z.of_nat i)
        /\ nth_error xs i = Some x
        /\ (forall y, In y xs -> Z.gtb y x = false).
Proof.
  assert (Hirr : forall x, Z.gtb x x = false).
  { intros x. rewrite Z.gtb_ltb. apply Z.ltb_irrefl. }
  assert (Htr : forall x y z, Z.gtb x y = true -> Z.gtb y z = true -> Z.gtb x z = true).
  { intros x y z. rewrite !Z.gtb_ltb, !Z.ltb_lt. lia. }
  assert (Htot : forall x y z, Z.gtb x y = true -> Z.gtb x z = true \/ Z.gtb z y = true).
  { intros x y z. rewrite !Z.gtb_ltb, !Z.ltb_lt. lia. }
  do 2 eexists. split; [reflexivity|]. split; [vm_compute; reflexivity|].
  split; [vm_compute; reflexivity|].
  match goal with
  | |- exists i xs x, MultiChoiceTask.predict_single_batch _ _ _ _ ?m ?b = _ /\ _ =>
      destruct (predict_single_batch_single_token Z 0 Z.add Z.gtb Hirr Htr Htot m b
                  (hd [] sample_log_probs) 3 [] [5; 7])
        as (i & xs & x & Hp & _ & Hx & Hmax & _)
  end; try reflexivity.
  - discriminate.
  - split; [lia|]. eexists. split; [reflexivity|].
    repeat constructor; vm_compute; congruence.
  - exists i, xs, x. repeat split; assumption.
Defined.

(** ** Generated text *)

Lemma index_from_app_absent (x : Z) (l1 l2 : list Z) :
  Py.contains x l1 = false ->
  forall i, Py.index_from x (l1 ++ l2) i = Py.index_from x l2 (i + Py.len l1).
Proof.
  induction l1 as [|y t IH]; intros Hc i; cbn [app Py.index_from].
  - f_equal. unfold Py.len. simpl. lia.
  - cbn [Py.contains existsb] in Hc. apply orb_false_elim in Hc. destruct Hc as [Hy Ht].
    rewrite Z.eqb_sym, Hy. rewrite (IH Ht). f_equal. rewrite len_cons. lia.
Qed.

(** The first sentinel of a line that is filled up to its sentinels. *)
Lemma unfinished_after_body (body : list Z) (k : nat) :
  Py.contains (-1) body = false ->
  (if Py.contains (-1) (body ++ repeat (-1) k)
   then match Py.index (-1) (body ++ repeat (-1) k) with
        | Ok i => i
        | Err _ => Py.len (body ++ repeat (-1) k)
        end
   else Py.len (body ++ repeat (-1) k)) = Py.len body
  /\ match Py.index (-1) (body ++ repeat (-1) k) with
     | Ok i => i
     | Err _ => Py.len (body ++ repeat (-1) k)
     end = Py.len body.
Proof.
  intros Hc. unfold Py.index. rewrite (index_from_app_absent _ _ _ Hc), contains_app, Hc.
  destruct k as [|k]; cbn [repeat Py.index_from Py.contains existsb orb].
  - rewrite app_nil_r. split; reflexivity.
  - cbn. split; lia.
Qed.

Lemma getitem_last (l : list Z) :
  l <> [] -> forall l2, Py.getitem (l ++ l2) (Py.len l - 1) = Ok (last l 0).
Proof.
  intros Hne l2. destruct (exists_last Hne) as (l' & a & ->).
  rewrite last_last, <- app_assoc. apply getitem_nth.
  - rewrite len_app. pose proof (len_nonneg l'). unfold Py.len at 2. simpl. lia.
  - rewrite len_app.
    match goal with
    | |- nth_error _ ?n = _ =>
        replace n with (length l') by (unfold Py.len; simpl length; lia)
    end.
    rewrite nth_error_app2 by lia. now rewrite Nat.sub_diag.
Qed.

(** [(l1 ++ l2)[len(l1):hi]] *)
Lemma slice_app_suffix {A : Type} (l1 l2 : list A) (hi : Z) :
  0 <= hi ->
  Py.slice (l1 ++ l2) (Py.len l1) hi = firstn (Z.to_nat (hi - Py.len l1)) l2.
Proof.
  intros Hhi. unfold Py.slice. rewrite len_app.
  pose proof (len_nonneg l1) as H1. pose proof (len_nonneg l2) as H2.
  rewrite !norm_bound_clip by lia.
  replace (Z.min (Py.len l1) (Py.len l1 + Py.len l2)) with (Py.len l1) by lia.
  replace (Z.to_nat (Py.len l1)) with (length l1) by (unfold Py.len; lia).
  rewrite skipn_app, Nat.sub_diag, skipn_all. cbn [app skipn].
  destruct (Z_le_gt_dec hi (Py.len l1 + Py.len l2)) as [Hle | Hgt].
  - now replace (Z.min hi (Py.len l1 + Py.len l2)) with hi by lia.
  - replace (Z.min hi (Py.len l1 + Py.len l2)) with (Py.len l1 + Py.len l2) by lia.
    rewrite !firstn_all2; [reflexivity | unfold Py.len in *; lia | unfold Py.len in *; lia].
Qed.

Lemma firstn_pred_removelast {A : Type} (l : list A) :
  firstn (length l - 1) l = removelast l.
Proof.
  induction l as [|x t _] using rev_ind; [reflexivity|].
  rewrite removelast_last, length_app. simpl length.
  replace (length t + 1 - 1)%nat with (length t) by lia.
  rewrite firstn_app, Nat.sub_diag, firstn_all. cbn [firstn]. apply app_nil_r.
Qed.

(** X13.  [generate_text] cuts an output line down to what was generated:
    for a line made of the context, the generated tokens and trailing
    [-1] sentinels, the target is the generated tokens, without their
    last one when the last filled token of the line is an end token.  An
    empty line raises an [IndexError]. *)
Theorem output_target_generated (end_tokens context gen : list Z) (k : nat) :
  (Py.contains (-1) (context ++ gen) = false ->
   context ++ gen <> [] ->
   ME.output_target end_tokens (Py.len context) (context ++ gen ++ repeat (-1) k)
   = Ok (if Py.contains (last (context ++ gen) 0) end_tokens
         then removelast gen else gen))
  /\ ME.output_target end_tokens (Py.len context) [] = Err IndexError.
Proof.
  split; [|reflexivity].
  intros Hc Hne. unfold ME.output_target.
  rewrite app_assoc.
  rewrite (proj1 (unfinished_after_body (context ++ gen) k Hc)).
  rewrite (getitem_last _ Hne). cbn [bind].
  pose proof (len_nonneg context) as Hn1. pose proof (len_nonneg gen) as Hn2.
  assert (Hlen : 1 <= Py.len (context ++ gen)).
  { destruct (context ++ gen) as [|x t] eqn:E; [congruence|].
    rewrite len_cons. pose proof (len_nonneg t). lia. }
  rewrite len_app in Hlen.
  destruct (Py.contains (last (context ++ gen) 0) end_tokens).
  - rewrite slice_app_prefix by (rewrite ?len_app; lia).
    rewrite slice_app_suffix by (rewrite ?len_app; lia).
    rewrite len_app, <- firstn_pred_removelast. unfold Py.len.
    replace (Z.to_nat (Z.of_nat (length context) + Z.of_nat (length gen) - 1
                       - Z.of_nat (length context)))
      with (length gen - 1)%nat by lia.
    reflexivity.
  - rewrite slice_app_prefix by (rewrite ?len_app; lia).
    rewrite slice_app_suffix by (rewrite ?len_app; lia).
    rewrite len_app. f_equal. apply firstn_all2. unfold Py.len. lia.
Qed.

Lemma output_target_generated_witness :
  Py.contains (-1) ([11; 12; 150000; 150004] ++ [21; 22; 20002]) = false
  /\ [11; 12; 150000; 150004] ++ [21; 22; 20002] <> []
  /\ ME.output_target [150005; 20002] (Py.len [11; 12; 150000; 150004])
       ([11; 12; 150000; 150004] ++ [21; 22; 20002] ++ repeat (-1) 3)
     = Ok [21; 22].
Proof.
  assert (H1 : Py.contains (-1) ([11; 12; 150000; 150004] ++ [21; 22; 20002]) = false)
    by reflexivity.
  assert (H2 : [11; 12; 150000; 150004] ++ [21; 22; 20002] <> []) by discriminate.
  split; [exact H1 | split; [exact H2|]].
  exact (proj1 (output_target_generated [150005; 20002] [11; 12; 150000; 150004]
                  [21; 22; 20002] 3) H1 H2).
Defined.

(** [a[len(l1):] = v] on [l1 ++ l2]. *)
Lemma assign_from_app (l1 l2 : list Z) (v : Z) :
  Py.assign_from (Py.len l1) v (l1 ++ l2) = l1 ++ repeat v (length l2).
Proof.
  unfold Py.assign_from. rewrite len_app.
  pose proof (len_nonneg l1) as H1. pose proof (len_nonneg l2) as H2.
  rewrite norm_bound_clip by lia.
  replace (Z.min (Py.len l1) (Py.len l1 + Py.len l2)) with (Py.len l1) by lia.
  unfold Py.imap.
  assert (G2 : forall l i, Py.len l1 <= i ->
             Py.imap_from (fun j x => if Py.len l1 <=? j then v else x) i l
             = repeat v (length l)).
  { induction l as [|x t IH]; intros i Hi; cbn [Py.imap_from length repeat]; [reflexivity|].
    destruct (Z.leb_spec (Py.len l1) i); [|lia]. f_equal. apply IH. lia. }
  assert (G1 : forall l i s, s = i + Py.len l ->
             Py.imap_from (fun j x => if s <=? j then v else x) i (l ++ l2)
             = l ++ Py.imap_from (fun j x => if s <=? j then v else x) s l2).
  { induction l as [|x t IH]; intros i s Hs; cbn [app Py.imap_from].
    - f_equal. unfold Py.len in Hs. simpl in Hs. lia.
    - rewrite len_cons in Hs. pose proof (len_nonneg t).
      destruct (Z.leb_spec s i); [lia|]. f_equal. apply IH. lia. }
  rewrite (G1 l1 0 (Py.len l1)) by lia. f_equal. apply G2. lia.
Qed.

(** X14.  What [generate_text] hands to the decoder for a sample of the
    generation encoder, with [max_length] the [max_seq_length] of the
    sample: the context tokens of the sample followed by [-1] sentinels
    in place of the padding, [max_seq_length] tokens in all. *)
Theorem sequence_to_fill_of_sample (get_command : string -> Z) (text : list Z)
    (max_seq_length : Z) (use_task_mask unidirectional : bool) (item : GD.gen_item) :
  GD.build_generation_sample get_command text max_seq_length use_task_mask unidirectional
  = Ok item ->
  ME.sequence_to_fill item max_seq_length
  = firstn (Z.to_nat (GD.context_length item)) (GD.tokens item)
      ++ repeat (-1) (Z.to_nat (max_seq_length - GD.context_length item))
  /\ Py.len (ME.sequence_to_fill item max_seq_length) = max_seq_length.
Proof.
  intros Hb.
  destruct (build_generation_sample_inv _ _ _ _ _ _ Hb) as (mp & token & Ht & Hfit).
  destruct (build_generation_sample_ok _ _ _ _ _ _ _ Ht Hfit) as (vis & _ & Hb').
  rewrite Hb in Hb'. injection Hb' as ->. cbn [GD.context_length GD.tokens].
  pose proof (len_nonneg token) as Hn.
  unfold ME.sequence_to_fill. cbn [GD.context_length GD.tokens].
  assert (Hslice : Py.slice (token ++ repeat 0 (Z.to_nat (max_seq_length - Py.len token)))
                     0 max_seq_length
                   = token ++ repeat 0 (Z.to_nat (max_seq_length - Py.len token))).
  { unfold Py.slice.
    assert (Htot : Py.len (token ++ repeat 0 (Z.to_nat (max_seq_length - Py.len token)))
                   = max_seq_length).
    { rewrite len_app. unfold Py.len at 2. rewrite repeat_length. lia. }
    rewrite Htot, !norm_bound_clip by lia.
    rewrite Z.min_id, (Z.min_l 0 max_seq_length) by lia.
    cbn [skipn]. apply firstn_all2.
    unfold Py.len in *. lia. }
  rewrite Hslice, assign_from_app, repeat_length.
  replace (Z.to_nat (Py.len token)) with (length token) by (unfold Py.len; lia).
  rewrite firstn_app, Nat.sub_diag, firstn_all.
  cbn [firstn]. rewrite app_nil_r. split; [reflexivity|].
  rewrite len_app. unfold Py.len at 2. rewrite repeat_length. lia.
Qed.

Lemma sequence_to_fill_of_sample_witness :
  exists item,
    GD.build_generation_sample sample_command [11; 12; 13] 8 false false = Ok item
    /\ ME.sequence_to_fill item 8 = [11; 12; 13; 150000; 150004; -1; -1; -1]
    /\ Py.len (ME.sequence_to_fill item 8) = 8.
Proof.
  eexists. split; [reflexivity|]. split; [reflexivity|].
  exact (proj2 (sequence_to_fill_of_sample sample_command [11; 12; 13] 8 false false
                  _ eq_refl)).
Defined.

(** ** The masks of the inference driver *)

Lemma assign_cols_square (n : nat) (m : Py.matrix) (cstop v : Z) :
  square n m -> square n (Py.assign_cols cstop v m).
Proof.
  intros [Hl Hr]. unfold square, Py.assign_cols. rewrite length_map.
  split; [exact Hl|]. apply Forall_map. eapply Forall_impl; [|exact Hr].
  cbv beta. intros row Hrow. now rewrite imap_length.
Qed.

Lemma entry_assign_cols (n : nat) (m : Py.matrix) (cstop v : Z) (r c : nat) :
  square n m -> 0 <= cstop ->
  Py.entry (Py.assign_cols cstop v m) r c
  = option_map (fun x => if Z.of_nat c <? cstop then v else x) (Py.entry m r c).
Proof.
  intros [Hl Hr] Hcs. unfold Py.entry, Py.assign_cols. rewrite nth_error_map.
  destruct (nth_error m r) as [row|] eqn:E; [|reflexivity]. cbn [option_map].
  rewrite nth_error_imap.
  destruct (nth_error row c) as [x|] eqn:E'; [|reflexivity]. cbn [option_map].
  assert (Hrow : length row = n).
  { rewrite Forall_forall in Hr. apply Hr. eapply nth_error_In; eassumption. }
  assert (Hcn : (c < n)%nat).
  { rewrite <- Hrow. apply nth_error_Some. congruence. }
  unfold Py.len. rewrite Hrow, norm_bound_clip by lia. f_equal.
  destruct (Z.ltb_spec (Z.of_nat c) (Z.min cstop (Z.of_nat n)));
    destruct (Z.ltb_spec (Z.of_nat c) cstop); try lia; reflexivity.
Qed.

(** Two square arrays of one size with the same entries are equal. *)
Lemma matrix_ext (n : nat) (a b : Py.matrix) :
  square n a -> square n b ->
  (forall r c, (r < n)%nat -> (c < n)%nat -> Py.entry a r c = Py.entry b r c) ->
  a = b.
Proof.
  intros [Hla Hra] [Hlb Hrb] Hentry.
  apply nth_error_ext. intros r.
  destruct (Nat.lt_ge_cases r n) as [Hr | Hr].
  - destruct (nth_error a r) as [ra|] eqn:Ea; [|apply nth_error_None in Ea; lia].
    destruct (nth_error b r) as [rb|] eqn:Eb; [|apply nth_error_None in Eb; lia].
    f_equal. apply nth_error_ext. intros c.
    assert (Hlra : length ra = n).
    { rewrite Forall_forall in Hra. apply Hra. eapply nth_error_In; eassumption. }
    assert (Hlrb : length rb = n).
    { rewrite Forall_forall in Hrb. apply Hrb. eapply nth_error_In; eassumption. }
    destruct (Nat.lt_ge_cases c n) as [Hc | Hc].
    + specialize (Hentry r c Hr Hc). unfold Py.entry in Hentry.
      now rewrite Ea, Eb in Hentry.
    + rewrite (proj2 (nth_error_None ra c)) by lia.
      now rewrite (proj2 (nth_error_None rb c)) by lia.
  - rewrite (proj2 (nth_error_None a r)) by lia.
    now rewrite (proj2 (nth_error_None b r)) by lia.
Qed.

(** X15.  The attention mask the inference driver builds for a sequence
    and a context length of at least 1 is the 0/1 visibility matrix the
    evaluation encoder builds for the same length and context length in
    bidirectional mode: entry [(r, c)] is 1 exactly when [c <= r] or both
    are before [context_length - 1].  The [gMASK] variant builds the same
    mask and leaves the position ids as [0 .. len(seq) - 1]. *)
Theorem inference_masks (seq : list Z) (mask_position context_length : Z) :
  1 <= context_length ->
  exists m,
    Inference.get_masks_and_position_ids_mask seq mask_position context_length
    = ([seq], [[m]],
       [Py.assign_from (context_length - 1) mask_position (Py.arange 0 (Py.len seq))])
    /\ Inference.get_masks_and_position_ids_gmask seq mask_position context_length
       = ([seq], [[m]], [Py.arange 0 (Py.len seq)])
    /\ gen_visibility (Py.len seq) context_length false = Ok m
    /\ forall r c : nat,
        (r < length seq)%nat -> (c < length seq)%nat ->
        Py.entry m r c
        = Some (if (c <=? r)%nat
                   || ((Z.of_nat r <? context_length - 1)
                       && (Z.of_nat c <? context_length - 1))
                then 1 else 0).
Proof.
  intros Hctx.
  set (n := length seq).
  pose proof (tril_square _ _ (ones_square n)) as Hsq.
  assert (Hentry : forall r c : nat,
             (r < n)%nat -> (c < n)%nat ->
             Py.entry (Py.assign_cols (context_length - 1) 1 (Py.tril (Py.ones n))) r c
             = Some (if (c <=? r)%nat
                        || ((Z.of_nat r <? context_length - 1)
                            && (Z.of_nat c <? context_length - 1))
                     then 1 else 0)).
  { intros r c Hr Hc. rewrite (entry_assign_cols _ _ _ _ _ _ Hsq) by lia.
    rewrite entry_tril_ones by assumption. cbn [option_map]. f_equal.
    destruct (Nat.leb_spec c r); cbn [orb].
    - now destruct (Z.of_nat c <? context_length - 1).
    - destruct (Z.ltb_spec (Z.of_nat c) (context_length - 1));
        destruct (Z.ltb_spec (Z.of_nat r) (context_length - 1)); try reflexivity; lia. }
  exists (Py.assign_cols (context_length - 1) 1 (Py.tril (Py.ones n))).
  split; [reflexivity|]. split; [reflexivity|]. split; [|exact Hentry].
  rewrite gen_visibility_ok by apply len_nonneg. cbn [negb]. f_equal.
  unfold Py.len. rewrite Nat2Z.id. fold n.
  apply (matrix_ext n).
  - now apply assign_block_square.
  - now apply assign_cols_square.
  - intros r c Hr Hc. rewrite (Hentry r c Hr Hc).
    rewrite (entry_assign_block _ _ _ _ _ _ _ Hsq) by lia.
    rewrite entry_tril_ones by assumption. cbn [option_map]. f_equal.
    destruct (Nat.leb_spec c r); cbn [orb].
    + now destruct (_ && _).
    + reflexivity.
Qed.

Lemma inference_masks_witness :
  1 <= 4
  /\ exists m,
      Inference.get_masks_and_position_ids_mask [11; 150000; 13; 150004; -1] 1 4
      = ([[11; 150000; 13; 150004; -1]], [[m]], [[0; 1; 2; 1; 1]])
      /\ gen_visibility (Py.len [11; 150000; 13; 150004; -1]) 4 false = Ok m.
Proof.
  assert (H : 1 <= 4) by lia.
  split; [exact H|].
  destruct (inference_masks [11; 150000; 13; 150004; -1] 1 4 H) as (m & Hm & _ & Hv & _).
  exists m. split; [exact Hm | exact Hv].
Defined.

(** ** The rounds of the mask-filling loop *)

Lemma contains_count (x : Z) (l : list Z) :
  Py.contains x l = false <-> count_occ Z.eq_dec l x = 0%nat.
Proof.
  induction l as [|y t IH]; cbn [Py.contains existsb count_occ]; [tauto|].
  destruct (Z.eq_dec y x) as [-> | Hne].
  - rewrite Z.eqb_refl. cbn [orb]. split; [discriminate | lia].
  - destruct (Z.eqb_spec x y); [congruence|]. cbn [orb]. exact IH.
Qed.

Lemma contains_removelast (x : Z) (l : list Z) :
  Py.contains x l = false -> Py.contains x (removelast l) = false.
Proof.
  induction l as [|y t _] using rev_ind; [auto|].
  rewrite removelast_last, contains_app. intros H.
  now apply orb_false_elim in H.
Qed.

Lemma split_at {A : Type} (l : list A) (n : nat) (x : A) :
  nth_error l n = Some x -> l = firstn n l ++ x :: skipn (S n) l.
Proof.
  revert n. induction l as [|y t IH]; intros n H.
  - destruct n; discriminate.
  - destruct n as [|n]; cbn in H |- *.
    + now injection H as ->.
    + f_equal. now apply IH.
Qed.

Lemma slice_prefix_firstn {A : Type} (l : list A) (hi : Z) :
  0 <= hi -> Py.slice l 0 hi = firstn (Z.to_nat hi) l.
Proof.
  intros Hhi. unfold Py.slice. pose proof (len_nonneg l) as Hn.
  rewrite !norm_bound_clip by lia. rewrite (Z.min_l 0) by lia.
  rewrite Z.sub_0_r. cbn [Z.to_nat skipn].
  destruct (Z_le_gt_dec hi (Py.len l)) as [Hle | Hgt].
  - now rewrite Z.min_l by lia.
  - rewrite Z.min_r by lia.
    rewrite !firstn_all2; [reflexivity | unfold Py.len in *; lia | unfold Py.len in *; lia].
Qed.

Lemma last_app_cons (l1 : list Z) (x : Z) (l2 : list Z) :
  last (l1 ++ x :: l2) 0 = last (x :: l2) 0.
Proof.
  induction l1 as [|y t IH]; [reflexivity|].
  cbn [app]. rewrite <- IH. cbn [last]. now destruct (t ++ x :: l2) eqn:E;
    [destruct t; discriminate|].
Qed.

Lemma unfinished_of_body (end_tokens body : list Z) (k : nat) :
  Py.contains (-1) body = false -> body <> [] ->
  Inference.unfinished_of end_tokens (body ++ repeat (-1) k)
  = Ok (if Py.contains (last body 0) end_tokens then Py.len body - 1 else Py.len body).
Proof.
  intros Hc Hne. unfold Inference.unfinished_of.
  rewrite (proj2 (unfinished_after_body _ k Hc)), (getitem_last _ Hne). reflexivity.
Qed.

(** What one decoder output is filled back to: the sequence with its mask
    at [mask_position] replaced by the generated tokens. *)
Lemma fill_back_generated (sop : Z) (end_tokens seq gen : list Z) (k : nat)
    (mask_position : Z) :
  sop <> -1 ->
  Py.contains sop seq = false ->
  Py.contains (-1) seq = false ->
  Py.contains (-1) gen = false ->
  0 <= mask_position < Py.len seq ->
  Inference.fill_back sop end_tokens mask_position (seq ++ sop :: gen ++ repeat (-1) k)
  = Ok (firstn (Z.to_nat mask_position) seq
        ++ (if Py.contains (last (sop :: gen) 0) end_tokens then removelast gen else gen)
        ++ skipn (S (Z.to_nat mask_position)) seq).
Proof.
  intros Hsop Hs Hm1 Hg Hmp.
  pose proof (len_nonneg seq) as Hn1. pose proof (len_nonneg gen) as Hn2.
  assert (Hbody : Py.contains (-1) (seq ++ sop :: gen) = false).
  { rewrite contains_app, Hm1. cbn [Py.contains existsb orb].
    destruct (Z.eqb_spec (-1) sop); [congruence | exact Hg]. }
  assert (Hne : seq ++ sop :: gen <> []) by (destruct seq; discriminate).
  assert (Hlen : Py.len (seq ++ sop :: gen) = Py.len seq + 1 + Py.len gen).
  { rewrite len_app, len_cons. lia. }
  assert (Hout : seq ++ sop :: gen ++ repeat (-1) k
                 = (seq ++ sop :: gen) ++ repeat (-1) k)
    by (now rewrite <- app_assoc).
  unfold Inference.fill_back.
  rewrite Hout at 1.
  rewrite (unfinished_of_body _ _ k Hbody Hne). cbn [bind].
  rewrite last_app_cons.
  assert (Hbog : Py.index sop (seq ++ sop :: gen ++ repeat (-1) k) = Ok (Py.len seq)).
  { unfold Py.index. rewrite (index_from_app_absent _ _ _ Hs).
    cbn [Py.index_from]. now rewrite Z.eqb_refl. }
  rewrite Hbog. cbn [bind]. f_equal.
  rewrite (slice_app_prefix seq) by lia.
  rewrite slice_prefix_firstn by lia. f_equal.
  rewrite (slice_app_prefix seq _ (mask_position + 1)) by lia.
  rewrite slice_suffix by lia.
  replace (Z.to_nat (mask_position + 1)) with (S (Z.to_nat mask_position)) by lia.
  f_equal.
  replace (seq ++ sop :: gen ++ repeat (-1) k)
    with ((seq ++ [sop]) ++ gen ++ repeat (-1) k)
    by (now rewrite <- app_assoc).
  replace (Py.len seq + 1) with (Py.len (seq ++ [sop]))
    by (rewrite len_app; reflexivity).
  rewrite Hlen.
  destruct (Py.contains (last (sop :: gen) 0) end_tokens).
  - rewrite slice_app_suffix by lia. rewrite len_app.
    replace (Z.to_nat (Py.len seq + 1 + Py.len gen - 1 - (Py.len seq + Py.len [sop])))
      with (length gen - 1)%nat by (unfold Py.len; simpl length; lia).
    rewrite firstn_app.
    replace (length gen - 1 - length gen)%nat with 0%nat by lia.
    cbn [firstn]. rewrite app_nil_r. apply firstn_pred_removelast.
  - rewrite slice_app_suffix by lia. rewrite len_app.
    replace (Z.to_nat (Py.len seq + 1 + Py.len gen - (Py.len seq + Py.len [sop])))
      with (length gen) by (unfold Py.len; simpl length; lia).
    rewrite firstn_app, Nat.sub_diag, firstn_all. cbn [firstn]. apply app_nil_r.
Qed.

(** The first mask found by the scan of a sequence that has one. *)
Lemma detect_spec (mask : Z) (seq : list Z) :
  (Py.contains mask seq = false -> Inference.detect mask seq = Py.len seq)
  /\ (Py.contains mask seq = true ->
      0 <= Inference.detect mask seq < Py.len seq
      /\ nth_error seq (Z.to_nat (Inference.detect mask seq)) = Some mask
      /\ Py.contains mask (firstn (Z.to_nat (Inference.detect mask seq)) seq) = false).
Proof.
  unfold Inference.detect. split; intros H.
  - now rewrite (index_of_absent _ _ H).
  - destruct (index_of_contains _ _ H) as (p & Hp & Hr & Hn & Hf). rewrite Hp.
    rewrite Z.min_r by lia. repeat split; try lia; assumption.
Qed.

(** X16.  One round of the loop resolves exactly the earliest mask.  For a
    working sequence without start-of-prediction id and sentinel, whose
    earliest mask is at [mask_position], and a decoder output made of the
    sequence, the start-of-prediction id, generated tokens free of
    sentinels, and trailing sentinels: the output is filled back to the
    sequence with that one mask replaced by the generated tokens (less a
    final end token); when the generated tokens hold no mask, the result
    has one mask fewer. *)
Theorem fill_back_resolves_one_mask (sop mask : Z) (end_tokens seq gen : list Z)
    (k : nat) :
  sop <> -1 ->
  Py.contains sop seq = false ->
  Py.contains (-1) seq = false ->
  Py.contains (-1) gen = false ->
  Inference.detect mask seq <> Py.len seq ->
  exists before after gen',
    seq = before ++ mask :: after
    /\ Py.contains mask before = false
    /\ gen' = (if Py.contains (last (sop :: gen) 0) end_tokens
               then removelast gen else gen)
    /\ Inference.fill_back sop end_tokens (Inference.detect mask seq)
         (seq ++ sop :: gen ++ repeat (-1) k)
       = Ok (before ++ gen' ++ after)
    /\ (Py.contains mask gen = false ->
        S (count_occ Z.eq_dec (before ++ gen' ++ after) mask)
        = count_occ Z.eq_dec seq mask).
Proof.
  intros Hsop Hs Hm1 Hg Hdet.
  destruct (detect_spec mask seq) as [Habs Hpres].
  destruct (Py.contains mask seq) eqn:Ec; [|now specialize (Habs eq_refl)].
  destruct (Hpres eq_refl) as (Hr & Hn & Hf).
  set (mp := Inference.detect mask seq) in *.
  exists (firstn (Z.to_nat mp) seq), (skipn (S (Z.to_nat mp)) seq).
  eexists. split; [now apply split_at|]. split; [exact Hf|]. split; [reflexivity|].
  split; [now apply fill_back_generated|].
  intros Hgm.
  rewrite (split_at seq (Z.to_nat mp) mask Hn) at 3.
  rewrite !count_occ_app. cbn [count_occ].
  destruct (Z.eq_dec mask mask); [|congruence].
  assert (Hg0 : count_occ Z.eq_dec
                  (if Py.contains (last (sop :: gen) 0) end_tokens
                   then removelast gen else gen) mask = 0%nat).
  { apply contains_count. destruct (Py.contains _ end_tokens);
      [now apply contains_removelast | exact Hgm]. }
  rewrite Hg0. lia.
Qed.

Lemma fill_back_resolves_one_mask_witness :
  150004 <> -1
  /\ Py.contains 150004 [11; 150000; 13; 150000] = false
  /\ Py.contains (-1) [11; 150000; 13; 150000] = false
  /\ Py.contains (-1) [21; 22; 20002] = false
  /\ Inference.detect 150000 [11; 150000; 13; 150000] <> Py.len [11; 150000; 13; 150000]
  /\ Inference.fill_back 150004 [150005; 20002]
       (Inference.detect 150000 [11; 150000; 13; 150000])
       ([11; 150000; 13; 150000] ++ 150004 :: [21; 22; 20002] ++ repeat (-1) 2)
     = Ok [11; 21; 22; 13; 150000]
  /\ exists before after gen',
      [11; 150000; 13; 150000] = before ++ 150000 :: after
      /\ Inference.fill_back 150004 [150005; 20002]
           (Inference.detect 150000 [11; 150000; 13; 150000])
           ([11; 150000; 13; 150000] ++ 150004 :: [21; 22; 20002] ++ repeat (-1) 2)
         = Ok (before ++ gen' ++ after).
Proof.
  assert (H1 : 150004 <> -1) by discriminate.
  assert (H2 : Py.contains 150004 [11; 150000; 13; 150000] = false) by reflexivity.
  assert (H3 : Py.contains (-1) [11; 150000; 13; 150000] = false) by reflexivity.
  assert (H4 : Py.contains (-1) [21; 22; 20002] = false) by reflexivity.
  assert (H5 : Inference.detect 150000 [11; 150000; 13; 150000]
               <> Py.len [11; 150000; 13; 150000]) by (vm_compute; discriminate).
  repeat (split; [assumption|]). split; [reflexivity|].
  destruct (fill_back_resolves_one_mask 150004 150000 [150005; 20002]
              [11; 150000; 13; 150000] [21; 22; 20002] 2 H1 H2 H3 H4 H5)
    as (before & after & gen' & Hseq & _ & _ & Hfb & _).
  exists before, after, gen'. split; [exact Hseq | exact Hfb].
Defined.

Lemma contains_cons (x y : Z) (l : list Z) :
  Py.contains x (y :: l) = (x =? y) || Py.contains x l.
Proof. reflexivity. Qed.

(** One decoder output filled back, for the loop. *)
Lemma fill_back_resolves_round (sop mask : Z) (end_tokens seq gen : list Z) (k : nat) :
  sop <> -1 ->
  Py.contains sop seq = false ->
  Py.contains (-1) seq = false ->
  Py.contains (-1) gen = false ->
  Inference.detect mask seq <> Py.len seq ->
  exists before after gen',
    seq = before ++ mask :: after
    /\ gen' = (if Py.contains (last (sop :: gen) 0) end_tokens
               then removelast gen else gen)
    /\ Inference.fill_back sop end_tokens (Inference.detect mask seq)
         (seq ++ sop :: gen ++ repeat (-1) k)
       = Ok (before ++ gen' ++ after).
Proof.
  intros Hsop Hs Hm1 Hg Hdet.
  destruct (detect_spec mask seq) as [Habs Hpres].
  destruct (Py.contains mask seq) eqn:Ec; [|now specialize (Habs eq_refl)].
  destruct (Hpres eq_refl) as (Hr & Hn & Hf).
  exists (firstn (Z.to_nat (Inference.detect mask seq)) seq),
    (skipn (S (Z.to_nat (Inference.detect mask seq))) seq).
  eexists. split; [now apply split_at|]. split; [reflexivity|].
  now apply fill_back_generated.
Qed.

Section LoopFacts.

Variable get_command : string -> Z.
Variable decoder_state : Type.
Variable filling_sequence :
  decoder_state -> list Z -> Z -> Z -> Z -> list (list Z) * decoder_state.
Variable a : Inference.args.

Local Abbreviation sop := (get_command "sop").
Local Abbreviation mask := (get_command (Inference.generation_mask a)).
Local Abbreviation plain := (plain_sequence sop).
Local Abbreviation filled := (decoder_output sop mask).

Hypothesis sop_token : sop <> -1.

(** The decoder, called as the loop calls it, returns at least one line,
    and every line is the sequence, the start-of-prediction id, generated
    tokens that are neither mask, start-of-prediction id nor sentinel, and
    trailing sentinels. *)
Hypothesis decoder_fills :
  forall st seq k bs mp outputs st',
    filling_sequence st (seq ++ [sop] ++ repeat (-1) k) bs mp (Py.len seq + 1)
    = (outputs, st') ->
    outputs <> [] /\ Forall (filled seq) outputs.

Lemma decode_times_filled (seq : list Z) (mp : Z) (times : nat) :
  forall st outputs st',
    Inference.decode_times get_command decoder_state filling_sequence a times st seq mp
    = (outputs, st') ->
    Forall (filled seq) outputs /\ (times <> 0%nat -> outputs <> []).
Proof.
  induction times as [|times IH]; intros st outputs st'; cbn [Inference.decode_times].
  - intros [= <- <-]. split; [constructor | congruence].
  - destruct (filling_sequence st _ _ mp (Py.len seq + 1)) as [output st1] eqn:E1.
    destruct (Inference.decode_times get_command decoder_state filling_sequence a
                times st1 seq mp) as [outs st2] eqn:E2.
    intros [= <- <-]. destruct (decoder_fills _ _ _ _ _ _ _ E1) as [Hne Hall].
    destruct (IH _ _ _ E2) as [Hall' _]. split.
    + apply Forall_app. split; assumption.
    + intros _ Happ. apply app_eq_nil in Happ. destruct Happ as [H _]. contradiction.
Qed.

Lemma fill_back_all_filled (seq : list Z) (m : nat) (outputs : list (list Z)) :
  plain seq ->
  count_occ Z.eq_dec seq mask = S m ->
  Forall (filled seq) outputs ->
  exists rs,
    Inference.fill_back_all get_command a (Inference.detect mask seq) outputs = Ok rs
    /\ length rs = length outputs
    /\ Forall (fun r => plain r /\ count_occ Z.eq_dec r mask = m) rs.
Proof.
  intros [Hs Hm1] Hcount. induction 1 as [|out rest Hout _ IH];
    cbn [Inference.fill_back_all]; unfold plain_sequence.
  - exists []. repeat split; constructor.
  - destruct Hout as (gen & k & -> & Hgm & Hgs & Hg1).
    assert (Hdet : Inference.detect mask seq <> Py.len seq).
    { destruct (detect_spec mask seq) as [_ Hpres].
      destruct (Py.contains mask seq) eqn:Ec; [destruct (Hpres eq_refl); lia|].
      apply contains_count in Ec. lia. }
    destruct (fill_back_resolves_round sop mask (Inference.end_tokens get_command)
                seq gen k sop_token Hs Hm1 Hg1 Hdet)
      as (before & after & gen' & Hseq & Hgen' & Hfb).
    rewrite Hfb. cbn [bind].
    destruct IH as (rs & Hrs & Hlen & Hall). rewrite Hrs. cbn [bind].
    exists ((before ++ gen' ++ after) :: rs).
    split; [reflexivity|]. split; [simpl; now rewrite Hlen|].
    constructor; [|exact Hall].
    assert (Hfree : forall x, Py.contains x gen = false -> Py.contains x gen' = false).
    { intros x Hx. subst gen'.
      destruct (Py.contains (last (sop :: gen) 0) (Inference.end_tokens get_command));
        [now apply contains_removelast | exact Hx]. }
    rewrite Hseq in Hs, Hm1, Hcount.
    rewrite contains_app, contains_cons in Hs, Hm1.
    apply orb_false_elim in Hs, Hm1. destruct Hs as [Hs1 Hs2], Hm1 as [Hm2 Hm3].
    apply orb_false_elim in Hs2, Hm3. destruct Hs2 as [_ Hs2], Hm3 as [_ Hm3].
    split; [split|].
    + now rewrite !contains_app, Hs1, (Hfree _ Hgs), Hs2.
    + now rewrite !contains_app, Hm2, (Hfree _ Hg1), Hm3.
    + rewrite !count_occ_app in *. cbn [count_occ] in Hcount.
      destruct (Z.eq_dec mask mask); [|congruence].
      rewrite (proj1 (contains_count _ _) (Hfree _ Hgm)). lia.
Qed.

(** The loop on a list of sequences that all hold [m] masks: it takes
    exactly [m] rounds. *)
Lemma fill_masks_rounds (m : nat) :
  forall (fuel : nat) (st : decoder_state) (output_list : list (list Z)),
    output_list <> [] ->
    Forall (fun o => plain o /\ count_occ Z.eq_dec o mask = m) output_list ->
    ((m < fuel)%nat ->
     exists out,
       Inference.fill_masks get_command decoder_state filling_sequence a fuel st output_list
       = Some (Ok out)
       /\ out <> []
       /\ Forall (fun o => plain o /\ Py.contains mask o = false) out)
    /\ ((fuel <= m)%nat ->
        Inference.fill_masks get_command decoder_state filling_sequence a fuel st output_list
        = None).
Proof.
  induction m as [|m IH]; intros fuel st ol Hne Hall.
  - destruct ol as [|seq rest]; [congruence|].
    inversion Hall as [|? ? [Hplain Hcount] _]; subst.
    apply contains_count in Hcount.
    split.
    + intros Hfuel. destruct fuel as [|fuel]; [lia|].
      cbn [Inference.fill_masks]. unfold Py.getitem. cbn [Z.ltb Z.compare Z.to_nat nth_error].
      rewrite (proj1 (detect_spec mask seq) Hcount), Z.eqb_refl.
      eexists. split; [reflexivity|]. split; [discriminate|].
      eapply Forall_impl; [|exact Hall]. cbv beta. intros o [Hp Hc].
      split; [exact Hp | now apply contains_count].
    + intros Hfuel. destruct fuel; [reflexivity | lia].
  - destruct ol as [|seq rest]; [congruence|].
    inversion Hall as [|? ? [Hplain Hcount] _]; subst.
    assert (Hdet : Inference.detect mask seq <> Py.len seq).
    { destruct (detect_spec mask seq) as [_ Hpres].
      destruct (Py.contains mask seq) eqn:Ec; [destruct (Hpres eq_refl); lia|].
      apply contains_count in Ec. lia. }
    destruct fuel as [|fuel]; [split; [lia | reflexivity]|].
    cbn [Inference.fill_masks]. unfold Py.getitem. cbn [Z.ltb Z.compare Z.to_nat nth_error].
    destruct (Z.eqb_spec (Inference.detect mask seq) (Py.len seq)); [contradiction|].
    destruct (Inference.decode_times get_command decoder_state filling_sequence a
                (Z.to_nat (Z.max (Inference.batch_size a
                                  / Z.pos (Inference.max_inference_batch_size a)) 1))
                st seq (Inference.detect mask seq)) as [outs st'] eqn:Ed.
    destruct (decode_times_filled _ _ _ _ _ _ Ed) as [Hfilled Hnonempty].
    destruct (fill_back_all_filled seq m outs Hplain Hcount Hfilled)
      as (rs & Hrs & Hlen & Hgood).
    rewrite Hrs.
    assert (Hrne : rs <> []).
    { assert (outs <> []) by (apply Hnonempty; lia).
      destruct rs; [destruct outs; [congruence | discriminate] | discriminate]. }
    destruct (IH fuel st' rs Hrne Hgood) as [Hdone Hout].
    split; intros Hfuel; [apply Hdone | apply Hout]; lia.
Qed.


End LoopFacts.

Lemma sample_decoder_fills :
  forall (st : unit) (seq : list Z) (k : nat) (bs mp : Z) (outputs : list (list Z))
         (st' : unit),
    sample_decoder st (seq ++ [sample_command "sop"] ++ repeat (-1) k) bs mp
      (Py.len seq + 1) = (outputs, st') ->
    outputs <> []
    /\ Forall (decoder_output (sample_command "sop")
                 (sample_command (Inference.generation_mask sample_args)) seq) outputs.
Proof.
  intros st seq k bs mp outputs st'. unfold sample_decoder. intros [= <- _].
  split; [discriminate|]. constructor; [|constructor].
  exists [21; 22; 20002]. eexists.
  split; [|repeat split; reflexivity].
  replace (Z.to_nat (Py.len seq + 1)) with (length (seq ++ [sample_command "sop"]))
    by (rewrite length_app; unfold Py.len; simpl length; lia).
  change (seq ++ sample_command "sop" :: repeat (-1) k)
    with (seq ++ [sample_command "sop"] ++ repeat (-1) k).
  rewrite (app_assoc seq [sample_command "sop"] (repeat (-1) k)).
  rewrite firstn_app, Nat.sub_diag, firstn_all. cbn [firstn].
  rewrite app_nil_r, <- app_assoc. reflexivity.
Qed.


(** ** What padding means for attention *)

(** X18.  In a collated batch of well-shaped samples, every padding
    position is blocked: for a sample of [n] tokens padded to [L], the
    delivered mask is [True] at every entry whose row or column is [n] or
    later, and the padded tokens and position ids there are 0. *)
Theorem collate_padding_is_blocked (flag : bool) (samples : list MC.sample)
    (b : MC.batch) (L : Z) :
  samples <> [] ->
  Forall well_shaped samples ->
  MC.collate_fn flag samples = Ok b ->
  MC.length_to_pad samples = Ok L ->
  forall (i : nat) (s : MC.sample),
    nth_error samples i = Some s ->
    exists m toks pos,
      nth_error (MC.batch_attention_mask b) i = Some m
      /\ nth_error (MC.tokens b) i = Some toks
      /\ nth_error (MC.position_ids b) i = Some pos
      /\ forall r c : nat,
          Z.of_nat r < L -> Z.of_nat c < L ->
          (length (MC.token s) <= r)%nat \/ (length (MC.token s) <= c)%nat ->
          Py.entry m r c = Some true
          /\ ((length (MC.token s) <= r)%nat ->
              nth_error toks r = Some 0 /\ nth_error pos r = Some 0).
Proof.
  intros Hne Hws Hb HL i s Hi.
  destruct (collate_fn_ok flag samples Hne Hws) as (L' & HL' & H0 & Hle & Hb').
  rewrite HL in HL'. injection HL' as <-.
  rewrite Hb in Hb'. injection Hb' as ->.
  cbn [MC.batch_attention_mask MC.tokens MC.position_ids].
  assert (Hin : In s samples) by (eapply nth_error_In; eassumption).
  rewrite Forall_forall in Hws. destruct (Hws s Hin) as [Hpos Hsq].
  specialize (Hle s Hin). unfold Py.len in Hle.
  do 3 eexists. split.
  { rewrite map_map. apply map_nth_error. exact Hi. }
  split; [apply map_nth_error; exact Hi|].
  split; [apply map_nth_error; exact Hi|].
  intros r c Hr Hc Hpad. split.
  - rewrite entry_lt_half.
    rewrite (entry_pad_zeros _ _ _ _ _ Hsq) by (unfold Py.len; lia).
    destruct Hpad as [Hp | Hp].
    + destruct (Nat.ltb_spec r (length (MC.token s))); [lia | reflexivity].
    + destruct (Nat.ltb_spec c (length (MC.token s))); [lia|].
      now rewrite andb_false_r.
  - intros Hrn. split.
    + rewrite nth_error_app2 by lia. apply nth_error_repeat_lt. unfold Py.len. lia.
    + rewrite nth_error_app2 by lia. apply nth_error_repeat_lt. unfold Py.len. lia.
Qed.

Lemma collate_padding_is_blocked_witness :
  exists s b,
    MC.build_multiple_choice_sample sample_command [11; 12] [[5; 6]; [7]] false false
    = Ok s
    /\ [s] <> []
    /\ Forall well_shaped [s]
    /\ MC.collate_fn false [s] = Ok b
    /\ MC.length_to_pad [s] = Ok 32
    /\ exists m,
        nth_error (MC.batch_attention_mask b) 0 = Some m
        /\ Py.entry m 2 6 = Some true.
Proof.
  assert (Hc : Forall (fun c : list Z => c <> []) [[5; 6]; [7]])
    by (repeat constructor; discriminate).
  do 2 eexists. split; [reflexivity|].
  match goal with
  | |- ?l <> [] /\ _ =>
      assert (Hne : l <> []) by discriminate;
      assert (Hws : Forall well_shaped l)
  end.
  { constructor; [|constructor].
    exact (build_multiple_choice_sample_well_shaped sample_command [11; 12]
             [[5; 6]; [7]] false false _ Hc eq_refl). }
  split; [exact Hne|]. split; [exact Hws|].
  split; [vm_compute; reflexivity|]. split; [reflexivity|].
  match goal with
  | |- exists m, nth_error (MC.batch_attention_mask ?b) 0 = _ /\ _ =>
      destruct (collate_padding_is_blocked false _ b 32 Hne Hws eq_refl eq_refl
                  0%nat _ eq_refl) as (m & toks & pos & Hm & _ & _ & Hentry)
  end.
  exists m. split; [exact Hm|].
  apply (Hentry 2%nat 6%nat); [reflexivity | reflexivity | right; simpl; lia].
Defined.

(** ** [generate_text] from the sample to the targets *)

Lemma output_target_body (end_tokens context gen : list Z) (k : nat) :
  Py.contains (-1) (context ++ gen) = false ->
  context <> [] ->
  ME.output_target end_tokens (Py.len context) (context ++ gen ++ repeat (-1) k)
  = Ok (if Py.contains (last (context ++ gen) 0) end_tokens
        then removelast gen else gen).
Proof.
  intros Hc Hne. unfold ME.output_target.
  assert (Hne' : context ++ gen <> []) by (destruct context; [congruence | discriminate]).
  rewrite app_assoc.
  rewrite (proj1 (unfinished_after_body (context ++ gen) k Hc)).
  rewrite (getitem_last _ Hne'). cbn [bind].
  pose proof (len_nonneg context) as Hn1. pose proof (len_nonneg gen) as Hn2.
  assert (Hlen : 1 <= Py.len context).
  { destruct context as [|x t]; [congruence|].
    rewrite len_cons. pose proof (len_nonneg t). lia. }
  destruct (Py.contains (last (context ++ gen) 0) end_tokens).
  - rewrite slice_app_prefix by (rewrite ?len_app; lia).
    rewrite slice_app_suffix by (rewrite ?len_app; lia).
    rewrite len_app, <- firstn_pred_removelast. unfold Py.len.
    replace (Z.to_nat (Z.of_nat (length context) + Z.of_nat (length gen) - 1
                       - Z.of_nat (length context)))
      with (length gen - 1)%nat by lia.
    reflexivity.
  - rewrite slice_app_prefix by (rewrite ?len_app; lia).
    rewrite slice_app_suffix by (rewrite ?len_app; lia).
    rewrite len_app. f_equal. apply firstn_all2. unfold Py.len. lia.
Qed.

(** X19.  [generate_text] end to end.  For a sample of the generation
    encoder whose context holds no [-1], and a decoder whose output lines
    are the context of the sample, generated tokens free of [-1], and
    trailing sentinels: [generate_text] returns, line by line, exactly the
    generated tokens, less a final end token. *)
Theorem generate_text_returns_generated (get_command : string -> Z)
    (filling_sequence : list Z -> GD.gen_item -> list (list Z))
    (text : list Z) (max_seq_length : Z) (use_task_mask unidirectional : bool)
    (item : GD.gen_item) (end_tokens : list Z) (gens : list (list Z)) :
  GD.build_generation_sample get_command text max_seq_length use_task_mask unidirectional
  = Ok item ->
  let context := firstn (Z.to_nat (GD.context_length item)) (GD.tokens item) in
  Py.contains (-1) context = false ->
  Forall2 (fun line gen =>
             Py.contains (-1) gen = false
             /\ exists k, line = context ++ gen ++ repeat (-1) k)
    (filling_sequence (ME.sequence_to_fill item max_seq_length) item) gens ->
  ME.generate_text filling_sequence item end_tokens max_seq_length
  = Ok (map (fun gen => if Py.contains (last (context ++ gen) 0) end_tokens
                        then removelast gen else gen) gens).
Proof.
  intros Hb context Hctx Hout.
  destruct (build_generation_sample_inv _ _ _ _ _ _ Hb) as (mp & token & Ht & Hfit).
  destruct (build_generation_sample_ok _ _ _ _ _ _ _ Ht Hfit) as (vis & _ & Hb').
  pose proof (gen_tokens_nonempty _ _ _ _ _ _ Ht) as Hne.
  assert (Hcontext : context = token /\ GD.context_length item = Py.len token).
  { subst context. rewrite Hb in Hb'. injection Hb' as ->.
    cbn [GD.context_length GD.tokens].
    replace (Z.to_nat (Py.len token)) with (length token) by (unfold Py.len; lia).
    rewrite firstn_app, Nat.sub_diag, firstn_all. cbn [firstn].
    split; [apply app_nil_r | reflexivity]. }
  destruct Hcontext as [Hcontext Hlen].
  unfold ME.generate_text. rewrite Hlen, <- Hcontext.
  assert (Hcne : context <> []).
  { rewrite Hcontext. destruct token; [unfold Py.len in Hne; simpl in Hne; lia|].
    discriminate. }
  clear - Hctx Hout Hcne.
  induction Hout as [|line gen lines gens' [Hg (k & ->)] _ IH];
    cbn [ME.output_targets map]; [reflexivity|].
  rewrite output_target_body; [|now rewrite contains_app, Hctx, Hg | exact Hcne].
  cbn [bind]. rewrite IH. reflexivity.
Qed.

Lemma generate_text_returns_generated_witness :
  exists item,
    GD.build_generation_sample sample_command [11; 12; 13] 8 false false = Ok item
    /\ Py.contains (-1) (firstn (Z.to_nat (GD.context_length item)) (GD.tokens item))
       = false
    /\ ME.generate_text
         (fun seq _ => [firstn 5 seq ++ [21; 20002] ++ repeat (-1) 1;
                        firstn 5 seq ++ [21; 22; 23]])
         item [150005; 20002] 8
       = Ok [[21]; [21; 22; 23]].
Proof.
  eexists. split; [reflexivity|].
  assert (Hc : Py.contains (-1) [11; 12; 13; 150000; 150004] = false) by reflexivity.
  split; [exact Hc|].
  apply (generate_text_returns_generated sample_command
           (fun seq _ => [firstn 5 seq ++ [21; 20002] ++ repeat (-1) 1;
                          firstn 5 seq ++ [21; 22; 23]])
           [11; 12; 13] 8 false false _ [150005; 20002] [[21; 20002]; [21; 22; 23]]
           eq_refl Hc).
  constructor; [|constructor; [|constructor]].
  - split; [reflexivity|]. exists 1%nat. reflexivity.
  - split; [reflexivity|]. exists 0%nat. reflexivity.
Defined.

(** ** Loading the datasets *)

Lemma gen_process_single_item_total (cfg : GD.config) (item : GD.json_item) :
  GD.json_targets item <> [] ->
  exists d k,
    GD.process_single_item cfg item = Ok d
    /\ GD.targets d = GD.json_targets item
    /\ GD.text d = skipn k (GD.inputs item).
Proof.
  intros Hne. unfold GD.process_single_item.
  destruct (py_max_spec (map Py.len (GD.json_targets item))) as (m & Hm & _).
  { destruct (GD.json_targets item); [congruence | discriminate]. }
  rewrite Hm. cbn [bind]. pose proof (len_nonneg (GD.inputs item)) as Hn.
  destruct (Z.gtb_spec (Py.len (GD.inputs item) + m + 2) (GD.max_seq_length cfg)).
  - rewrite slice_suffix by lia. do 2 eexists. repeat split.
  - exists {| GD.text := GD.inputs item; GD.targets := GD.json_targets item |}, 0%nat.
    repeat split.
Qed.

Lemma gen_process_items_err (cfg : GD.config) (items : list GD.json_item) :
  Exists (fun it => GD.json_targets it = []) items ->
  forall acc, GD.process_items cfg items acc = Err ValueError.
Proof.
  induction items as [|item rest IH]; intros Hex acc; [inversion Hex|].
  cbn [GD.process_items].
  destruct (GD.json_targets item) as [|t ts] eqn:Et.
  - unfold GD.process_single_item. rewrite Et. reflexivity.
  - destruct (gen_process_single_item_total cfg item) as (d & k & Hd & _);
      [congruence|].
    rewrite Hd. cbn [bind]. apply IH.
    inversion Hex as [? ? H | ? ? H]; subst; [congruence | exact H].
Qed.

Lemma gen_process_items_ok (cfg : GD.config) (items : list GD.json_item) :
  Forall (fun it => GD.json_targets it <> []) items ->
  forall acc,
  exists data,
    GD.process_items cfg items acc = Ok (acc ++ data)
    /\ Forall2 (fun it d =>
                  GD.targets d = GD.json_targets it
                  /\ exists k, GD.text d = skipn k (GD.inputs it))
         items data.
Proof.
  induction 1 as [|item rest Hitem _ IH]; intros acc; cbn [GD.process_items].
  - exists []. split; [now rewrite app_nil_r | constructor].
  - destruct (gen_process_single_item_total cfg item Hitem) as (d & k & Hd & Ht & Hk).
    rewrite Hd. cbn [bind]. destruct (IH (acc ++ [d])) as (data & Hdata & Hrel).
    exists (d :: data). split; [now rewrite Hdata, <- app_assoc|].
    constructor; [split; [exact Ht | now exists k] | exact Hrel].
Qed.

(** X20.  Loading a generation dataset fails with a [ValueError] when some
    item has no target, and otherwise returns one entry per item, in
    order, each with the targets of its item and a suffix of its text. *)
Theorem generation_init (cfg : GD.config) (items : list GD.json_item) :
  (Exists (fun it => GD.json_targets it = []) items ->
   GD.init cfg items = Err ValueError)
  /\ (Forall (fun it => GD.json_targets it <> []) items ->
      exists data,
        GD.init cfg items = Ok data
        /\ Forall2 (fun it d =>
                      GD.targets d = GD.json_targets it
                      /\ exists k, GD.text d = skipn k (GD.inputs it)) items data).
Proof.
  unfold GD.init. split.
  - intros Hex. now apply gen_process_items_err.
  - intros Hall. destruct (gen_process_items_ok cfg items Hall []) as (data & Hd & Hrel).
    exists data. split; [exact Hd | exact Hrel].
Qed.

Lemma generation_init_witness :
  Forall (fun it => GD.json_targets it <> []) [gen_json_item]
  /\ Exists (fun it => GD.json_targets it = [])
       [gen_json_item; {| GD.inputs := [11]; GD.json_targets := [] |}]
  /\ GD.init gen_config [gen_json_item; {| GD.inputs := [11]; GD.json_targets := [] |}]
     = Err ValueError
  /\ exists data, GD.init gen_config [gen_json_item] = Ok data.
Proof.
  assert (H1 : Forall (fun it => GD.json_targets it <> []) [gen_json_item])
    by (repeat constructor; discriminate).
  assert (H2 : Exists (fun it => GD.json_targets it = [])
                 [gen_json_item; {| GD.inputs := [11]; GD.json_targets := [] |}])
    by (right; left; reflexivity).
  split; [exact H1 | split; [exact H2 | split]].
  - exact (proj1 (generation_init gen_config _) H2).
  - destruct (proj2 (generation_init gen_config [gen_json_item]) H1) as (data & Hd & _).
    exists data. exact Hd.
Defined.

Section MultiChoiceInitFacts.

Variable get_command : string -> Z.

Lemma mc_process_items_labels (cfg : MC.config) (items : list MC.json_item) :
  forall flag data flag' data',
    MC.process_items get_command cfg items flag data = Ok (flag', data') ->
    map MC.label data' = map MC.label data ++ map MC.json_label items.
Proof.
  induction items as [|item rest IH]; intros flag data flag' data'; cbn [MC.process_items].
  - intros [= <- <-]. cbn. now rewrite app_nil_r.
  - destruct (MC.process_single_item get_command cfg flag item) as [[f1 d]|] eqn:E;
      cbn [bind]; [|discriminate].
    intros H. rewrite (IH _ _ _ _ H), map_app. cbn [map].
    destruct (mc_process_single_item_ok _ _ _ _ _ _ E) as (_ & _ & _ & Hl & _).
    now rewrite Hl, <- app_assoc.
Qed.

Lemma mc_process_items_err (cfg : MC.config) (items : list MC.json_item) :
  forall flag data e,
    MC.process_items get_command cfg items flag data = Err e ->
    exists msg, e = AssertionError msg.
Proof.
  induction items as [|item rest IH]; intros flag data e; cbn [MC.process_items];
    [discriminate|].
  destruct (MC.process_single_item get_command cfg flag item) as [[f1 d]|e'] eqn:E;
    cbn [bind].
  - apply IH.
  - intros [= <-]. revert E. unfold MC.process_single_item. unfold assert at 1.
    destruct (_ <? _); cbn [bind]; [|intros [= <-]; eexists; reflexivity].
    unfold assert. destruct (negb _); cbn [bind]; [discriminate|].
    intros [= <-]. eexists; reflexivity.
Qed.

(** X21.  Loading a multi-choice dataset raises nothing but an
    [AssertionError].  When it returns, the dataset holds one entry per
    item, in order, with the choices and the label of its item, and its
    single-token flag is true exactly when the target length of every
    item is 1. *)
Theorem multichoice_init (cfg : MC.config) (items : list MC.json_item) :
  (forall e, MC.init get_command cfg items = Err e -> exists msg, e = AssertionError msg)
  /\ (forall ds,
         MC.init get_command cfg items = Ok ds ->
         MC.ds_config ds = cfg
         /\ map MC.item_choices (MC.data ds) = map MC.json_choices items
         /\ map MC.label (MC.data ds) = map MC.json_label items
         /\ MC.is_single_token ds
            = forallb (fun it => MC.tgt_seq_length (MC.json_choices it) =? 1) items).
Proof.
  unfold MC.init. split.
  - intros e.
    destruct (MC.process_items get_command cfg items true []) as [[flag d]|e'] eqn:E;
      cbn [bind]; [discriminate|].
    intros [= <-]. exact (mc_process_items_err _ _ _ _ _ E).
  - intros ds.
    destruct (MC.process_items get_command cfg items true []) as [[flag d]|e'] eqn:E;
      cbn [bind]; [|discriminate].
    intros [= <-]. cbn [MC.ds_config MC.data MC.is_single_token].
    destruct (process_items_flag _ _ _ _ _ _ _ E) as [Hflag Hch].
    pose proof (mc_process_items_labels _ _ _ _ _ _ E) as Hl.
    cbn [map app andb] in Hflag, Hch, Hl. repeat split; assumption.
Qed.

End MultiChoiceInitFacts.

Lemma multichoice_init_witness :
  exists ds,
    MC.init sample_command sample_config [item_single; item_multi] = Ok ds
    /\ MC.is_single_token ds = false
    /\ map MC.label (MC.data ds) = [1; 0]
    /\ MC.ds_config ds = sample_config.
Proof.
  eexists. split; [reflexivity|]. split; [reflexivity|]. split; [reflexivity|].
  exact (proj1 (proj2 (multichoice_init sample_command sample_config
                         [item_single; item_multi]) _ eq_refl)).
Defined.
